(** * TrafficWork: webhook reconciliation and conversion postbacks

    A shallow embedding of two services of the framework,

    - [StripeService.handleWebhook] and its five type-specific handlers
      (src/core/payment/stripe.service.ts), and
    - [KeitaroService.sendPostback], [trackRegistration], [trackPurchase]
      and [retryFailedPostbacks] (the Keitaro tracking service),

    over an explicit model of the Prisma tables they read and write and of
    the two remote parties they talk to (the Stripe API and the tracker).

    Asynchronous functions are run to completion one at a time: a
    computation takes the world (database and the log of remote calls) and
    returns either a value or a thrown exception, together with the new
    world.  A thrown exception does not roll the world back, exactly as a
    rejected promise does not undo earlier awaited writes.  Logging through
    winston has no effect on the modelled state and is left out. *)

From Stdlib Require Import ZArith QArith Qround Lqa String Ascii List Bool Lia.
From stdpp Require Import base option list strings gmap pretty.

Local Open Scope Z_scope.
Local Open Scope string_scope.
Local Open Scope list_scope.

(* ===================================================================== *)
(** ** JavaScript values used by the services *)
(* ===================================================================== *)

Module JS.

(** [x || undefined] on an optional string: [null], [undefined] and the
    empty string are falsy. *)
Definition truthy (o : option string) : option string :=
  match o with
  | Some s => if String.eqb s "" then None else Some s
  | None => None
  end.

(** [x || d] on an optional string. *)
Definition or_default (o : option string) (d : string) : string :=
  match truthy o with
  | Some s => s
  | None => d
  end.

(** Truthiness of an optional integer column: [null] and [0] are falsy. *)
Definition truthy_int (o : option Z) : option Z :=
  match o with
  | Some n => if Z.eqb n 0 then None else Some n
  | None => None
  end.

(** The range of a Prisma [Int] column (a 32-bit signed integer). *)
Definition in_int32 (n : Z) : bool :=
  Z.leb (- 2 ^ 31) n && Z.leb n (2 ^ 31 - 1).

(** [Math.round]: the nearest integer, halves rounded towards positive
    infinity.  A number is given by its exact value. *)
Definition Math_round (x : Q) : Z :=
  Qfloor (x + (1 # 2))%Q.

(** [2 ^ e] and [10 ^ e] for any integer [e]. *)
Definition pow2 (e : Z) : Q :=
  if Z.leb 0 e then inject_Z (2 ^ e) else (1 # Z.to_pos (2 ^ (- e)))%Q.

Definition pow10 (e : Z) : Q :=
  if Z.leb 0 e then inject_Z (10 ^ e) else (1 # Z.to_pos (10 ^ (- e)))%Q.

Definition Qltb (x y : Q) : bool := negb (Qle_bool y x).

(** The largest [E] with [2 ^ E <= x], for [x > 0]. *)
Definition ilog2 (x : Q) : Z :=
  let e0 := Z.log2 (Qnum x) - Z.log2 (Z.pos (Qden x)) in
  if Qle_bool (pow2 e0) x then e0 else e0 - 1.

(** The largest [N] with [10 ^ N <= x], for [x > 0]. *)
Definition ilog10 (x : Q) : Z :=
  let n0 := ilog2 x * 30103 / 100000 in
  if Qle_bool (pow10 (n0 + 1)) x then n0 + 1
  else if Qle_bool (pow10 n0) x then n0
  else n0 - 1.

(** The integer nearest to [x], halves to the even one. *)
Definition round_half_even (x : Q) : Z :=
  let f := Qfloor x in
  match Qcompare (x - inject_Z f) (1 # 2) with
  | Lt => f
  | Gt => f + 1
  | Eq => if Z.even f then f else f + 1
  end.

(** The magnitude of a binary64 double: zero, [m * 2 ^ e] with
    [0 < m < 2 ^ 53] and [-1074 <= e <= 971], or infinity. *)
Inductive double :=
| Zero
| Finite (m e : Z)
| Infinity.

Definition value (m e : Z) : Q := (inject_Z m * pow2 e)%Q.

(** The double nearest to [x > 0], halves to the even mantissa: what an
    arithmetic operation whose exact result is [x] returns. *)
Definition nearest (x : Q) : double :=
  let e := Z.max (ilog2 x - 52) (- 1074) in
  let m := round_half_even (x / pow2 e) in
  let m' := if Z.eqb m (2 ^ 53) then 2 ^ 52 else m in
  let e' := if Z.eqb m (2 ^ 53) then e + 1 else e in
  if Z.eqb m' 0 then Zero
  else if Z.ltb 971 e' then Infinity
  else Finite m' e'.

(** Whether [v] has [m * 2 ^ e] as its nearest double. *)
Definition rounds_to (m e : Z) (v : Q) : bool :=
  let d := value m e in
  let low := if Z.eqb m (2 ^ 52) && Z.ltb (- 1074) e
             then (d - pow2 (e - 2))%Q else (d - pow2 (e - 1))%Q in
  let high := (d + pow2 (e - 1))%Q in
  if Z.even m then Qle_bool low v && Qle_bool v high
  else Qltb low v && Qltb v high.

(** The [k]-digit decimal [s * 10 ^ (n - k)] that rounds to [m * 2 ^ e] and
    is closest to it, if there is one (Number::toString, step 5). *)
Definition digits_of_length (m e : Z) (k : Z) : option (Z * Z) :=
  let d := value m e in
  let n := ilog10 d + 1 in
  let scale := pow10 (n - k) in
  let s_lo := Qfloor (d / scale) in
  let s_hi := s_lo + 1 in
  let v_lo := (inject_Z s_lo * scale)%Q in
  let v_hi := (inject_Z s_hi * scale)%Q in
  let hi := if Z.eqb s_hi (10 ^ k) then (10 ^ (k - 1), n + 1) else (s_hi, n) in
  match rounds_to m e v_lo, rounds_to m e v_hi with
  | true, true =>
      match Qcompare (d - v_lo) (v_hi - d) with
      | Lt => Some (s_lo, n)
      | Gt => Some hi
      | Eq => if Z.even s_lo then Some (s_lo, n) else Some hi
      end
  | true, false => Some (s_lo, n)
  | false, true => Some hi
  | false, false => None
  end.

(** The least [k], from [k] on, for which there is such a decimal;
    seventeen digits always suffice. *)
Fixpoint shortest (fuel : nat) (m e : Z) (k : Z) : Z * Z * Z :=
  match fuel with
  | O => (k, 0, 0)
  | S fuel' =>
      match digits_of_length m e k with
      | Some (s, n) => (k, s, n)
      | None => shortest fuel' m e (k + 1)
      end
  end.

Fixpoint zeros (n : nat) : string :=
  match n with
  | O => ""
  | S n' => String "0" (zeros n')
  end.

(** Number::toString, steps 6 to 10: plain digits, a decimal point, leading
    zeros, or the exponent form outside [1e-6, 1e21). *)
Definition format (k s n : Z) : string :=
  (let digits := pretty s in
   if Z.leb k n && Z.leb n 21 then digits ++ zeros (Z.to_nat (n - k))
   else if Z.ltb 0 n && Z.leb n 21
   then substring 0 (Z.to_nat n) digits ++ "."
          ++ substring (Z.to_nat n) (Z.to_nat (k - n)) digits
   else if Z.ltb (- 6) n && Z.leb n 0
   then "0." ++ zeros (Z.to_nat (- n)) ++ digits
   else
     let exponent := (if Z.ltb 0 (n - 1) then "+" else "-")
                       ++ pretty (Z.abs (n - 1)) in
     if Z.eqb k 1 then digits ++ "e" ++ exponent
     else substring 0 1 digits ++ "."
            ++ substring 1 (Z.to_nat (k - 1)) digits ++ "e" ++ exponent)%string.

Definition positive_toString (x : Q) : string :=
  match nearest x with
  | Zero => "0"
  | Infinity => "Infinity"
  | Finite m e =>
      match shortest 17 m e 1 with
      | (k, s, n) => format k s n
      end
  end.

(** [Number.prototype.toString] applied to the result of an arithmetic
    expression whose exact value is [x]: JavaScript numbers are binary64
    doubles, so the expression yields the double nearest to [x], and what
    is printed is the shortest decimal that reads back as that double (the
    algorithm of ECMAScript's Number::toString).  On a double it prints
    that double. *)
Definition number_toString (x : Q) : string :=
  match Qcompare x 0 with
  | Eq => "0"
  | Gt => positive_toString x
  | Lt => ("-" ++ positive_toString (- x))%string
  end.

(** Whether [x] is the value of a finite double, that is, of a JavaScript
    number other than NaN and the infinities. *)
Definition is_double (x : Q) : bool :=
  match Qcompare x 0 with
  | Eq => true
  | Gt => match nearest x with Finite m e => Qeq_bool (value m e) x | _ => false end
  | Lt => match nearest (- x) with Finite m e => Qeq_bool (value m e) (- x) | _ => false end
  end.

#[global] Arguments in_int32 : simpl never.
#[global] Arguments number_toString : simpl never.
#[global] Arguments is_double : simpl never.

End JS.

(* ===================================================================== *)
(** ** URLSearchParams *)
(* ===================================================================== *)

Module URLSearchParams.

Definition hex_digit (n : N) : ascii :=
  if N.ltb n 10 then ascii_of_N (48 + n) else ascii_of_N (55 + n).

(** Bytes left as they are by the application/x-www-form-urlencoded
    serializer: ASCII letters and digits and [*], [-], [.], [_]. *)
Definition unreserved (c : ascii) : bool :=
  let n := N_of_ascii c in
  ((48 <=? n) && (n <=? 57) || (65 <=? n) && (n <=? 90)
   || (97 <=? n) && (n <=? 122)
   || (n =? 42) || (n =? 45) || (n =? 46) || (n =? 95))%N.

Definition encode_byte (c : ascii) : string :=
  if unreserved c then String c ""
  else if N.eqb (N_of_ascii c) 32 then "+"
  else String "%" (String (hex_digit (N_of_ascii c / 16))
                     (String (hex_digit (N_of_ascii c mod 16)) "")).

Fixpoint encode (s : string) : string :=
  match s with
  | EmptyString => ""
  | String c rest => encode_byte c ++ encode rest
  end.

Definition t := list (string * string).

(** [params.append(name, value)] *)
Definition append (params : t) (name value : string) : t :=
  params ++ [(name, value)].

(** [params.toString()] *)
Fixpoint toString (params : t) : string :=
  match params with
  | [] => ""
  | [(k, v)] => encode k ++ "=" ++ encode v
  | (k, v) :: rest => encode k ++ "=" ++ encode v ++ "&" ++ toString rest
  end.

End URLSearchParams.

(* ===================================================================== *)
(** ** Data model: the Prisma tables and the Stripe objects *)
(* ===================================================================== *)

(** Columns of [User] read or written by the two services.  The other
    columns (email, password, name, ...) are touched by neither. *)
Record User := mkUser {
  u_id : string;
  u_stripeCustomerId : option string;
  u_subscriptionId : option string;
  u_subscriptionStatus : option string;
  u_subscriptionPlan : option string;
  u_subscriptionEndDate : option Z;
  u_keitaroSubId : option string;
  u_updatedAt : Z
}.

Record Payment := mkPayment {
  p_id : string;
  p_userId : string;
  p_stripePaymentId : string;
  p_amount : Z;
  p_currency : string;
  p_status : string;
  p_paymentMethod : option string;
  p_keitaroSubId : option string;
  p_createdAt : Z
}.

(** A Stripe API object as the handlers read it.  The handlers cast
    [event.data.object] to a session, a subscription or an invoice without
    any check, so one record carries every field that any of them reads;
    a field that the object does not have is [None]. *)
Record StripeObject := mkStripeObject {
  o_id : string;
  o_metadata_userId : option string;
  o_metadata_keitaroSubId : option string;
  o_subscription : option string;
  o_payment_intent : option string;
  o_amount_total : option Z;
  o_amount_paid : Z;
  o_currency : option string;
  o_status : string;
  o_first_price_id : option string;
  o_current_period_end : Z
}.

Record StripeEvent := mkStripeEvent {
  e_id : string;
  e_type : string;
  e_created : Z;
  e_data_object : StripeObject
}.

Record WebhookEvent := mkWebhookEvent {
  w_id : string;
  w_source : string;
  w_eventId : string;
  w_eventType : string;
  w_payload : StripeEvent;
  w_processed : bool;
  w_processedAt : option Z;
  w_error : option string;
  w_createdAt : Z
}.

Record TrackingEvent := mkTrackingEvent {
  t_id : string;
  t_userId : option string;
  t_eventType : string;
  t_subId : option string;
  t_status : option string;
  t_amount : option Z;
  t_currency : option string;
  t_sentToTracker : bool;
  t_sentAt : option Z;
  t_createdAt : Z
}.

(** The tables.  [User] is keyed by its primary key; the other tables are
    kept in storage order, which is the order [findMany] returns rows in
    when no [orderBy] is given. *)
Record Database := mkDatabase {
  users : gmap string User;
  payments : list Payment;
  webhookEvents : list WebhookEvent;
  trackingEvents : list TrackingEvent
}.

(** Calls that leave the process: one entry for each call of [axios.get]
    and of [stripe.subscriptions.retrieve]. *)
Inductive RemoteCall :=
| HttpGet (url : string)
| StripeRetrieveSubscription (id : option string).

Record World := mkWorld {
  db : Database;
  remote_log : list RemoteCall
}.

(** Exceptions.  Every JavaScript error carries a [message]. *)
Inductive exn :=
| Error (msg : string)
| PrismaClientKnownRequestError (code : string) (msg : string)
| StripeError (msg : string).

Definition message (e : exn) : string :=
  match e with
  | Error m => m
  | PrismaClientKnownRequestError _ m => m
  | StripeError m => m
  end.

(** Result of one call of [axios.get], before [validateStatus] is applied:
    the status of the response axios reports, or no response at all
    (timeout, refused connection, DNS failure, too many redirects).  The
    code sets no [maxRedirects], so axios follows redirects itself and the
    status reported is that of the last response of the chain; a 3xx status
    is reported only when axios does not follow it. *)
Inductive HttpResult :=
| Response (status : Z)
| NetworkError.

(* ===================================================================== *)
(** ** Configuration and the outside world *)
(* ===================================================================== *)

Record Config := mkConfig {
  stripe_webhookSecret : string;
  stripe_prices_annual : string;
  keitaro_trackerUrl : string;
  keitaro_postbackKey : string;
  keitaro_statuses_registration : string;
  keitaro_statuses_purchase : string
}.

(** What the services take from libraries and remote parties.

    - [constructEvent now payload signature secret] is the Stripe SDK's
      [webhooks.constructEvent]: the verified event, or [None] when it
      throws (bad signature, timestamp outside tolerance).
    - [subscriptions_retrieve k id] is the answer of the Stripe API to the
      retrieval of subscription [id] when [k] remote calls were made
      before it: the object, or the message of the error thrown.
    - [axios_get k url] is what axios reports for the call
      [axios.get(url, ...)] when [k] remote calls were made before it,
      after the redirects it follows; how many HTTP requests that call
      puts on the wire is not modelled.
    - [uuid ids] is the identifier the database draws for a new row of a
      table whose rows have the identifiers [ids]; it is not one of them.
    - [prisma_message code] is the message text of the Prisma error with
      that code. *)
Record Env := mkEnv {
  config : Config;
  constructEvent : Z -> string -> string -> string -> option StripeEvent;
  subscriptions_retrieve : nat -> option string -> StripeObject + string;
  axios_get : nat -> string -> HttpResult;
  uuid : list string -> string;
  uuid_fresh : forall ids, ~ In (uuid ids) ids;
  prisma_message : string -> string
}.

(* ===================================================================== *)
(** ** Computations: state and exceptions *)
(* ===================================================================== *)

Inductive Outcome (A : Type) :=
| Return (a : A)
| Throw (e : exn).
Arguments Return {A} a.
Arguments Throw {A} e.

Definition M (A : Type) : Type := World -> Outcome A * World.

Definition ret {A} (a : A) : M A := fun w => (Return a, w).

Definition throw {A} (e : exn) : M A := fun w => (Throw e, w).

Definition bind {A B} (m : M A) (k : A -> M B) : M B :=
  fun w =>
    match m w with
    | (Return a, w') => k a w'
    | (Throw e, w') => (Throw e, w')
    end.

(** [try { body } catch (error) { handler error }] *)
Definition try_catch {A} (body : M A) (handler : exn -> M A) : M A :=
  fun w =>
    match body w with
    | (Return a, w') => (Return a, w')
    | (Throw e, w') => handler e w'
    end.

Declare Scope js_scope.
Delimit Scope js_scope with js.
Notation "x <- m ;; k" := (bind m (fun x => k))
  (at level 100, m at next level, right associativity) : js_scope.
Notation "m ;;; k" := (bind m (fun _ => k))
  (at level 100, right associativity) : js_scope.
Local Open Scope js_scope.

Definition get_db : M Database := fun w => (Return (db w), w).

Definition put_db (d : Database) : M unit :=
  fun w => (Return tt, mkWorld d (remote_log w)).

(** Performs a remote call: logs it and hands back its index. *)
Definition remote (c : RemoteCall) : M nat :=
  fun w => (Return (length (remote_log w)),
            mkWorld (db w) (remote_log w ++ [c])).

(* ===================================================================== *)
(** ** The Prisma client *)
(* ===================================================================== *)

Section Services.

Variable env : Env.

(** The time [new Date()] and [Date.now()] read during the call. *)
Variable now : Z.

Definition prisma_error {A} (code : string) : M A :=
  throw (PrismaClientKnownRequestError code (prisma_message env code)).

(** P2025: the record an operation depends on was not found. *)
Definition P2025 := "P2025".
(** P2002: unique constraint failed. *)
Definition P2002 := "P2002".
(** P2003: foreign key constraint failed. *)
Definition P2003 := "P2003".
(** P2020: value out of range for the type. *)
Definition P2020 := "P2020".

(** [prisma.user.findUnique({ where: { id } })] *)
Definition user_findUnique (id : string) : M (option User) :=
  d <- get_db;; ret (users d !! id).

(** [prisma.user.update({ where: { id }, data })]; the column
    [updatedAt] is maintained by [@updatedAt]. *)
Definition user_update (id : string) (data : User -> User) : M unit :=
  d <- get_db;;
  match users d !! id with
  | None => prisma_error P2025
  | Some u =>
      let u' := data u in
      let u'' := mkUser (u_id u') (u_stripeCustomerId u')
                   (u_subscriptionId u') (u_subscriptionStatus u')
                   (u_subscriptionPlan u') (u_subscriptionEndDate u')
                   (u_keitaroSubId u') now in
      put_db (mkDatabase (<[id := u'']> (users d)) (payments d)
                (webhookEvents d) (trackingEvents d))
  end.

(** [prisma.payment.create({ data })]: [amount] is an [Int] column, and a
    value that does not fit it is refused when the query is built, before
    the database sees it; [stripePaymentId] is unique and [userId]
    references [User]. *)
Definition payment_create (userId stripePaymentId : string) (amount : Z)
    (currency status : string) (paymentMethod keitaroSubId : option string)
    : M unit :=
  d <- get_db;;
  if negb (JS.in_int32 amount) then prisma_error P2020
  else if existsb (fun p => String.eqb (p_stripePaymentId p) stripePaymentId)
       (payments d)
  then prisma_error P2002
  else match users d !! userId with
       | None => prisma_error P2003
       | Some _ =>
           let row := mkPayment (uuid env (map p_id (payments d))) userId
                        stripePaymentId amount currency status
                        paymentMethod keitaroSubId now in
           put_db (mkDatabase (users d) (payments d ++ [row])
                     (webhookEvents d) (trackingEvents d))
       end.

(** [prisma.webhookEvent.findUnique({ where: { eventId } })] *)
Definition webhookEvent_findUnique (eventId : string)
    : M (option WebhookEvent) :=
  d <- get_db;;
  ret (find (fun r => String.eqb (w_eventId r) eventId) (webhookEvents d)).

(** [prisma.webhookEvent.create({ data })]: [eventId] is unique;
    [processed] defaults to false, [processedAt] and [error] to null. *)
Definition webhookEvent_create (source eventId eventType : string)
    (payload : StripeEvent) : M unit :=
  d <- get_db;;
  if existsb (fun r => String.eqb (w_eventId r) eventId) (webhookEvents d)
  then prisma_error P2002
  else
    let row := mkWebhookEvent (uuid env (map w_id (webhookEvents d)))
                 source eventId eventType payload false None None now in
    put_db (mkDatabase (users d) (payments d) (webhookEvents d ++ [row])
              (trackingEvents d)).

(** [prisma.webhookEvent.update({ where: { eventId }, data })] *)
Definition webhookEvent_update (eventId : string)
    (data : WebhookEvent -> WebhookEvent) : M unit :=
  d <- get_db;;
  if existsb (fun r => String.eqb (w_eventId r) eventId) (webhookEvents d)
  then
    put_db (mkDatabase (users d) (payments d)
              (map (fun r => if String.eqb (w_eventId r) eventId
                             then data r else r) (webhookEvents d))
              (trackingEvents d))
  else prisma_error P2025.

(** [prisma.trackingEvent.create({ data })]: [amount] is an [Int] column,
    and a value that does not fit it is refused; [sentToTracker] defaults
    to false and [sentAt] to null; the model has no relation and no unique
    column besides [id]. *)
Definition trackingEvent_create (userId : option string)
    (eventType : string) (subId status : option string)
    (amount : option Z) (currency : option string) : M TrackingEvent :=
  d <- get_db;;
  if negb (match amount with Some a => JS.in_int32 a | None => true end)
  then prisma_error P2020
  else
  let row := mkTrackingEvent (uuid env (map t_id (trackingEvents d)))
               userId eventType subId status amount currency
               false None now in
  put_db (mkDatabase (users d) (payments d) (webhookEvents d)
            (trackingEvents d ++ [row]));;;
  ret row.

(** [prisma.trackingEvent.update({ where: { id }, data })] *)
Definition trackingEvent_update (id : string)
    (data : TrackingEvent -> TrackingEvent) : M unit :=
  d <- get_db;;
  if existsb (fun r => String.eqb (t_id r) id) (trackingEvents d)
  then
    put_db (mkDatabase (users d) (payments d) (webhookEvents d)
              (map (fun r => if String.eqb (t_id r) id
                             then data r else r) (trackingEvents d)))
  else prisma_error P2025.

(** [prisma.trackingEvent.findMany({ where, take })] *)
Definition trackingEvent_findMany (where_ : TrackingEvent -> bool)
    (take_ : nat) : M (list TrackingEvent) :=
  d <- get_db;;
  ret (firstn take_ (List.filter where_ (trackingEvents d))).

(* =================================================================== *)
(** ** StripeService *)
(* =================================================================== *)

(** [this.stripe.subscriptions.retrieve(id)] *)
Definition stripe_subscriptions_retrieve (id : option string)
    : M StripeObject :=
  k <- remote (StripeRetrieveSubscription id);;
  match subscriptions_retrieve env k id with
  | inl subscription => ret subscription
  | inr msg => throw (StripeError msg)
  end.

Definition updateUserSubscription (userId : string)
    (subscription : StripeObject) : M unit :=
  let plan :=
    match o_first_price_id subscription with
    | Some price =>
        if String.eqb price (stripe_prices_annual (config env))
        then "annual" else "monthly"
    | None => "monthly"
    end in
  let endDate := o_current_period_end subscription * 1000 in
  user_update userId (fun u =>
    mkUser (u_id u) (u_stripeCustomerId u)
      (Some (o_id subscription)) (Some (o_status subscription))
      (Some plan) (Some endDate) (u_keitaroSubId u) (u_updatedAt u)).

Definition handleCheckoutSessionCompleted (session : StripeObject)
    : M unit :=
  match JS.truthy (o_metadata_userId session) with
  | None => ret tt
  | Some userId =>
      subscription <- stripe_subscriptions_retrieve (o_subscription session);;
      updateUserSubscription userId subscription;;;
      match JS.truthy (o_payment_intent session) with
      | Some payment_intent =>
          payment_create userId payment_intent
            (match JS.truthy_int (o_amount_total session) with
             | Some a => a | None => 0 end)
            (JS.or_default (o_currency session) "usd")
            "succeeded" (Some "card")
            (JS.truthy (o_metadata_keitaroSubId session))
      | None => ret tt
      end
  end.

Definition handleSubscriptionUpdate (subscription : StripeObject)
    : M unit :=
  match JS.truthy (o_metadata_userId subscription) with
  | None => ret tt
  | Some userId => updateUserSubscription userId subscription
  end.

Definition handleSubscriptionDeleted (subscription : StripeObject)
    : M unit :=
  match JS.truthy (o_metadata_userId subscription) with
  | None => ret tt
  | Some userId =>
      user_update userId (fun u =>
        mkUser (u_id u) (u_stripeCustomerId u) (u_subscriptionId u)
          (Some "canceled") (u_subscriptionPlan u)
          (Some (o_current_period_end subscription * 1000))
          (u_keitaroSubId u) (u_updatedAt u))
  end.

Definition handleInvoicePaymentSucceeded (invoice : StripeObject)
    : M unit :=
  match JS.truthy (o_subscription invoice),
        JS.truthy (o_payment_intent invoice) with
  | Some _, Some payment_intent =>
      subscription <- stripe_subscriptions_retrieve (o_subscription invoice);;
      match JS.truthy (o_metadata_userId subscription) with
      | None => ret tt
      | Some userId =>
          payment_create userId payment_intent (o_amount_paid invoice)
            (match o_currency invoice with Some c => c | None => "USD" end)
            "succeeded" (Some "card")
            (JS.truthy (o_metadata_keitaroSubId subscription))
      end
  | _, _ => ret tt
  end.

Definition handleInvoicePaymentFailed (invoice : StripeObject) : M unit :=
  match JS.truthy (o_subscription invoice) with
  | None => ret tt
  | Some _ =>
      subscription <- stripe_subscriptions_retrieve (o_subscription invoice);;
      match JS.truthy (o_metadata_userId subscription) with
      | None => ret tt
      | Some userId =>
          user_update userId (fun u =>
            mkUser (u_id u) (u_stripeCustomerId u) (u_subscriptionId u)
              (Some "past_due") (u_subscriptionPlan u)
              (u_subscriptionEndDate u) (u_keitaroSubId u) (u_updatedAt u))
      end
  end.

(** The [switch (event.type)] of [handleWebhook]. *)
Definition dispatch (event : StripeEvent) : M unit :=
  let ty := e_type event in
  let obj := e_data_object event in
  if String.eqb ty "checkout.session.completed"
  then handleCheckoutSessionCompleted obj
  else if String.eqb ty "customer.subscription.created"
          || String.eqb ty "customer.subscription.updated"
  then handleSubscriptionUpdate obj
  else if String.eqb ty "customer.subscription.deleted"
  then handleSubscriptionDeleted obj
  else if String.eqb ty "invoice.payment_succeeded"
  then handleInvoicePaymentSucceeded obj
  else if String.eqb ty "invoice.payment_failed"
  then handleInvoicePaymentFailed obj
  else ret tt.

Definition handleWebhook (signature payload : string) : M unit :=
  event <- match constructEvent env now payload signature
                   (stripe_webhookSecret (config env)) with
           | Some event => ret event
           | None => throw (Error "Invalid webhook signature")
           end;;
  existingEvent <- webhookEvent_findUnique (e_id event);;
  match existingEvent with
  | Some _ => ret tt
  | None =>
      webhookEvent_create "stripe" (e_id event) (e_type event) event;;;
      try_catch
        (dispatch event;;;
         webhookEvent_update (e_id event) (fun r =>
           mkWebhookEvent (w_id r) (w_source r) (w_eventId r)
             (w_eventType r) (w_payload r) true (Some now) (w_error r)
             (w_createdAt r)))
        (fun error =>
           webhookEvent_update (e_id event) (fun r =>
             mkWebhookEvent (w_id r) (w_source r) (w_eventId r)
               (w_eventType r) (w_payload r) true (Some now)
               (Some (message error)) (w_createdAt r));;;
           throw error)
  end.

(* =================================================================== *)
(** ** KeitaroService *)
(* =================================================================== *)

(** [axios.get(url, { timeout, validateStatus })]: the promise rejects
    when there is no response or when [validateStatus] refuses the
    status; otherwise it resolves to the response. *)
Definition axios_get_with (url : string) (validateStatus : Z -> bool)
    : M Z :=
  k <- remote (HttpGet url);;
  match axios_get env k url with
  | Response status =>
      if validateStatus status then ret status
      else throw (Error ("Request failed with status code " ++ pretty status))
  | NetworkError => throw (Error "Network Error")
  end.

(** The query of the postback, as [sendPostback] fills it. *)
Definition postback_params (clickId status : string) (amount : option Q)
    (currency : option string) : URLSearchParams.t :=
  let params := [("subid", clickId); ("status", status);
                 ("key", keitaro_postbackKey (config env))] in
  let params :=
    match amount with
    | Some a => URLSearchParams.append params "payout" (JS.number_toString a)
    | None => params
    end in
  match JS.truthy currency with
  | Some c => URLSearchParams.append params "currency" c
  | None => params
  end.

Definition postback_url (clickId status : string) (amount : option Q)
    (currency : option string) : string :=
  keitaro_trackerUrl (config env) ++ "/postback?"
    ++ URLSearchParams.toString (postback_params clickId status amount currency).

Definition sendPostback (clickId status : string) (amount : option Q)
    (currency : option string) : M bool :=
  try_catch
    (let url := postback_url clickId status amount currency in
     response_status <- axios_get_with url (fun status => Z.ltb status 500);;
     if Z.eqb response_status 200 then ret true else ret false)
    (fun _ => ret false).

(** The first lines of [trackRegistration] and [trackPurchase]: the click
    identifier passed, or else the one stored on the user. *)
Definition resolve_clickId (userId : string) (clickId : option string)
    : M (option string) :=
  match JS.truthy clickId with
  | Some c => ret (Some c)
  | None =>
      user <- user_findUnique userId;;
      ret (JS.truthy (match user with
                      | Some u => u_keitaroSubId u
                      | None => None
                      end))
  end.

Definition sent_update (success : bool) (r : TrackingEvent)
    : TrackingEvent :=
  mkTrackingEvent (t_id r) (t_userId r) (t_eventType r) (t_subId r)
    (t_status r) (t_amount r) (t_currency r)
    success (if success then Some now else None) (t_createdAt r).

Definition trackRegistration (userId : string) (clickId : option string)
    : M unit :=
  clickId <- resolve_clickId userId clickId;;
  match clickId with
  | None => ret tt
  | Some clickId =>
      trackingEvent <-
        trackingEvent_create (Some userId) "registration" (Some clickId)
          (Some (keitaro_statuses_registration (config env))) None None;;
      success <- sendPostback clickId
                   (keitaro_statuses_registration (config env)) None None;;
      trackingEvent_update (t_id trackingEvent) (sent_update success)
  end.

(** [currency] is [None] when the argument is left out, in which case the
    default ['USD'] applies. *)
Definition trackPurchase (userId : string) (amount : Q)
    (currency : option string) (clickId : option string) : M unit :=
  let currency := match currency with Some c => c | None => "USD" end in
  clickId <- resolve_clickId userId clickId;;
  match clickId with
  | None => ret tt
  | Some clickId =>
      trackingEvent <-
        trackingEvent_create (Some userId) "purchase" (Some clickId)
          (Some (keitaro_statuses_purchase (config env)))
          (Some (JS.Math_round amount)) (Some currency);;
      let amountInDollars := (amount / 100)%Q in
      success <- sendPostback clickId
                   (keitaro_statuses_purchase (config env))
                   (Some amountInDollars) (Some currency);;
      trackingEvent_update (t_id trackingEvent) (sent_update success)
  end.

(** The [where] clause of the sweeper's query. *)
Definition retry_where (event : TrackingEvent) : bool :=
  negb (t_sentToTracker event)
    && Z.leb (now - 24 * 60 * 60 * 1000) (t_createdAt event).

(** The postback the sweeper re-sends for a row: none for a row that has
    no click identifier, a type other than registration and purchase, or
    a purchase without amount ([success] stays false). *)
Definition retry_send (event : TrackingEvent) (subId : string) : M bool :=
  if String.eqb (t_eventType event) "registration"
  then sendPostback subId
         (JS.or_default (t_status event)
            (keitaro_statuses_registration (config env)))
         None None
  else
    match String.eqb (t_eventType event) "purchase",
          JS.truthy_int (t_amount event) with
    | true, Some amount =>
        sendPostback subId
          (JS.or_default (t_status event)
             (keitaro_statuses_purchase (config env)))
          (Some (inject_Z amount / 100)%Q)
          (Some (JS.or_default (t_currency event) "USD"))
    | _, _ => ret false
    end.

(** The body of the sweeper's [for] loop. *)
Definition retry_event (event : TrackingEvent) : M unit :=
  match JS.truthy (t_subId event) with
  | None => ret tt
  | Some subId =>
      success <- retry_send event subId;;
      if success
      then trackingEvent_update (t_id event) (sent_update true)
      else ret tt
  end.

Fixpoint for_each {A} (l : list A) (body : A -> M unit) : M unit :=
  match l with
  | [] => ret tt
  | x :: rest => body x;;; for_each rest body
  end.

Definition retryFailedPostbacks : M unit :=
  failedEvents <- trackingEvent_findMany retry_where 100;;
  for_each failedEvents retry_event.

End Services.

(* ===================================================================== *)
(** ** Custom events, the routes that call the services, click capture *)
(* ===================================================================== *)

(** What a route answers: the status and the JSON body. *)
Inductive Json :=
| JsonReceived
| JsonError (error : string)
| JsonMessage (text : string).

Record HttpReply := mkReply {
  reply_status : Z;
  reply_body : Json
}.

Section Routes.

Variable env : Env.
Variable now : Z.

(** [KeitaroService.trackCustomEvent]: the row is created and no postback
    is sent.  The [metadata] document goes to a column that the model of
    the ledger does not carry. *)
Definition trackCustomEvent (eventType clickId : string) : M unit :=
  trackingEvent <-
    trackingEvent_create env now None eventType (Some clickId) None None None;;
  ret tt.

(** The handler of [POST /webhook/stripe]: the [stripe-signature] header
    (absent is [None]) and the raw body.  [res.json] answers with status
    200. *)
Definition stripeWebhookRoute (signature : option string) (rawBody : string)
    : M HttpReply :=
  try_catch
    (match JS.truthy signature with
     | None => ret (mkReply 400 (JsonError "Missing signature"))
     | Some signature =>
         handleWebhook env now signature rawBody;;;
         ret (mkReply 200 JsonReceived)
     end)
    (fun error => ret (mkReply 400 (JsonError (message error)))).

End Routes.

(** The parts of an Express request that click capture reads and writes:
    the parsed query (values are taken to be strings), the cookies parsed
    by cookie-parser ([None] when [req.cookies] is undefined) and the
    property [keitaroClickId]. *)
Record Request := mkRequest {
  req_query : gmap string string;
  req_cookies : option (gmap string string);
  req_keitaroClickId : option string
}.

Record CookieOptions := mkCookieOptions {
  maxAge : Z;
  httpOnly : bool;
  secure : bool;
  sameSite : string
}.

Record Cookie := mkCookie {
  cookie_name : string;
  cookie_value : string;
  cookie_options : CookieOptions
}.

(** The cookies a response sets, in the order of the calls of
    [res.cookie]. *)
Definition ExpressResponse := list Cookie.

Section ClickCapture.

(** [config.app.env] *)
Variable app_env : string.

Definition possibleParams : list string :=
  ["subid"; "sub_id"; "clickid"; "click_id"; "_subid"].

(** The [for] loop of [extractClickId]. *)
Fixpoint first_param (query : gmap string string) (params : list string)
    : option string :=
  match params with
  | [] => None
  | param :: rest =>
      match JS.truthy (query !! param) with
      | Some v => Some v
      | None => first_param query rest
      end
  end.

Definition extractClickId (req : Request) : option string :=
  match first_param (req_query req) possibleParams with
  | Some v => Some v
  | None =>
      JS.truthy (match req_cookies req with
                 | Some cookies => cookies !! "keitaro_subid"
                 | None => None
                 end)
  end.

Definition storeClickId (res : ExpressResponse) (clickId : string) : ExpressResponse :=
  res ++ [mkCookie "keitaro_subid" clickId
            (mkCookieOptions (30 * 24 * 60 * 60 * 1000) true
               (String.eqb app_env "production") "lax")].

(** The middleware returned by [trackingMiddleware]; it always goes on to
    [next()], so the request and the response it leaves are what the rest
    of the chain sees. *)
Definition trackingMiddleware (req : Request) (res : ExpressResponse)
    : Request * ExpressResponse :=
  match extractClickId req with
  | Some clickId =>
      (mkRequest (req_query req) (req_cookies req) (Some clickId),
       storeClickId res clickId)
  | None => (req, res)
  end.

End ClickCapture.

(* ===================================================================== *)
(** ** Notions used in the statements *)
(* ===================================================================== *)

(** How [sendPostback] reads the tracker's answer. *)
Definition delivered (r : HttpResult) : bool :=
  match r with
  | Response status => Z.eqb status 200
  | NetworkError => false
  end.

(** The event types [handleWebhook] has a case for (the members of
    [StripeWebhookEvent]). *)
Definition handled_types : list string :=
  [ "checkout.session.completed";
    "customer.subscription.created";
    "customer.subscription.updated";
    "customer.subscription.deleted";
    "invoice.payment_succeeded";
    "invoice.payment_failed" ].

(** The stored rows that carry a given external event id. *)
Definition rows_with_eventId (eventId : string) (d : Database)
    : list WebhookEvent :=
  List.filter (fun r => String.eqb (w_eventId r) eventId) (webhookEvents d).

(** The row [handleWebhook] inserts on receipt of [event]. *)
Definition received_row env now (event : StripeEvent) (d : Database)
    : WebhookEvent :=
  mkWebhookEvent (uuid env (map w_id (webhookEvents d))) "stripe"
    (e_id event) (e_type event) event false None None now.

(** [received_row] once the handler is done, with the error it threw. *)
Definition processed_row env now (event : StripeEvent) (d : Database)
    (error : option string) : WebhookEvent :=
  mkWebhookEvent (uuid env (map w_id (webhookEvents d))) "stripe"
    (e_id event) (e_type event) event true (Some now) error now.

(** A computation that leaves the table of webhook events as it found it,
    whether it returns or throws. *)
Definition keeps_webhookEvents {A} (m : M A) : Prop :=
  forall w, webhookEvents (db (snd (m w))) = webhookEvents (db w).

(** [user?.keitaroSubId]: the click identifier stored on the user, if the
    user exists and has one. *)
Definition stored_clickId (userId : string) (d : Database) : option string :=
  match users d !! userId with
  | Some u => u_keitaroSubId u
  | None => None
  end.

(** The [currency] parameter of [trackPurchase] with its default. *)
Definition currency_or_USD (currency : option string) : string :=
  match currency with
  | Some c => c
  | None => "USD"
  end.

(** The row [trackPurchase] leaves in the ledger. *)
Definition purchase_row env now (userId : string) (amount : Q)
    (currency clickId : string) (success : bool) (d : Database)
    : TrackingEvent :=
  mkTrackingEvent (uuid env (map t_id (trackingEvents d))) (Some userId)
    "purchase" (Some clickId) (Some (keitaro_statuses_purchase (config env)))
    (Some (JS.Math_round amount)) (Some currency)
    success (if success then Some now else None) now.

(** The row [trackRegistration] leaves in the ledger. *)
Definition registration_row env now (userId clickId : string)
    (success : bool) (d : Database) : TrackingEvent :=
  mkTrackingEvent (uuid env (map t_id (trackingEvents d))) (Some userId)
    "registration" (Some clickId)
    (Some (keitaro_statuses_registration (config env))) None None
    success (if success then Some now else None) now.

(** The request the sweeper re-sends for a row, if it re-sends one. *)
Definition retry_url env (event : TrackingEvent) : option string :=
  match JS.truthy (t_subId event) with
  | None => None
  | Some subId =>
      if String.eqb (t_eventType event) "registration"
      then Some (postback_url env subId
                   (JS.or_default (t_status event)
                      (keitaro_statuses_registration (config env)))
                   None None)
      else
        match String.eqb (t_eventType event) "purchase",
              JS.truthy_int (t_amount event) with
        | true, Some amount =>
            Some (postback_url env subId
                    (JS.or_default (t_status event)
                       (keitaro_statuses_purchase (config env)))
                    (Some (inject_Z amount / 100)%Q)
                    (Some (JS.or_default (t_currency event) "USD")))
        | _, _ => None
        end
  end.

(** The identifiers of the rows of [selected] whose re-sent postback is
    delivered, when [k] remote calls were made before the sweep. *)
Fixpoint sweep_ids env (k : nat) (selected : list TrackingEvent)
    : list string :=
  match selected with
  | [] => []
  | e :: rest =>
      match retry_url env e with
      | None => sweep_ids env k rest
      | Some url =>
          if delivered (axios_get env k url)
          then t_id e :: sweep_ids env (S k) rest
          else sweep_ids env (S k) rest
      end
  end.

(** Marks the rows whose identifier is listed as sent at [now]. *)
Definition mark now (ids : list string) (r : TrackingEvent) : TrackingEvent :=
  if existsb (String.eqb (t_id r)) ids then sent_update now true r else r.

(** A computation whose final world is related by [R] to the world it
    started in, whether it returns or throws. *)
Definition preserves {A} (R : World -> World -> Prop) (m : M A) : Prop :=
  forall w, R w (snd (m w)).

(** The columns of a user that identify it and tie it to its Stripe customer
    and its click. *)
Definition same_identity (u u' : User) : Prop :=
  u_id u' = u_id u
  /\ u_stripeCustomerId u' = u_stripeCustomerId u
  /\ u_keitaroSubId u' = u_keitaroSubId u.

(** The only remote calls made are retrievals of Stripe subscriptions, and
    the conversion ledger is as it was. *)
Definition only_stripe_calls (w w' : World) : Prop :=
  trackingEvents (db w') = trackingEvents (db w)
  /\ exists extra,
       remote_log w' = remote_log w ++ extra
       /\ forall c, In c extra -> exists id, c = StripeRetrieveSubscription id.

(** The same users exist in both worlds, each with its identity. *)
Definition users_kept (w w' : World) : Prop :=
  forall id,
    match users (db w) !! id, users (db w') !! id with
    | Some u, Some u' => same_identity u u'
    | None, None => True
    | _, _ => False
    end.

(** The payment intent is a key of the payments, and every payment belongs
    to a user that exists. *)
Definition payments_sound (d : Database) : Prop :=
  List.NoDup (map p_stripePaymentId (payments d))
  /\ forall p, In p (payments d) -> users d !! p_userId p <> None.

(** The payments of [w'] are those of [w] followed by succeeded card
    payments, and soundness carries over. *)
Definition payments_grow (w w' : World) : Prop :=
  (exists extra,
     payments (db w') = payments (db w) ++ extra
     /\ forall p, In p extra ->
          p_status p = "succeeded" /\ p_paymentMethod p = Some "card")
  /\ (payments_sound (db w) -> payments_sound (db w')).

(** The world once the receipt of [event] is stored. *)
Definition stored_world env now (event : StripeEvent) (w : World) : World :=
  mkWorld (mkDatabase (users (db w)) (payments (db w))
             (webhookEvents (db w) ++ [received_row env now event (db w)])
             (trackingEvents (db w))) (remote_log w).

(** The user [u] with the subscription columns [updateUserSubscription]
    writes for [subscription]. *)
Definition subscribed env now (subscription : StripeObject) (u : User) : User :=
  mkUser (u_id u) (u_stripeCustomerId u)
    (Some (o_id subscription)) (Some (o_status subscription))
    (Some (if match o_first_price_id subscription with
               | Some price =>
                   String.eqb price (stripe_prices_annual (config env))
               | None => false
               end
           then "annual" else "monthly"))
    (Some (o_current_period_end subscription * 1000))
    (u_keitaroSubId u) now.

(** A row is marked sent exactly when it has a sent timestamp. *)
Definition sent_consistent (r : TrackingEvent) : Prop :=
  t_sentToTracker r = true <-> t_sentAt r <> None.

(** The number of occurrences of a character in a string. *)
Fixpoint count_char (x : ascii) (s : string) : nat :=
  match s with
  | EmptyString => 0
  | String c rest => (if Ascii.eqb c x then 1 else 0) + count_char x rest
  end.

(* ===================================================================== *)
(** ** A concrete deployment, used to run the services on examples *)
(* ===================================================================== *)

Module Demo.

Fixpoint xs (n : nat) : string :=
  match n with
  | O => ""
  | S n' => String "x" (xs n')
  end.

(** Longer than every identifier in use, hence new. *)
Definition uuid (ids : list string) : string :=
  xs (S (list_max (map String.length ids))).

Lemma length_xs n : String.length (xs n) = n.
Proof. induction n; simpl; congruence. Qed.

Lemma uuid_fresh ids : ~ In (uuid ids) ids.
Proof.
  intros Hin.
  assert (Hle : (String.length (uuid ids)
                 <= list_max (map String.length ids))%nat).
  { pose proof (proj1 (list_max_le (map String.length ids)
                         (list_max (map String.length ids)))
                  (Nat.le_refl _)) as Hall.
    rewrite List.Forall_forall in Hall. apply Hall.
    apply in_map_iff. exists (uuid ids). split; [reflexivity | exact Hin]. }
  unfold uuid in Hle. rewrite length_xs in Hle. lia.
Qed.

Definition cfg : Config :=
  mkConfig "whsec_demo" "price_annual" "https://tracker.example"
    "k3y" "reg" "sale".

Definition subscription_of (userId : option string) : StripeObject :=
  mkStripeObject "sub_1" userId (Some "click-7") None None None 0 None
    "active" (Some "price_annual") 1700000000.

(** Three payloads are signed correctly when they come with the
    signature ["good"]; nothing else verifies. *)
Definition constructEvent (now : Z) (payload signature secret : string)
    : option StripeEvent :=
  if String.eqb signature "good" && String.eqb secret "whsec_demo" then
    if String.eqb payload "deleted"
    then Some (mkStripeEvent "evt_1" "customer.subscription.deleted" 1
                 (subscription_of (Some "u1")))
    else if String.eqb payload "unknown"
    then Some (mkStripeEvent "evt_2" "charge.refunded" 2
                 (subscription_of (Some "u1")))
    else if String.eqb payload "ghost"
    then Some (mkStripeEvent "evt_3" "customer.subscription.deleted" 3
                 (subscription_of (Some "nobody")))
    else None
  else None.

Definition subscriptions_retrieve (k : nat) (id : option string)
    : StripeObject + string :=
  match id with
  | Some "sub_1" => inl (subscription_of (Some "u1"))
  | _ => inr "No such subscription"
  end.

(** A tracker that answers with the given result whatever is asked. *)
Definition env_with (tracker : nat -> string -> HttpResult) : Env :=
  mkEnv cfg constructEvent subscriptions_retrieve tracker uuid uuid_fresh
    (fun code => ("prisma error " ++ code)%string).

(** A tracker that is down for the first remote call and up afterwards. *)
Definition flaky (k : nat) (url : string) : HttpResult :=
  match k with
  | O => NetworkError
  | S _ => Response 200
  end.

Definition user1 : User :=
  mkUser "u1" None (Some "sub_1") (Some "active") (Some "annual")
    (Some 1700000000000) (Some "click-7") 0.

Definition db0 : Database :=
  mkDatabase {[ "u1" := user1 ]} [] [] [].

Definition world0 : World := mkWorld db0 [].

Definition hour : Z := 60 * 60 * 1000.

(** Rows of the conversion ledger at time [100 * hour]: one sent, one
    failed an hour ago, one failed 25 hours ago, a custom event, a
    purchase without amount and a purchase of 999 minor units. *)
Definition ledger : list TrackingEvent :=
  [ mkTrackingEvent "t1" (Some "u1") "registration" (Some "click-7")
      (Some "reg") None None true (Some (98 * hour)) (98 * hour);
    mkTrackingEvent "t2" (Some "u1") "registration" (Some "click-7")
      (Some "reg") None None false None (99 * hour);
    mkTrackingEvent "t3" (Some "u1") "registration" (Some "click-7")
      (Some "reg") None None false None (75 * hour);
    mkTrackingEvent "t4" None "custom" (Some "click-7")
      None None None false None (99 * hour);
    mkTrackingEvent "t5" (Some "u1") "purchase" (Some "click-7")
      (Some "sale") None (Some "USD") false None (99 * hour);
    mkTrackingEvent "t6" (Some "u1") "purchase" (Some "click-7")
      (Some "sale") (Some 999) (Some "USD") false None (99 * hour) ].

Definition world1 : World :=
  mkWorld (mkDatabase {[ "u1" := user1 ]} [] [] ledger) [].

End Demo.

(** A second deployment, with one payload per handled event type. *)
Module Demo2.

Definition subscription (userId : option string) : StripeObject :=
  mkStripeObject "sub_9" userId (Some "click-7") None None None 0 None
    "trialing" (Some "price_monthly") 1800000000.

Definition invoice (payment_intent : option string) : StripeObject :=
  mkStripeObject "in_1" None (Some "click-invoice") (Some "sub_9")
    payment_intent None 1999 (Some "eur") "paid" None 0.

Definition session : StripeObject :=
  mkStripeObject "cs_1" (Some "u1") (Some "click-7") (Some "sub_9")
    (Some "pi_1") (Some 999) 0 (Some "usd") "complete" None 0.

Definition constructEvent (now : Z) (payload signature secret : string)
    : option StripeEvent :=
  if String.eqb payload "updated"
  then Some (mkStripeEvent "evt_u" "customer.subscription.updated" 1
               (subscription (Some "u1")))
  else if String.eqb payload "anonymous"
  then Some (mkStripeEvent "evt_a" "customer.subscription.updated" 2
               (subscription None))
  else if String.eqb payload "stranger"
  then Some (mkStripeEvent "evt_s" "customer.subscription.updated" 3
               (subscription (Some "nobody")))
  else if String.eqb payload "failed"
  then Some (mkStripeEvent "evt_f" "invoice.payment_failed" 4
               (invoice None))
  else if String.eqb payload "paid"
  then Some (mkStripeEvent "evt_p" "invoice.payment_succeeded" 5
               (invoice (Some "pi_1")))
  else if String.eqb payload "checkout"
  then Some (mkStripeEvent "evt_c" "checkout.session.completed" 6 session)
  else if String.eqb payload "deleted"
  then Some (mkStripeEvent "evt_d" "customer.subscription.deleted" 7
               (subscription (Some "u1")))
  else None.

(** The Stripe API knows subscription [sub_9] when [up] is true. *)
Definition subscriptions_retrieve (up : bool) (k : nat) (id : option string)
    : StripeObject + string :=
  match up, id with
  | true, Some "sub_9" => inl (subscription (Some "u1"))
  | _, _ => inr "No such subscription"
  end.

Definition env (up : bool) : Env :=
  mkEnv Demo.cfg constructEvent (subscriptions_retrieve up)
    (fun _ _ => Response 200) Demo.uuid Demo.uuid_fresh
    (fun code => ("prisma error " ++ code)%string).

(** A world in which payment intent [pi_1] is already recorded. *)
Definition paid_world : World :=
  mkWorld
    (mkDatabase {[ "u1" := Demo.user1 ]}
       [mkPayment "p1" "u1" "pi_1" 999 "usd" "succeeded" (Some "card")
          None 1] [] []) [].

End Demo2.

(** Events whose amounts do not fit a 32-bit integer column. *)
Module Demo3.

Definition invoice : StripeObject :=
  mkStripeObject "in_2" None None (Some "sub_9") (Some "pi_1") None
    3000000000 (Some "eur") "paid" None 0.

Definition session : StripeObject :=
  mkStripeObject "cs_2" (Some "u1") (Some "click-7") (Some "sub_9")
    (Some "pi_1") (Some 3000000000) 0 (Some "usd") "complete" None 0.

Definition constructEvent (now : Z) (payload signature secret : string)
    : option StripeEvent :=
  if String.eqb payload "paid"
  then Some (mkStripeEvent "evt_p2" "invoice.payment_succeeded" 8 invoice)
  else if String.eqb payload "checkout"
  then Some (mkStripeEvent "evt_c2" "checkout.session.completed" 9 session)
  else None.

Definition env : Env :=
  mkEnv Demo.cfg constructEvent (Demo2.subscriptions_retrieve true)
    (fun _ _ => Response 200) Demo.uuid Demo.uuid_fresh
    (fun code => ("prisma error " ++ code)%string).

End Demo3.

(* ===================================================================== *)
(** ** Running computations *)
(* ===================================================================== *)

Ltac run :=
  unfold bind, ret, throw, try_catch, get_db, put_db, remote,
    prisma_error in *; simpl.

Lemma bind_Return {A B} (m : M A) (k : A -> M B) w a w' :
  m w = (Return a, w') -> bind m k w = k a w'.
Proof. intros H. unfold bind. rewrite H. reflexivity. Qed.

Lemma bind_Throw {A B} (m : M A) (k : A -> M B) w e w' :
  m w = (Throw e, w') -> bind m k w = (Throw e, w').
Proof. intros H. unfold bind. rewrite H. reflexivity. Qed.

Lemma find_none_existsb {A} (P : A -> bool) (l : list A) :
  find P l = None -> existsb P l = false.
Proof.
  induction l as [|x l IH]; simpl; [reflexivity|].
  destruct (P x); [discriminate | exact IH].
Qed.

Lemma find_none_map_if {A} (P : A -> bool) (f : A -> A) (l : list A) :
  find P l = None -> map (fun r => if P r then f r else r) l = l.
Proof.
  induction l as [|x l IH]; simpl; [reflexivity|].
  destruct (P x); [discriminate | intros H; rewrite (IH H); reflexivity].
Qed.

Lemma existsb_app_last {A} (P : A -> bool) (l : list A) (x : A) :
  P x = true -> existsb P (l ++ [x]) = true.
Proof.
  intros H. rewrite existsb_app. simpl. rewrite H.
  rewrite orb_true_r. reflexivity.
Qed.

(* ===================================================================== *)
(** ** The Postback Dispatcher *)
(* ===================================================================== *)

(** One call of [sendPostback] issues exactly one request, never throws and
    leaves the database alone. *)
Lemma sendPostback_run env clickId status amount currency w :
  sendPostback env clickId status amount currency w =
  (Return (delivered (axios_get env (length (remote_log w))
                        (postback_url env clickId status amount currency))),
   mkWorld (db w)
     (remote_log w ++ [HttpGet (postback_url env clickId status amount currency)])).
Proof.
  unfold sendPostback, axios_get_with. run.
  destruct (axios_get env _ _) as [st|]; simpl; [|reflexivity].
  destruct (Z.ltb st 500) eqn:Hlt; simpl.
  - destruct (Z.eqb st 200); reflexivity.
  - apply Z.ltb_ge in Hlt.
    destruct (Z.eqb st 200) eqn:Heq; [|reflexivity].
    apply Z.eqb_eq in Heq. lia.
Qed.

(** C3, the claim as it is written, fails: when the status axios reports
    is 404, [sendPostback] returns false although the status lies in the
    4xx range. *)
Lemma sendPostback_4xx_not_delivered :
  ~ (forall env clickId status amount currency w st,
        200 <= st < 500 ->
        axios_get env (length (remote_log w))
          (postback_url env clickId status amount currency) = Response st ->
        fst (sendPostback env clickId status amount currency w) = Return true).
Proof.
  intros H.
  specialize (H (Demo.env_with (fun _ _ => Response 404))
                "click-7" "sale" None None Demo.world0 404).
  assert (H200 : 200 <= 404 < 500) by lia.
  specialize (H H200 eq_refl).
  vm_compute in H. discriminate H.
Qed.

(** C3 (amended): [sendPostback] never throws; it returns true exactly when
    the status axios reports for the request (after the redirects it
    follows) is 200, and false in every other case: another 2xx status
    reported, a 3xx status axios did not follow, a 4xx status, a 5xx
    status, or no response at all. *)
Theorem sendPostback_true_iff_200 env clickId status amount currency w :
  let answer := axios_get env (length (remote_log w))
                  (postback_url env clickId status amount currency) in
  let result := fst (sendPostback env clickId status amount currency w) in
  (result = Return true <-> answer = Response 200)
  /\ (result = Return false <-> answer <> Response 200).
Proof.
  cbv zeta. rewrite sendPostback_run. simpl.
  destruct (axios_get env _ _) as [st|]; simpl.
  - destruct (Z.eqb st 200) eqn:Heq.
    + apply Z.eqb_eq in Heq. subst st.
      split; split; intros H; try reflexivity; try discriminate H.
      congruence.
    + apply Z.eqb_neq in Heq.
      split; split; intros H; try reflexivity; try discriminate H.
      * congruence.
      * congruence.
  - split; split; intros H; try reflexivity; try discriminate H.
    discriminate.
Qed.

(* ===================================================================== *)
(** ** The Webhook Reconciler *)
(* ===================================================================== *)

(** C2: when the signature does not verify, [handleWebhook] throws
    [Error('Invalid webhook signature')] and the world is what it was: no
    row is created and nothing is modified. *)
Theorem handleWebhook_invalid_signature env now signature payload w :
  constructEvent env now payload signature (stripe_webhookSecret (config env))
    = None ->
  handleWebhook env now signature payload w
    = (Throw (Error "Invalid webhook signature"), w).
Proof.
  intros H. unfold handleWebhook. run. rewrite H. reflexivity.
Qed.

Lemma handleWebhook_invalid_signature_witness :
  handleWebhook (Demo.env_with (fun _ _ => Response 200)) 5 "forged" "deleted"
    Demo.world0
  = (Throw (Error "Invalid webhook signature"), Demo.world0).
Proof.
  apply (handleWebhook_invalid_signature
           (Demo.env_with (fun _ _ => Response 200)) 5 "forged" "deleted"
           Demo.world0).
  reflexivity.
Defined.

Lemma dispatch_unhandled env now event :
  ~ In (e_type event) handled_types ->
  dispatch env now event = ret tt.
Proof.
  intros Hty. unfold dispatch.
  repeat match goal with
  | |- context [String.eqb (e_type event) ?s] =>
      destruct (String.eqb_spec (e_type event) s) as [Heq|_];
      [exfalso; apply Hty; rewrite Heq; simpl; tauto|]
  end.
  reflexivity.
Qed.

(** The update of the row just inserted touches that row only. *)
Lemma webhookEvent_update_last env eventId data d log row :
  find (fun r => String.eqb (w_eventId r) eventId) (webhookEvents d) = None ->
  w_eventId row = eventId ->
  webhookEvent_update env eventId data
    (mkWorld (mkDatabase (users d) (payments d) (webhookEvents d ++ [row])
                (trackingEvents d)) log)
  = (Return tt,
     mkWorld (mkDatabase (users d) (payments d)
                (webhookEvents d ++ [data row]) (trackingEvents d)) log).
Proof.
  intros Hnone Hrow. unfold webhookEvent_update. run.
  rewrite existsb_app_last by (rewrite Hrow; apply String.eqb_refl).
  rewrite map_app. simpl.
  rewrite (find_none_map_if _ data _ Hnone).
  rewrite Hrow, String.eqb_refl. reflexivity.
Qed.

Lemma webhookEvent_create_fresh env now event d log :
  find (fun r => String.eqb (w_eventId r) (e_id event)) (webhookEvents d)
    = None ->
  webhookEvent_create env now "stripe" (e_id event) (e_type event) event
    (mkWorld d log)
  = (Return tt,
     mkWorld (mkDatabase (users d) (payments d)
                (webhookEvents d ++ [received_row env now event d])
                (trackingEvents d)) log).
Proof.
  intros Hnone. unfold webhookEvent_create. run.
  rewrite (find_none_existsb _ _ Hnone). reflexivity.
Qed.

(** C8: an event that verifies, whose id is new and whose type has no case
    in the switch is stored and marked processed with a null error; users,
    payments and tracking events are untouched, no remote call is made,
    and the call returns normally. *)
Theorem handleWebhook_unrecognized_type env now signature payload event w :
  constructEvent env now payload signature (stripe_webhookSecret (config env))
    = Some event ->
  find (fun r => String.eqb (w_eventId r) (e_id event))
    (webhookEvents (db w)) = None ->
  ~ In (e_type event) handled_types ->
  handleWebhook env now signature payload w
  = (Return tt,
     mkWorld
       (mkDatabase (users (db w)) (payments (db w))
          (webhookEvents (db w) ++ [processed_row env now event (db w) None])
          (trackingEvents (db w)))
       (remote_log w)).
Proof.
  intros Hev Hnone Hty. destruct w as [d log]. simpl in *.
  unfold handleWebhook.
  rewrite Hev.
  unfold webhookEvent_findUnique. run. rewrite Hnone.
  pose proof (webhookEvent_create_fresh env now event d log Hnone) as Hc.
  unfold bind in Hc |- *. rewrite Hc.
  rewrite (dispatch_unhandled env now event Hty). unfold ret.
  rewrite (webhookEvent_update_last env _ _ d log
             (received_row env now event d) Hnone eq_refl).
  reflexivity.
Qed.

Lemma handleWebhook_unrecognized_type_witness :
  handleWebhook (Demo.env_with (fun _ _ => Response 200)) 5 "good" "unknown"
    Demo.world0
  = (Return tt,
     mkWorld
       (mkDatabase (users Demo.db0) []
          [mkWebhookEvent "x" "stripe" "evt_2" "charge.refunded"
             (mkStripeEvent "evt_2" "charge.refunded" 2
                (Demo.subscription_of (Some "u1")))
             true (Some 5) None 5]
          [])
       []).
Proof.
  apply (handleWebhook_unrecognized_type
           (Demo.env_with (fun _ _ => Response 200)) 5 "good" "unknown"
           (mkStripeEvent "evt_2" "charge.refunded" 2
              (Demo.subscription_of (Some "u1")))
           Demo.world0).
  - reflexivity.
  - reflexivity.
  - simpl. intros [H|[H|[H|[H|[H|[H|[]]]]]]]; discriminate H.
Defined.

(** *** The handlers leave the event store alone *)

Lemma keeps_ret {A} (a : A) : keeps_webhookEvents (ret a).
Proof. intros w. reflexivity. Qed.

Lemma keeps_throw {A} (e : exn) : keeps_webhookEvents (@throw A e).
Proof. intros w. reflexivity. Qed.

Lemma keeps_bind {A B} (m : M A) (k : A -> M B) :
  keeps_webhookEvents m -> (forall a, keeps_webhookEvents (k a)) ->
  keeps_webhookEvents (bind m k).
Proof.
  intros Hm Hk w. unfold bind.
  specialize (Hm w). destruct (m w) as [[a|e] w']; simpl in *.
  - rewrite Hk. exact Hm.
  - exact Hm.
Qed.

Lemma keeps_user_update env now id data :
  keeps_webhookEvents (user_update env now id data).
Proof.
  intros w. unfold user_update. run.
  destruct (users (db w) !! id); reflexivity.
Qed.

Lemma keeps_payment_create env now u pi a c s pm k :
  keeps_webhookEvents (payment_create env now u pi a c s pm k).
Proof.
  intros w. unfold payment_create. run.
  destruct (negb _); [reflexivity|].
  destruct (existsb _ _); [reflexivity|].
  destruct (users (db w) !! u); reflexivity.
Qed.

Lemma keeps_retrieve env id :
  keeps_webhookEvents (stripe_subscriptions_retrieve env id).
Proof.
  intros w. unfold stripe_subscriptions_retrieve. run.
  destruct (subscriptions_retrieve env _ _); reflexivity.
Qed.

Create HintDb keeps.
#[local] Hint Resolve keeps_ret keeps_throw keeps_user_update
  keeps_payment_create keeps_retrieve : keeps.

Ltac keeps_step :=
  match goal with
  | |- keeps_webhookEvents (bind _ _) => apply keeps_bind; [|intros ?]
  | |- keeps_webhookEvents (match ?x with _ => _ end) => destruct x
  | |- keeps_webhookEvents (if ?x then _ else _) => destruct x
  | |- keeps_webhookEvents _ => solve [auto with keeps]
  end.

Lemma keeps_updateUserSubscription env now userId subscription :
  keeps_webhookEvents (updateUserSubscription env now userId subscription).
Proof. unfold updateUserSubscription. auto with keeps. Qed.

#[local] Hint Resolve keeps_updateUserSubscription : keeps.

Lemma keeps_dispatch env now event :
  keeps_webhookEvents (dispatch env now event).
Proof.
  unfold dispatch, handleCheckoutSessionCompleted, handleSubscriptionUpdate,
    handleSubscriptionDeleted, handleInvoicePaymentSucceeded,
    handleInvoicePaymentFailed.
  repeat keeps_step.
Qed.

(** *** Deliveries *)

Lemma handleWebhook_already_stored env now signature payload event w :
  constructEvent env now payload signature (stripe_webhookSecret (config env))
    = Some event ->
  find (fun r => String.eqb (w_eventId r) (e_id event))
    (webhookEvents (db w)) <> None ->
  handleWebhook env now signature payload w = (Return tt, w).
Proof.
  intros Hev Hsome. unfold handleWebhook. rewrite Hev.
  unfold webhookEvent_findUnique. run.
  destruct (find _ _); [reflexivity | congruence].
Qed.

(** What a first delivery does, whether the handler returns or throws. *)
Lemma handleWebhook_first_delivery env now signature payload event w :
  constructEvent env now payload signature (stripe_webhookSecret (config env))
    = Some event ->
  find (fun r => String.eqb (w_eventId r) (e_id event))
    (webhookEvents (db w)) = None ->
  let stored :=
    mkWorld (mkDatabase (users (db w)) (payments (db w))
               (webhookEvents (db w) ++ [received_row env now event (db w)])
               (trackingEvents (db w))) (remote_log w) in
  let w1 := snd (dispatch env now event stored) in
  handleWebhook env now signature payload w =
  match fst (dispatch env now event stored) with
  | Return _ =>
      (Return tt,
       mkWorld (mkDatabase (users (db w1)) (payments (db w1))
                  (webhookEvents (db w)
                     ++ [processed_row env now event (db w) None])
                  (trackingEvents (db w1))) (remote_log w1))
  | Throw err =>
      (Throw err,
       mkWorld (mkDatabase (users (db w1)) (payments (db w1))
                  (webhookEvents (db w)
                     ++ [processed_row env now event (db w) (Some (message err))])
                  (trackingEvents (db w1))) (remote_log w1))
  end.
Proof.
  intros Hev Hnone. destruct w as [d log]. simpl in *.
  unfold handleWebhook. rewrite Hev.
  unfold webhookEvent_findUnique. run. rewrite Hnone.
  pose proof (webhookEvent_create_fresh env now event d log Hnone) as Hc.
  unfold bind in Hc |- *. rewrite Hc. clear Hc.
  pose proof (keeps_dispatch env now event
    (mkWorld (mkDatabase (users d) (payments d)
                (webhookEvents d ++ [received_row env now event d])
                (trackingEvents d)) log)) as Hkeep.
  destruct (dispatch env now event _) as [[[]|err] [d1 log1]]; simpl in *;
    destruct d1 as [us ps ws ts]; simpl in *; subst ws.
  - pose proof (webhookEvent_update_last env (e_id event)
      (fun r => mkWebhookEvent (w_id r) (w_source r) (w_eventId r)
                  (w_eventType r) (w_payload r) true (Some now) (w_error r)
                  (w_createdAt r))
      (mkDatabase us ps (webhookEvents d) ts) log1
      (received_row env now event d) Hnone eq_refl) as Hu.
    simpl in Hu. rewrite Hu. reflexivity.
  - pose proof (webhookEvent_update_last env (e_id event)
      (fun r => mkWebhookEvent (w_id r) (w_source r) (w_eventId r)
                  (w_eventType r) (w_payload r) true (Some now)
                  (Some (message err)) (w_createdAt r))
      (mkDatabase us ps (webhookEvents d) ts) log1
      (received_row env now event d) Hnone eq_refl) as Hu.
    simpl in Hu. rewrite Hu. reflexivity.
Qed.

Lemma find_none_filter {A} (P : A -> bool) (l : list A) :
  find P l = None -> List.filter P l = [].
Proof.
  induction l as [|x l IH]; simpl; [reflexivity|].
  destruct (P x); [discriminate | exact IH].
Qed.

Lemma find_app_last {A} (P : A -> bool) (l : list A) (x : A) :
  find P l = None -> P x = true -> find P (l ++ [x]) = Some x.
Proof.
  induction l as [|y l IH]; simpl; intros Hn Hx.
  - rewrite Hx. reflexivity.
  - destruct (P y); [discriminate | auto].
Qed.

(** C1: a delivery whose event id already has a stored row returns
    normally and leaves the world as it was (no row created or modified,
    no handler run, no remote call).  In particular, when an event is
    delivered and then delivered again (same id, any payload, signature and
    time that verify), the first delivery leaves exactly one row with that
    id, whether its handler returned or threw, and the second delivery
    returns normally without changing anything. *)
Theorem handleWebhook_idempotent env now signature payload event w :
  constructEvent env now payload signature (stripe_webhookSecret (config env))
    = Some event ->
  (find (fun r => String.eqb (w_eventId r) (e_id event))
     (webhookEvents (db w)) <> None ->
   handleWebhook env now signature payload w = (Return tt, w))
  /\
  (find (fun r => String.eqb (w_eventId r) (e_id event))
     (webhookEvents (db w)) = None ->
   forall now2 signature2 payload2 event2,
     constructEvent env now2 payload2 signature2
       (stripe_webhookSecret (config env)) = Some event2 ->
     e_id event2 = e_id event ->
     let w1 := snd (handleWebhook env now signature payload w) in
     length (rows_with_eventId (e_id event) (db w1)) = 1%nat
     /\ handleWebhook env now2 signature2 payload2 w1 = (Return tt, w1)).
Proof.
  intros Hev. split.
  - apply handleWebhook_already_stored. exact Hev.
  - intros Hnone now2 signature2 payload2 event2 Hev2 Hid.
    pose proof (handleWebhook_first_delivery env now signature payload event w
                  Hev Hnone) as H1.
    cbv zeta in H1 |- *. rewrite H1.
    destruct (fst (dispatch env now event _)) as [[]|err]; simpl snd.
    + split.
      * unfold rows_with_eventId. simpl.
        rewrite List.filter_app, (find_none_filter _ _ Hnone). simpl.
        rewrite String.eqb_refl. reflexivity.
      * apply (handleWebhook_already_stored env now2 signature2 payload2
                 event2); [exact Hev2|].
        rewrite Hid. simpl.
        rewrite (find_app_last _ _ _ Hnone); [discriminate|].
        simpl. apply String.eqb_refl.
    + split.
      * unfold rows_with_eventId. simpl.
        rewrite List.filter_app, (find_none_filter _ _ Hnone). simpl.
        rewrite String.eqb_refl. reflexivity.
      * apply (handleWebhook_already_stored env now2 signature2 payload2
                 event2); [exact Hev2|].
        rewrite Hid. simpl.
        rewrite (find_app_last _ _ _ Hnone); [discriminate|].
        simpl. apply String.eqb_refl.
Qed.

Lemma handleWebhook_idempotent_witness :
  let env := Demo.env_with (fun _ _ => Response 200) in
  let w1 := snd (handleWebhook env 5 "good" "deleted" Demo.world0) in
  length (rows_with_eventId "evt_1" (db w1)) = 1%nat
  /\ handleWebhook env 9 "good" "deleted" w1 = (Return tt, w1).
Proof.
  exact (proj2 (handleWebhook_idempotent
                  (Demo.env_with (fun _ _ => Response 200)) 5 "good" "deleted"
                  (mkStripeEvent "evt_1" "customer.subscription.deleted" 1
                     (Demo.subscription_of (Some "u1")))
                  Demo.world0 eq_refl)
           eq_refl 9 "good" "deleted"
           (mkStripeEvent "evt_1" "customer.subscription.deleted" 1
              (Demo.subscription_of (Some "u1")))
           eq_refl eq_refl).
Defined.

(** C6: when the handler of a new, verified event throws, [handleWebhook]
    rethrows that very exception, and the row it stored on receipt is by
    then marked processed, with the time of processing and the message of
    the exception; everything else is as the handler left it. *)
Theorem handleWebhook_handler_failure env now signature payload event w err w1 :
  constructEvent env now payload signature (stripe_webhookSecret (config env))
    = Some event ->
  find (fun r => String.eqb (w_eventId r) (e_id event))
    (webhookEvents (db w)) = None ->
  dispatch env now event
    (mkWorld (mkDatabase (users (db w)) (payments (db w))
                (webhookEvents (db w) ++ [received_row env now event (db w)])
                (trackingEvents (db w))) (remote_log w))
  = (Throw err, w1) ->
  handleWebhook env now signature payload w
  = (Throw err,
     mkWorld (mkDatabase (users (db w1)) (payments (db w1))
                (webhookEvents (db w)
                   ++ [mkWebhookEvent (uuid env (map w_id (webhookEvents (db w))))
                         "stripe" (e_id event) (e_type event) event
                         true (Some now) (Some (message err)) now])
                (trackingEvents (db w1))) (remote_log w1)).
Proof.
  intros Hev Hnone Hthrow.
  pose proof (handleWebhook_first_delivery env now signature payload event w
                Hev Hnone) as H1.
  cbv zeta in H1. rewrite Hthrow in H1. simpl in H1. exact H1.
Qed.

Lemma handleWebhook_handler_failure_witness :
  handleWebhook (Demo.env_with (fun _ _ => Response 200)) 5 "good" "ghost"
    Demo.world0
  = (Throw (PrismaClientKnownRequestError "P2025" "prisma error P2025"),
     mkWorld
       (mkDatabase (users Demo.db0) []
          [mkWebhookEvent "x" "stripe" "evt_3" "customer.subscription.deleted"
             (mkStripeEvent "evt_3" "customer.subscription.deleted" 3
                (Demo.subscription_of (Some "nobody")))
             true (Some 5) (Some "prisma error P2025") 5]
          [])
       []).
Proof.
  apply (handleWebhook_handler_failure
           (Demo.env_with (fun _ _ => Response 200)) 5 "good" "ghost"
           (mkStripeEvent "evt_3" "customer.subscription.deleted" 3
              (Demo.subscription_of (Some "nobody")))
           Demo.world0
           (PrismaClientKnownRequestError "P2025" "prisma error P2025")
           (mkWorld
              (mkDatabase (users Demo.db0) []
                 [mkWebhookEvent "x" "stripe" "evt_3"
                    "customer.subscription.deleted"
                    (mkStripeEvent "evt_3" "customer.subscription.deleted" 3
                       (Demo.subscription_of (Some "nobody")))
                    false None None 5]
                 [])
              [])).
  - reflexivity.
  - reflexivity.
  - vm_compute. reflexivity.
Defined.

(* ===================================================================== *)
(** ** Conversion tracking *)
(* ===================================================================== *)

Lemma not_in_map_if {A} (key : A -> string) (id : string) (f : A -> A)
    (l : list A) :
  ~ In id (map key l) ->
  map (fun r => if String.eqb (key r) id then f r else r) l = l.
Proof.
  induction l as [|x l IH]; simpl; intros Hnot; [reflexivity|].
  destruct (String.eqb_spec (key x) id) as [Heq|Hne].
  - exfalso. apply Hnot. left. exact Heq.
  - rewrite IH; [reflexivity|]. intros Hin. apply Hnot. right. exact Hin.
Qed.

(** The update of the row just created touches that row only. *)
Lemma trackingEvent_update_last env id data d log row :
  ~ In id (map t_id (trackingEvents d)) ->
  t_id row = id ->
  trackingEvent_update env id data
    (mkWorld (mkDatabase (users d) (payments d) (webhookEvents d)
                (trackingEvents d ++ [row])) log)
  = (Return tt,
     mkWorld (mkDatabase (users d) (payments d) (webhookEvents d)
                (trackingEvents d ++ [data row])) log).
Proof.
  intros Hfresh Hrow. unfold trackingEvent_update. run.
  rewrite existsb_app_last by (rewrite Hrow; apply String.eqb_refl).
  rewrite map_app. simpl.
  rewrite (not_in_map_if t_id id data _ Hfresh).
  rewrite Hrow, String.eqb_refl. reflexivity.
Qed.

Lemma resolve_clickId_run userId clickId w :
  resolve_clickId userId clickId w =
  (Return (match JS.truthy clickId with
           | Some c => Some c
           | None => JS.truthy (stored_clickId userId (db w))
           end), w).
Proof.
  unfold resolve_clickId, stored_clickId, user_findUnique. run.
  destruct (JS.truthy clickId); reflexivity.
Qed.

Lemma trackPurchase_run env now userId amount currency clickId w :
  trackPurchase env now userId amount currency clickId w =
  match (match JS.truthy clickId with
         | Some c => Some c
         | None => JS.truthy (stored_clickId userId (db w))
         end) with
  | None => (Return tt, w)
  | Some c =>
      if JS.in_int32 (JS.Math_round amount) then
        let url := postback_url env c (keitaro_statuses_purchase (config env))
                     (Some (amount / 100)%Q) (Some (currency_or_USD currency)) in
        let success := delivered (axios_get env (length (remote_log w)) url) in
        (Return tt,
         mkWorld (mkDatabase (users (db w)) (payments (db w))
                    (webhookEvents (db w))
                    (trackingEvents (db w)
                       ++ [purchase_row env now userId amount
                             (currency_or_USD currency) c success (db w)]))
           (remote_log w ++ [HttpGet url]))
      else
        (Throw (PrismaClientKnownRequestError "P2020"
                  (prisma_message env "P2020")), w)
  end.
Proof.
  destruct w as [d log]. unfold trackPurchase.
  rewrite (bind_Return _ _ _ _ _ (resolve_clickId_run userId clickId _)).
  cbn [db remote_log].
  destruct (match JS.truthy clickId with
            | Some c => Some c
            | None => JS.truthy (stored_clickId userId d)
            end) as [c|]; [|reflexivity].
  unfold trackingEvent_create. run.
  destruct (JS.in_int32 (JS.Math_round amount)); simpl; [|reflexivity].
  rewrite sendPostback_run. simpl.
  rewrite trackingEvent_update_last;
    [reflexivity | apply uuid_fresh | reflexivity].
Qed.

Lemma trackRegistration_run env now userId clickId w :
  trackRegistration env now userId clickId w =
  match (match JS.truthy clickId with
         | Some c => Some c
         | None => JS.truthy (stored_clickId userId (db w))
         end) with
  | None => (Return tt, w)
  | Some c =>
      let url := postback_url env c
                   (keitaro_statuses_registration (config env)) None None in
      let success := delivered (axios_get env (length (remote_log w)) url) in
      (Return tt,
       mkWorld (mkDatabase (users (db w)) (payments (db w))
                  (webhookEvents (db w))
                  (trackingEvents (db w)
                     ++ [registration_row env now userId c success (db w)]))
         (remote_log w ++ [HttpGet url]))
  end.
Proof.
  destruct w as [d log]. unfold trackRegistration.
  rewrite (bind_Return _ _ _ _ _ (resolve_clickId_run userId clickId _)).
  cbn [db remote_log].
  destruct (match JS.truthy clickId with
            | Some c => Some c
            | None => JS.truthy (stored_clickId userId d)
            end) as [c|]; [|reflexivity].
  unfold trackingEvent_create. run.
  rewrite sendPostback_run. simpl.
  rewrite trackingEvent_update_last;
    [reflexivity | apply uuid_fresh | reflexivity].
Qed.

Lemma Math_round_inject_Z (n : Z) : JS.Math_round (inject_Z n) = n.
Proof.
  unfold JS.Math_round, Qfloor, Qplus, inject_Z. simpl.
  rewrite Z.mul_1_r.
  replace (n * 2 + 1) with (1 + n * 2) by lia.
  rewrite Z.div_add by lia. reflexivity.
Qed.

(** [Math.round] gives the nearest integer, a half going up. *)
Lemma Math_round_nearest (x : Q) :
  (inject_Z (JS.Math_round x) - (1 # 2) <= x
   /\ x < inject_Z (JS.Math_round x) + (1 # 2))%Q.
Proof.
  unfold JS.Math_round.
  pose proof (Qfloor_le (x + (1 # 2))) as Hle.
  pose proof (Qlt_floor (x + (1 # 2))) as Hlt.
  rewrite inject_Z_plus in Hlt.
  change (inject_Z 1) with 1%Q in Hlt.
  split; lra.
Qed.

Lemma payout_in_params env clickId status amount currency :
  In ("payout", JS.number_toString amount)
    (postback_params env clickId status (Some amount) currency).
Proof.
  unfold postback_params, URLSearchParams.append.
  destruct (JS.truthy currency); simpl; tauto.
Qed.







(** C10: a registration or purchase tracked without a click identifier
    argument behaves as if it had been given the identifier stored on the
    user; when that one is missing too, the call returns without touching
    anything, so no row is created; when it is there, the call does not
    stop short: a registration creates one row that carries the stored
    identifier, and so does a purchase whose rounded amount fits the 32-bit
    amount column, while for an amount that does not fit the creation is
    attempted and refused with the Prisma error P2020. *)
Theorem tracking_falls_back_to_stored_clickId
    env now userId amount currency clickId w :
  JS.truthy clickId = None ->
  let stored := stored_clickId userId (db w) in
  (trackRegistration env now userId clickId w
     = trackRegistration env now userId stored w
   /\ trackPurchase env now userId amount currency clickId w
     = trackPurchase env now userId amount currency stored w)
  /\ (JS.truthy stored = None ->
      trackRegistration env now userId clickId w = (Return tt, w)
      /\ trackPurchase env now userId amount currency clickId w
         = (Return tt, w))
  /\ (forall c, JS.truthy stored = Some c ->
      (exists row,
         trackingEvents (db (snd (trackRegistration env now userId clickId w)))
           = trackingEvents (db w) ++ [row]
         /\ t_subId row = Some c)
      /\ (JS.in_int32 (JS.Math_round amount) = true ->
          exists row,
            trackingEvents
              (db (snd (trackPurchase env now userId amount currency clickId w)))
              = trackingEvents (db w) ++ [row]
            /\ t_subId row = Some c)
      /\ (JS.in_int32 (JS.Math_round amount) = false ->
          trackPurchase env now userId amount currency clickId w
          = (Throw (PrismaClientKnownRequestError "P2020"
                      (prisma_message env "P2020")), w))).
Proof.
  intros Harg stored.
  rewrite !trackRegistration_run, !trackPurchase_run, Harg.
  fold stored.
  destruct (JS.truthy stored) as [c|] eqn:Hs.
  - split; [split; reflexivity|].
    split; [discriminate|].
    intros c' [= <-]. cbv zeta.
    split; [eexists; split; reflexivity|].
    split; intros Hrange; rewrite Hrange; [|reflexivity].
    eexists; split; reflexivity.
  - split; [split; reflexivity|].
    split; [intros _; split; reflexivity|].
    discriminate.
Qed.

Lemma tracking_falls_back_to_stored_clickId_witness :
  let env := Demo.env_with (fun _ _ => Response 200) in
  let w := Demo.world0 in
  (exists row,
     trackingEvents (db (snd (trackRegistration env 5 "u1" None w))) = [row]
     /\ t_subId row = Some "click-7")
  /\ (exists row,
        trackingEvents (db (snd (trackPurchase env 5 "u1" 999 None None w)))
          = [row]
        /\ t_subId row = Some "click-7")
  /\ trackPurchase env 5 "u1" 3000000000 None None w
     = (Throw (PrismaClientKnownRequestError "P2020"
                 (prisma_message env "P2020")), w)
  /\ trackRegistration env 5 "nobody" None w = (Return tt, w)
  /\ trackPurchase env 5 "nobody" 999 None None w = (Return tt, w).
Proof.
  cbv zeta.
  assert (Hs : JS.truthy (stored_clickId "u1" (db Demo.world0))
               = Some "click-7") by (vm_compute; reflexivity).
  assert (Hn : JS.truthy (stored_clickId "nobody" (db Demo.world0)) = None)
    by (vm_compute; reflexivity).
  destruct (tracking_falls_back_to_stored_clickId
              (Demo.env_with (fun _ _ => Response 200)) 5 "u1" 999 None None
              Demo.world0 eq_refl) as (_ & _ & H).
  destruct (H "click-7" Hs) as (Hreg & Hpur & _).
  destruct (tracking_falls_back_to_stored_clickId
              (Demo.env_with (fun _ _ => Response 200)) 5 "u1" 3000000000
              None None Demo.world0 eq_refl) as (_ & _ & H').
  destruct (H' "click-7" Hs) as (_ & _ & Hthrow).
  destruct (tracking_falls_back_to_stored_clickId
              (Demo.env_with (fun _ _ => Response 200)) 5 "nobody" 999
              None None Demo.world0 eq_refl) as (_ & Hnoop & _).
  split; [exact Hreg|].
  split; [apply Hpur; vm_compute; reflexivity|].
  split; [apply Hthrow; vm_compute; reflexivity|].
  exact (Hnoop Hn).
Defined.

(* ===================================================================== *)
(** ** The Retry Sweeper *)
(* ===================================================================== *)

Lemma retry_event_run env now event w :
  retry_event env now event w =
  match retry_url env event with
  | None => (Return tt, w)
  | Some url =>
      let w1 := mkWorld (db w) (remote_log w ++ [HttpGet url]) in
      if delivered (axios_get env (length (remote_log w)) url)
      then trackingEvent_update env (t_id event) (sent_update now true) w1
      else (Return tt, w1)
  end.
Proof.
  unfold retry_event, retry_url, retry_send.
  destruct (JS.truthy (t_subId event)) as [subId|]; [|reflexivity].
  destruct (String.eqb (t_eventType event) "registration").
  - unfold bind. rewrite sendPostback_run. cbv zeta.
    destruct (delivered _); reflexivity.
  - destruct (String.eqb (t_eventType event) "purchase");
      [destruct (JS.truthy_int (t_amount event)) as [amount|]|];
      try reflexivity.
    unfold bind. rewrite sendPostback_run. cbv zeta.
    destruct (delivered _); reflexivity.
Qed.

Lemma trackingEvent_update_present env id data w :
  In id (map t_id (trackingEvents (db w))) ->
  trackingEvent_update env id data w =
  (Return tt,
   mkWorld (mkDatabase (users (db w)) (payments (db w)) (webhookEvents (db w))
              (map (fun r => if String.eqb (t_id r) id then data r else r)
                 (trackingEvents (db w))))
     (remote_log w)).
Proof.
  intros Hin. unfold trackingEvent_update. run.
  assert (Hex : existsb (fun r => String.eqb (t_id r) id)
                  (trackingEvents (db w)) = true).
  { apply existsb_exists. apply in_map_iff in Hin.
    destruct Hin as (r & Hr & Hin). exists r. split; [exact Hin|].
    rewrite Hr. apply String.eqb_refl. }
  rewrite Hex. reflexivity.
Qed.

Lemma mark_nil now r : mark now [] r = r.
Proof. reflexivity. Qed.

Lemma mark_after_update now id ids r :
  mark now ids (if String.eqb (t_id r) id then sent_update now true r else r)
  = mark now (id :: ids) r.
Proof.
  unfold mark. simpl.
  destruct (String.eqb (t_id r) id); simpl.
  - destruct (existsb _ ids); reflexivity.
  - reflexivity.
Qed.

Lemma map_t_id_update now id (l : list TrackingEvent) :
  map t_id (map (fun r => if String.eqb (t_id r) id
                          then sent_update now true r else r) l)
  = map t_id l.
Proof.
  rewrite List.map_map. apply List.map_ext. intros r.
  destruct (String.eqb (t_id r) id); reflexivity.
Qed.

(** The loop of the sweeper, run over rows that are in the ledger. *)
Lemma sweep_run env now selected : forall w,
  (forall e, In e selected -> In (t_id e) (map t_id (trackingEvents (db w)))) ->
  for_each selected (retry_event env now) w =
  (Return tt,
   mkWorld
     (mkDatabase (users (db w)) (payments (db w)) (webhookEvents (db w))
        (map (mark now (sweep_ids env (length (remote_log w)) selected))
           (trackingEvents (db w))))
     (remote_log w ++ map HttpGet (omap (retry_url env) selected))).
Proof.
  induction selected as [|e rest IH]; intros [d log] Hin; simpl in *.
  - unfold ret. rewrite app_nil_r.
    rewrite (List.map_ext _ (fun r => r) (mark_nil now)), List.map_id.
    destruct d; reflexivity.
  - unfold bind. rewrite retry_event_run. simpl.
    destruct (retry_url env e) as [url|] eqn:Hurl; simpl.
    + destruct (delivered (axios_get env (length log) url)) eqn:Hd.
      * rewrite trackingEvent_update_present by (apply Hin; left; reflexivity).
        simpl. rewrite IH; simpl.
        -- rewrite length_app, Nat.add_1_r. simpl.
           rewrite List.map_map.
           rewrite (List.map_ext _ _ (mark_after_update now (t_id e) _)).
           rewrite <- app_assoc. reflexivity.
        -- intros e' He'. rewrite map_t_id_update. apply Hin. right. exact He'.
      * rewrite IH; simpl.
        -- rewrite length_app, Nat.add_1_r. simpl.
           rewrite <- app_assoc. reflexivity.
        -- intros e' He'. apply Hin. right. exact He'.
    + apply IH. intros e' He'. apply Hin. right. exact He'.
Qed.

(** *** Facts on [findMany]'s selection *)

Lemma In_firstn {A} (n : nat) (l : list A) (x : A) :
  In x (firstn n l) -> In x l.
Proof.
  revert n. induction l as [|y l IH]; intros [|n]; simpl; try tauto.
  intros [H|H]; [left; exact H | right; exact (IH n H)].
Qed.

Lemma NoDup_map_firstn {A B} (f : A -> B) (n : nat) (l : list A) :
  List.NoDup (map f l) -> List.NoDup (map f (firstn n l)).
Proof.
  revert n. induction l as [|y l IH]; intros [|n] Hnd; simpl;
    try constructor.
  - inversion Hnd as [|? ? Hnot Hrest]; subst.
    intros Hin. apply Hnot. apply in_map_iff in Hin.
    destruct Hin as (x & Hx & Hin). apply in_map_iff.
    exists x. split; [exact Hx | exact (In_firstn n l x Hin)].
  - inversion Hnd; subst. apply IH. assumption.
Qed.

Lemma NoDup_map_filter {A B} (f : A -> B) (P : A -> bool) (l : list A) :
  List.NoDup (map f l) -> List.NoDup (map f (List.filter P l)).
Proof.
  induction l as [|y l IH]; intros Hnd; simpl; [constructor|].
  inversion Hnd as [|? ? Hnot Hrest]; subst.
  destruct (P y); simpl; [constructor|]; auto.
  intros Hin. apply Hnot. apply in_map_iff in Hin.
  destruct Hin as (x & Hx & Hin). apply in_map_iff.
  exists x. split; [exact Hx|]. apply filter_In in Hin. tauto.
Qed.

Lemma existsb_not_in (id : string) (ids : list string) :
  ~ In id ids -> existsb (String.eqb id) ids = false.
Proof.
  induction ids as [|x ids IH]; simpl; intros Hnot; [reflexivity|].
  destruct (String.eqb_spec id x) as [Heq|_]; simpl.
  - exfalso. apply Hnot. left. symmetry. exact Heq.
  - apply IH. tauto.
Qed.

Lemma sweep_ids_subset env selected : forall k x,
  In x (sweep_ids env k selected) -> In x (map t_id selected).
Proof.
  induction selected as [|e rest IH]; intros k x; simpl; [tauto|].
  destruct (retry_url env e) as [url|].
  - destruct (delivered _); simpl.
    + intros [H|H]; [left; exact H | right; exact (IH _ _ H)].
    + intros H. right. exact (IH _ _ H).
  - intros H. right. exact (IH _ _ H).
Qed.

(** Whether the row at position [i] of the selection ends up marked: its
    postback is the one issued after those of the rows before it. *)
Lemma sweep_ids_index env selected : forall k i e,
  List.NoDup (map t_id selected) ->
  selected !! i = Some e ->
  existsb (String.eqb (t_id e)) (sweep_ids env k selected) =
  match retry_url env e with
  | Some url =>
      delivered (axios_get env
                   (k + length (omap (retry_url env) (take i selected))) url)
  | None => false
  end.
Proof.
  induction selected as [|h rest IH]; intros k i e Hnd Hi; [discriminate|].
  inversion Hnd as [|? ? Hnot Hrest]; subst.
  destruct i as [|j]; simpl in Hi.
  - injection Hi as ->. simpl. rewrite Nat.add_0_r.
    assert (Hout : forall k', existsb (String.eqb (t_id e))
                                (sweep_ids env k' rest) = false).
    { intros k'. apply existsb_not_in. intros Hin. apply Hnot.
      exact (sweep_ids_subset env rest k' _ Hin). }
    destruct (retry_url env e) as [url|]; [|apply Hout].
    destruct (delivered _); simpl; [|apply Hout].
    rewrite String.eqb_refl. reflexivity.
  - assert (Hne : String.eqb (t_id e) (t_id h) = false).
    { apply String.eqb_neq. intros Heq. apply Hnot. rewrite <- Heq.
      apply in_map. apply list_elem_of_In.
      apply (list_elem_of_lookup_2 rest j e Hi). }
    simpl.
    destruct (retry_url env h) as [url|]; simpl.
    + destruct (delivered (axios_get env k url)); simpl;
        [rewrite Hne; simpl|]; rewrite (IH (S k) j e Hrest Hi);
        destruct (retry_url env e); try reflexivity;
        rewrite Nat.add_succ_r; reflexivity.
    + apply (IH k j e Hrest Hi).
Qed.

Lemma t_id_mark now ids r : t_id (mark now ids r) = t_id r.
Proof. unfold mark. destruct (existsb _ ids); reflexivity. Qed.

Lemma find_mark now ids (l : list TrackingEvent) e :
  List.NoDup (map t_id l) -> In e l ->
  find (fun r => String.eqb (t_id r) (t_id e)) (map (mark now ids) l)
  = Some (mark now ids e).
Proof.
  induction l as [|x l IH]; intros Hnd Hin; [destruct Hin|].
  inversion Hnd as [|? ? Hnot Hrest]; subst. simpl.
  rewrite t_id_mark.
  destruct Hin as [->|Hin].
  - rewrite String.eqb_refl. reflexivity.
  - destruct (String.eqb_spec (t_id x) (t_id e)) as [Heq|_].
    + exfalso. apply Hnot. rewrite Heq. apply in_map. exact Hin.
    + apply IH; assumption.
Qed.

Lemma retry_where_true now e :
  retry_where now e = true <->
  t_sentToTracker e = false /\ now - 86400000 <= t_createdAt e.
Proof.
  unfold retry_where. rewrite andb_true_iff, negb_true_iff, Z.leb_le.
  replace (24 * 60 * 60 * 1000) with 86400000 by reflexivity. tauto.
Qed.

Lemma retryFailedPostbacks_run env now w :
  retryFailedPostbacks env now w =
  for_each (firstn 100 (List.filter (retry_where now) (trackingEvents (db w))))
    (retry_event env now) w.
Proof. reflexivity. Qed.

(** The whole sweep in closed form. *)
Lemma sweep_result env now w :
  let selected :=
    firstn 100 (List.filter (retry_where now) (trackingEvents (db w))) in
  retryFailedPostbacks env now w =
  (Return tt,
   mkWorld
     (mkDatabase (users (db w)) (payments (db w)) (webhookEvents (db w))
        (map (mark now (sweep_ids env (length (remote_log w)) selected))
           (trackingEvents (db w))))
     (remote_log w ++ map HttpGet (omap (retry_url env) selected))).
Proof.
  cbv zeta. rewrite retryFailedPostbacks_run. apply sweep_run.
  intros e He. apply in_map. apply In_firstn in He.
  apply filter_In in He. tauto.
Qed.

Lemma selected_NoDup now (l : list TrackingEvent) :
  List.NoDup (map t_id l) ->
  List.NoDup (map t_id (firstn 100 (List.filter (retry_where now) l))).
Proof.
  intros Hnd. apply NoDup_map_firstn, NoDup_map_filter. exact Hnd.
Qed.

(** C4: the sweeper's query returns rows of the ledger that are unsent and
    not older than 24 hours, at most 100 of them, all such rows when there
    are no more than 100, and never a row created more than 24 hours ago.
    The sweep returns normally; the requests it makes are, in order, those
    of the selected rows that have one to re-send; and afterwards a
    selected row is marked sent, with [now] as its sent timestamp, exactly
    when the postback re-sent for it was delivered; otherwise it is as it
    was. *)
Theorem retryFailedPostbacks_selects_and_marks env now w :
  List.NoDup (map t_id (trackingEvents (db w))) ->
  let ledger := trackingEvents (db w) in
  let selected := firstn 100 (List.filter (retry_where now) ledger) in
  let w' := snd (retryFailedPostbacks env now w) in
  trackingEvent_findMany (retry_where now) 100 w = (Return selected, w)
  /\ fst (retryFailedPostbacks env now w) = Return tt
  /\ remote_log w'
     = remote_log w ++ map HttpGet (omap (retry_url env) selected)
  /\ (length selected <= 100)%nat
  /\ (forall e, In e selected ->
        In e ledger /\ t_sentToTracker e = false
        /\ now - 86400000 <= t_createdAt e)
  /\ (forall e, In e ledger -> t_createdAt e < now - 86400000 ->
        ~ In e selected)
  /\ ((length (List.filter (retry_where now) ledger) <= 100)%nat ->
      forall e, In e ledger -> t_sentToTracker e = false ->
        now - 86400000 <= t_createdAt e -> In e selected)
  /\ (forall i e, selected !! i = Some e ->
        let k := (length (remote_log w)
                  + length (omap (retry_url env) (take i selected)))%nat in
        let succeeded :=
          match retry_url env e with
          | Some url => delivered (axios_get env k url)
          | None => false
          end in
        exists r,
          find (fun r => String.eqb (t_id r) (t_id e)) (trackingEvents (db w'))
            = Some r
          /\ r = (if succeeded then sent_update now true e else e)
          /\ ((t_sentToTracker r = true /\ t_sentAt r = Some now)
              <-> succeeded = true)).
Proof.
  intros Hnd ledger selected w'.
  assert (Hsel : forall e, In e selected ->
            In e ledger /\ t_sentToTracker e = false
            /\ now - 86400000 <= t_createdAt e).
  { intros e He. apply In_firstn in He. apply filter_In in He.
    destruct He as [Hin Hw]. apply retry_where_true in Hw. tauto. }
  split; [reflexivity|].
  split; [unfold w'; rewrite sweep_result; reflexivity|].
  split; [unfold w'; rewrite sweep_result; reflexivity|].
  split; [apply firstn_le_length|].
  split; [exact Hsel|].
  split.
  { intros e _ Hold He. apply Hsel in He. lia. }
  split.
  { intros Hfew e Hin Hunsent Hrecent. unfold selected.
    rewrite firstn_all2 by exact Hfew.
    apply filter_In. split; [exact Hin|].
    apply retry_where_true. tauto. }
  intros i e Hi k succeeded.
  assert (He : In e selected).
  { apply list_elem_of_In. exact (list_elem_of_lookup_2 selected i e Hi). }
  destruct (Hsel e He) as (Hin & Hunsent & _).
  unfold w'. rewrite sweep_result. cbn [snd db trackingEvents].
  fold ledger. fold selected.
  rewrite (find_mark now _ ledger e Hnd Hin).
  unfold mark.
  rewrite (sweep_ids_index env selected (length (remote_log w)) i e
             (selected_NoDup now ledger Hnd) Hi).
  fold k. fold succeeded.
  eexists. split; [reflexivity|]. split; [reflexivity|].
  destruct succeeded; simpl.
  - tauto.
  - rewrite Hunsent. split; [intros [H _]; discriminate H | discriminate].
Qed.

Lemma ledger_NoDup : List.NoDup (map t_id Demo.ledger).
Proof.
  simpl. repeat (constructor; [simpl; intuition discriminate|]).
  constructor.
Qed.

Lemma retryFailedPostbacks_selects_and_marks_witness :
  let env := Demo.env_with Demo.flaky in
  let now := 100 * Demo.hour in
  let w' := snd (retryFailedPostbacks env now Demo.world1) in
  List.NoDup (map t_id Demo.ledger)
  /\ trackingEvent_findMany (retry_where now) 100 Demo.world1
     = (Return (firstn 100 (List.filter (retry_where now) Demo.ledger)),
        Demo.world1)
  /\ fst (retryFailedPostbacks env now Demo.world1) = Return tt.
Proof.
  cbv zeta. split; [exact ledger_NoDup|].
  destruct (retryFailedPostbacks_selects_and_marks
              (Demo.env_with Demo.flaky) (100 * Demo.hour) Demo.world1
              ledger_NoDup) as (Hquery & Hret & _).
  split; [exact Hquery | exact Hret].
Defined.

(** The scenario of the specification: at time [100 * hour], with the
    tracker up, the row that failed an hour ago is selected and marked sent
    at that time; the row that failed 25 hours ago is not selected and
    stays as it is. *)
Example retry_window_scenario :
  let env := Demo.env_with (fun _ _ => Response 200) in
  let now := 100 * Demo.hour in
  let w' := snd (retryFailedPostbacks env now Demo.world1) in
  map t_id (firstn 100 (List.filter (retry_where now) Demo.ledger))
    = ["t2"; "t4"; "t5"; "t6"]
  /\ map (fun r => (t_id r, t_sentToTracker r, t_sentAt r))
       (trackingEvents (db w'))
     = [("t1", true, Some (98 * Demo.hour)); ("t2", true, Some now);
        ("t3", false, None); ("t4", false, None); ("t5", false, None);
        ("t6", true, Some now)].
Proof. vm_compute. split; reflexivity. Qed.

Lemma retry_url_unsendable env e :
  JS.truthy (t_subId e) = None
  \/ (t_eventType e <> "registration" /\ t_eventType e <> "purchase")
  \/ (t_eventType e = "purchase" /\ JS.truthy_int (t_amount e) = None) ->
  retry_url env e = None.
Proof.
  unfold retry_url. intros [Hsub|[[Hreg Hpur]|[Hpur Hamt]]].
  - rewrite Hsub. reflexivity.
  - destruct (JS.truthy (t_subId e)); [|reflexivity].
    apply String.eqb_neq in Hreg, Hpur. rewrite Hreg, Hpur. reflexivity.
  - destruct (JS.truthy (t_subId e)); [|reflexivity].
    rewrite Hpur, Hamt. reflexivity.
Qed.

Lemma NoDup_map_inj {A B} (f : A -> B) (l : list A) x y :
  List.NoDup (map f l) -> In x l -> In y l -> f x = f y -> x = y.
Proof.
  induction l as [|z l IH]; intros Hnd Hx Hy Hf; [destruct Hx|].
  inversion Hnd as [|? ? Hnot Hrest]; subst.
  destruct Hx as [->|Hx], Hy as [->|Hy].
  - reflexivity.
  - exfalso. apply Hnot. rewrite Hf. apply in_map. exact Hy.
  - exfalso. apply Hnot. rewrite <- Hf. apply in_map. exact Hx.
  - apply IH; assumption.
Qed.

Lemma omap_without {A B} (f : A -> option B) (P : A -> bool) (l : list A) :
  (forall x, In x l -> P x = false -> f x = None) ->
  omap f (List.filter P l) = omap f l.
Proof.
  induction l as [|x l IH]; intros H; [reflexivity|].
  assert (IH' : omap f (List.filter P l) = omap f l).
  { apply IH. intros y Hy. apply H. right. exact Hy. }
  cbn [List.filter].
  destruct (P x) eqn:HP.
  - change (omap f (x :: List.filter P l))
      with (match f x with
            | Some y => y :: omap f (List.filter P l)
            | None => omap f (List.filter P l)
            end).
    change (omap f (x :: l))
      with (match f x with Some y => y :: omap f l | None => omap f l end).
    rewrite IH'. reflexivity.
  - change (omap f (x :: l))
      with (match f x with Some y => y :: omap f l | None => omap f l end).
    rewrite (H x (or_introl eq_refl) HP). exact IH'.
Qed.

(** C9: a selected row that has no click identifier, or whose type is
    neither registration nor purchase, or that is a purchase without
    amount, is passed over by the loop: its iteration issues no request and
    changes nothing.  After the sweep the row is in the ledger as it was,
    the requests made are those of the other selected rows, and the row
    matches the sweeper's query again at every later time that is within
    24 hours of its creation. *)
Theorem retry_skips_unsendable env now w e :
  List.NoDup (map t_id (trackingEvents (db w))) ->
  let selected :=
    firstn 100 (List.filter (retry_where now) (trackingEvents (db w))) in
  In e selected ->
  JS.truthy (t_subId e) = None
  \/ (t_eventType e <> "registration" /\ t_eventType e <> "purchase")
  \/ (t_eventType e = "purchase" /\ JS.truthy_int (t_amount e) = None) ->
  let w' := snd (retryFailedPostbacks env now w) in
  (forall w0, retry_event env now e w0 = (Return tt, w0))
  /\ find (fun r => String.eqb (t_id r) (t_id e)) (trackingEvents (db w'))
     = Some e
  /\ t_sentToTracker e = false
  /\ remote_log w'
     = remote_log w
       ++ map HttpGet
            (omap (retry_url env)
               (List.filter (fun r => negb (String.eqb (t_id r) (t_id e)))
                  selected))
  /\ (forall now', now' - 86400000 <= t_createdAt e ->
        In e (List.filter (retry_where now') (trackingEvents (db w')))).
Proof.
  intros Hnd selected He Hcond w'.
  pose proof (retry_url_unsendable env e Hcond) as Hurl.
  assert (Hin : In e (trackingEvents (db w))).
  { apply In_firstn in He. apply filter_In in He. tauto. }
  assert (Hunsent : t_sentToTracker e = false).
  { apply In_firstn in He. apply filter_In in He.
    destruct He as [_ Hw]. apply retry_where_true in Hw. tauto. }
  assert (Hmark : mark now (sweep_ids env (length (remote_log w)) selected) e
                  = e).
  { apply list_elem_of_In, list_elem_of_lookup_1 in He.
    destruct He as [i Hi]. unfold mark.
    rewrite (sweep_ids_index env selected _ i e
               (selected_NoDup now _ Hnd) Hi), Hurl. reflexivity. }
  split.
  { intros w0. rewrite retry_event_run, Hurl. reflexivity. }
  unfold w'. rewrite sweep_result. cbn [snd db trackingEvents remote_log].
  fold selected.
  split.
  { rewrite (find_mark now _ _ e Hnd Hin). rewrite Hmark. reflexivity. }
  split; [exact Hunsent|].
  split.
  { rewrite omap_without; [reflexivity|].
    intros x Hx Hsame. apply negb_false_iff, String.eqb_eq in Hsame.
    assert (x = e) as ->; [|exact Hurl].
    apply (NoDup_map_inj t_id selected x e (selected_NoDup now _ Hnd) Hx He
             Hsame). }
  intros now' Hrecent. apply filter_In. split.
  - rewrite <- Hmark at 1. apply in_map. exact Hin.
  - apply retry_where_true. tauto.
Qed.

Lemma retry_skips_unsendable_witness :
  let env := Demo.env_with Demo.flaky in
  let now := 100 * Demo.hour in
  let t4 := mkTrackingEvent "t4" None "custom" (Some "click-7")
              None None None false None (99 * Demo.hour) in
  let w' := snd (retryFailedPostbacks env now Demo.world1) in
  (forall w0, retry_event env now t4 w0 = (Return tt, w0))
  /\ find (fun r => String.eqb (t_id r) "t4") (trackingEvents (db w'))
     = Some t4.
Proof.
  cbv zeta.
  destruct (retry_skips_unsendable (Demo.env_with Demo.flaky)
              (100 * Demo.hour) Demo.world1
              (mkTrackingEvent "t4" None "custom" (Some "click-7")
                 None None None false None (99 * Demo.hour))
              ledger_NoDup)
    as (Hstep & Hfind & _).
  - vm_compute. right. left. reflexivity.
  - right. left. split; discriminate.
  - split; [exact Hstep | exact Hfind].
Defined.

(* ===================================================================== *)
(** ** What the Webhook Reconciler leaves alone *)
(* ===================================================================== *)

Section Frame.

Variable R : World -> World -> Prop.
Hypothesis R_refl : forall w, R w w.
Hypothesis R_trans : forall w1 w2 w3, R w1 w2 -> R w2 w3 -> R w1 w3.

Lemma preserves_ret {A} (a : A) : preserves R (ret a).
Proof. intros w. apply R_refl. Qed.

Lemma preserves_throw {A} (e : exn) : preserves R (@throw A e).
Proof. intros w. apply R_refl. Qed.

Lemma preserves_bind {A B} (m : M A) (k : A -> M B) :
  preserves R m -> (forall a, preserves R (k a)) -> preserves R (bind m k).
Proof.
  intros Hm Hk w. unfold bind.
  specialize (Hm w). destruct (m w) as [[a|e] w1]; simpl in *.
  - apply (R_trans _ _ _ Hm). apply Hk.
  - exact Hm.
Qed.

Lemma preserves_try_catch {A} (body : M A) (handler : exn -> M A) :
  preserves R body -> (forall e, preserves R (handler e)) ->
  preserves R (try_catch body handler).
Proof.
  intros Hb Hh w. unfold try_catch.
  specialize (Hb w). destruct (body w) as [[a|e] w1]; simpl in *.
  - exact Hb.
  - apply (R_trans _ _ _ Hb). apply Hh.
Qed.

Variable env : Env.
Variable now : Z.

Hypothesis R_user_update :
  forall id data, (forall u, same_identity u (data u)) ->
    preserves R (user_update env now id data).
Hypothesis R_payment_create :
  forall u pi a c k,
    preserves R (payment_create env now u pi a c "succeeded" (Some "card") k).
Hypothesis R_retrieve :
  forall id, preserves R (stripe_subscriptions_retrieve env id).
Hypothesis R_webhookEvent_create :
  forall s i t p, preserves R (webhookEvent_create env now s i t p).
Hypothesis R_webhookEvent_update :
  forall i data, preserves R (webhookEvent_update env i data).

Ltac preserves_step :=
  match goal with
  | |- preserves R (bind _ _) => apply preserves_bind; [|intros ?]
  | |- preserves R (try_catch _ _) => apply preserves_try_catch; [|intros ?]
  | |- preserves R (ret _) => apply preserves_ret
  | |- preserves R (throw _) => apply preserves_throw
  | |- preserves R (user_update _ _ _ _) =>
      apply R_user_update; intros ?; repeat split
  | |- preserves R (payment_create _ _ _ _ _ _ _ _ _) =>
      apply R_payment_create
  | |- preserves R (stripe_subscriptions_retrieve _ _) => apply R_retrieve
  | |- preserves R (webhookEvent_create _ _ _ _ _ _) =>
      apply R_webhookEvent_create
  | |- preserves R (webhookEvent_update _ _ _) => apply R_webhookEvent_update
  | |- preserves R (match ?x with _ => _ end) => destruct x
  | |- preserves R (if ?x then _ else _) => destruct x
  end.

Lemma preserves_dispatch event : preserves R (dispatch env now event).
Proof.
  unfold dispatch, handleCheckoutSessionCompleted, handleSubscriptionUpdate,
    handleSubscriptionDeleted, handleInvoicePaymentSucceeded,
    handleInvoicePaymentFailed, updateUserSubscription.
  repeat preserves_step.
Qed.

Lemma preserves_handleWebhook signature payload :
  preserves R (handleWebhook env now signature payload).
Proof.
  unfold handleWebhook, webhookEvent_findUnique, get_db.
  apply preserves_bind; [destruct (constructEvent _ _ _ _ _);
                         repeat preserves_step|].
  intros event. apply preserves_bind.
  { intros w. apply R_refl. }
  intros [row|]; [apply preserves_ret|].
  apply preserves_bind; [apply R_webhookEvent_create|]. intros _.
  apply preserves_try_catch.
  - apply preserves_bind; [apply preserves_dispatch|]. intros _.
    apply R_webhookEvent_update.
  - intros e. repeat preserves_step.
Qed.

End Frame.

Lemma find_none_not_in eventId (l : list WebhookEvent) :
  find (fun r => String.eqb (w_eventId r) eventId) l = None ->
  ~ In eventId (map w_eventId l).
Proof.
  induction l as [|x l IH]; simpl; [tauto|].
  destruct (String.eqb_spec (w_eventId x) eventId) as [Heq|Hne];
    [discriminate|].
  intros Hnone [H|H]; [exact (Hne H) | exact (IH Hnone H)].
Qed.

(** X1: the event store is append-only.  Whatever is posted, a call of
    [handleWebhook] either leaves the table of webhook events as it is, or
    appends one row; that row has an event id no stored row had, comes
    from stripe, is marked processed at the time of the call, and carries
    an error exactly when the call threw. *)
Theorem handleWebhook_event_store_append_only env now signature payload w :
  let w' := snd (handleWebhook env now signature payload w) in
  webhookEvents (db w') = webhookEvents (db w)
  \/ exists row,
       webhookEvents (db w') = webhookEvents (db w) ++ [row]
       /\ ~ In (w_eventId row) (map w_eventId (webhookEvents (db w)))
       /\ w_source row = "stripe"
       /\ w_processed row = true
       /\ w_processedAt row = Some now
       /\ (w_error row = None
           <-> fst (handleWebhook env now signature payload w) = Return tt).
Proof.
  cbv zeta.
  destruct (constructEvent env now payload signature
              (stripe_webhookSecret (config env))) as [event|] eqn:Hev.
  - destruct (find (fun r => String.eqb (w_eventId r) (e_id event))
                (webhookEvents (db w))) as [row|] eqn:Hfind.
    + left.
      rewrite (handleWebhook_already_stored env now signature payload event w
                 Hev); [reflexivity | congruence].
    + right.
      rewrite (handleWebhook_first_delivery env now signature payload event w
                 Hev Hfind).
      destruct (fst (dispatch env now event _)) as [[]|err]; simpl;
        eexists; (split; [reflexivity|]); simpl;
        (split; [exact (find_none_not_in _ _ Hfind)|]);
        repeat (split; [reflexivity|]);
        split; intros H; try reflexivity; discriminate H.
  - left. unfold handleWebhook, bind. rewrite Hev. reflexivity.
Qed.

(** X2: the external event id stays a key of the event store.  When no two
    stored rows share an event id, none do after a call of
    [handleWebhook], whatever is posted. *)
Theorem handleWebhook_keeps_eventId_unique env now signature payload w :
  List.NoDup (map w_eventId (webhookEvents (db w))) ->
  List.NoDup
    (map w_eventId
       (webhookEvents (db (snd (handleWebhook env now signature payload w))))).
Proof.
  intros Hnd.
  destruct (constructEvent env now payload signature
              (stripe_webhookSecret (config env))) as [event|] eqn:Hev.
  - destruct (find (fun r => String.eqb (w_eventId r) (e_id event))
                (webhookEvents (db w))) as [row|] eqn:Hfind.
    + rewrite (handleWebhook_already_stored env now signature payload event w
                 Hev); [exact Hnd | congruence].
    + rewrite (handleWebhook_first_delivery env now signature payload event w
                 Hev Hfind).
      pose proof (find_none_not_in _ _ Hfind) as Hnew.
      assert (Hgoal : forall error,
                List.NoDup
                  (map w_eventId
                     (webhookEvents (db w)
                        ++ [processed_row env now event (db w) error]))).
      { intros error. rewrite map_app. simpl.
        apply List.NoDup_app; [exact Hnd | repeat constructor; simpl; tauto|].
        intros x Hx [<-|[]]. exact (Hnew Hx). }
      destruct (fst (dispatch env now event _)) as [[]|err]; simpl;
        apply Hgoal.
  - unfold handleWebhook, bind. rewrite Hev. exact Hnd.
Qed.

Lemma handleWebhook_keeps_eventId_unique_witness :
  let env := Demo.env_with (fun _ _ => Response 200) in
  let w := snd (handleWebhook env 5 "good" "deleted" Demo.world0) in
  let w' := snd (handleWebhook env 6 "good" "unknown" w) in
  (length (webhookEvents (db w)) = 1
   /\ length (webhookEvents (db w')) = 2)%nat
  /\ List.NoDup (map w_eventId (webhookEvents (db w'))).
Proof.
  cbv zeta. split; [split; vm_compute; reflexivity|].
  apply (handleWebhook_keeps_eventId_unique
           (Demo.env_with (fun _ _ => Response 200)) 6 "good" "unknown"
           (snd (handleWebhook (Demo.env_with (fun _ _ => Response 200)) 5
                   "good" "deleted" Demo.world0))).
  vm_compute. repeat constructor. simpl. tauto.
Defined.

(** *** No postback, no ledger row *)

Lemma only_stripe_calls_refl w : only_stripe_calls w w.
Proof.
  split; [reflexivity|]. exists []. rewrite app_nil_r.
  split; [reflexivity | intros c []].
Qed.

Lemma only_stripe_calls_trans w1 w2 w3 :
  only_stripe_calls w1 w2 -> only_stripe_calls w2 w3 ->
  only_stripe_calls w1 w3.
Proof.
  intros (Ht1 & x1 & Hl1 & Hx1) (Ht2 & x2 & Hl2 & Hx2).
  split; [congruence|]. exists (x1 ++ x2).
  split; [rewrite Hl2, Hl1, app_assoc; reflexivity|].
  intros c Hc. apply in_app_or in Hc. destruct Hc; auto.
Qed.

Ltac same_log :=
  split; [reflexivity|]; exists []; rewrite app_nil_r;
  split; [reflexivity | intros ? []].

Lemma handleWebhook_only_stripe_calls env now signature payload :
  preserves only_stripe_calls (handleWebhook env now signature payload).
Proof.
  apply preserves_handleWebhook.
  - exact only_stripe_calls_refl.
  - exact only_stripe_calls_trans.
  - intros id data _ w. unfold user_update. run.
    destruct (users (db w) !! id); simpl; same_log.
  - intros u pi a c k w. unfold payment_create. run.
    destruct (negb _); simpl; [same_log|].
    destruct (existsb _ _); simpl; [same_log|].
    destruct (users (db w) !! u); simpl; same_log.
  - intros id w. unfold stripe_subscriptions_retrieve. run.
    destruct (subscriptions_retrieve env _ _); simpl;
      (split; [reflexivity|];
       exists [StripeRetrieveSubscription id];
       split; [reflexivity|]; intros c [<-|[]]; eauto).
  - intros s i t p w. unfold webhookEvent_create. run.
    destruct (existsb _ _); simpl; same_log.
  - intros i data w. unfold webhookEvent_update. run.
    destruct (existsb _ _); simpl; same_log.
Qed.

(** X3: handling a webhook never reaches the tracker and never writes to
    the conversion ledger.  Whatever is posted and whatever the handlers
    do, the tracking events are as they were, and every remote call made
    is a retrieval of a Stripe subscription: no postback goes out for a
    payment reported by Stripe. *)
Theorem handleWebhook_sends_no_postback env now signature payload w :
  let w' := snd (handleWebhook env now signature payload w) in
  trackingEvents (db w') = trackingEvents (db w)
  /\ (forall url, ~ In (HttpGet url) (remote_log w) ->
        ~ In (HttpGet url) (remote_log w'))
  /\ exists extra,
       remote_log w' = remote_log w ++ extra
       /\ forall c, In c extra -> exists id, c = StripeRetrieveSubscription id.
Proof.
  cbv zeta.
  destruct (handleWebhook_only_stripe_calls env now signature payload w)
    as (Ht & extra & Hlog & Hextra).
  split; [exact Ht|]. split; [|exists extra; tauto].
  intros url Hnot Hin. rewrite Hlog in Hin.
  apply in_app_or in Hin. destruct Hin as [Hin|Hin]; [exact (Hnot Hin)|].
  destruct (Hextra _ Hin) as [id Hid]. discriminate Hid.
Qed.

(** *** Users are neither created nor deleted nor re-identified *)

Lemma users_kept_refl w : users_kept w w.
Proof.
  intros id. destruct (users (db w) !! id); [|exact I].
  repeat split.
Qed.

Lemma users_kept_trans w1 w2 w3 :
  users_kept w1 w2 -> users_kept w2 w3 -> users_kept w1 w3.
Proof.
  intros H12 H23 id. specialize (H12 id). specialize (H23 id).
  destruct (users (db w1) !! id), (users (db w2) !! id),
    (users (db w3) !! id); try tauto.
  destruct H12 as (? & ? & ?), H23 as (? & ? & ?).
  repeat split; congruence.
Qed.

Lemma handleWebhook_users_kept env now signature payload :
  preserves users_kept (handleWebhook env now signature payload).
Proof.
  apply preserves_handleWebhook.
  - exact users_kept_refl.
  - exact users_kept_trans.
  - intros id data Hdata w. unfold user_update. run.
    destruct (users (db w) !! id) as [u|] eqn:Hu; simpl;
      [|apply users_kept_refl].
    intros id'. simpl.
    destruct (decide (id = id')) as [<-|Hne].
    + rewrite Hu, lookup_insert_eq. destruct (Hdata u) as (? & ? & ?).
      repeat split; simpl; assumption.
    + rewrite lookup_insert_ne by exact Hne.
      destruct (users (db w) !! id'); [repeat split | exact I].
  - intros u pi a c k w. unfold payment_create. run.
    destruct (negb _); simpl; [apply users_kept_refl|].
    destruct (existsb _ _); simpl; [apply users_kept_refl|].
    destruct (users (db w) !! u) eqn:Hu; simpl; [|apply users_kept_refl].
    intros id. simpl. destruct (users (db w) !! id); [repeat split | exact I].
  - intros id w. unfold stripe_subscriptions_retrieve. run.
    destruct (subscriptions_retrieve env _ _); simpl;
      intros id'; simpl;
      (destruct (users (db w) !! id'); [repeat split | exact I]).
  - intros s i t p w. unfold webhookEvent_create. run.
    destruct (existsb _ _); simpl; intros id'; simpl;
      (destruct (users (db w) !! id'); [repeat split | exact I]).
  - intros i data w. unfold webhookEvent_update. run.
    destruct (existsb _ _); simpl; intros id'; simpl;
      (destruct (users (db w) !! id'); [repeat split | exact I]).
Qed.

(** X4: a webhook never creates or deletes a user and never changes who a
    user is.  After any call of [handleWebhook] the same user ids exist,
    and each user has the id, the Stripe customer id and the click
    identifier it had: the handlers write subscription columns only. *)
Theorem handleWebhook_keeps_user_identity env now signature payload w id :
  let w' := snd (handleWebhook env now signature payload w) in
  (users (db w') !! id = None <-> users (db w) !! id = None)
  /\ forall u, users (db w) !! id = Some u ->
       exists u', users (db w') !! id = Some u'
                  /\ u_id u' = u_id u
                  /\ u_stripeCustomerId u' = u_stripeCustomerId u
                  /\ u_keitaroSubId u' = u_keitaroSubId u.
Proof.
  cbv zeta.
  pose proof (handleWebhook_users_kept env now signature payload w id) as H.
  destruct (users (db w) !! id) as [u|],
    (users (db (snd (handleWebhook env now signature payload w))) !! id)
    as [u'|]; try contradiction.
  - split; [split; discriminate|].
    intros u0 [= <-]. exists u'. split; [reflexivity | exact H].
  - split; [tauto | discriminate].
Qed.

(** *** Payments *)

Lemma payments_grow_refl w : payments_grow w w.
Proof.
  split; [|tauto]. exists []. rewrite app_nil_r.
  split; [reflexivity | intros p []].
Qed.

Lemma payments_grow_trans w1 w2 w3 :
  payments_grow w1 w2 -> payments_grow w2 w3 -> payments_grow w1 w3.
Proof.
  intros [(x1 & H1 & Hx1) Hs1] [(x2 & H2 & Hx2) Hs2].
  split; [|tauto]. exists (x1 ++ x2).
  split; [rewrite H2, H1, app_assoc; reflexivity|].
  intros p Hp. apply in_app_or in Hp. destruct Hp; auto.
Qed.

Lemma existsb_false_not_in id (l : list Payment) :
  existsb (fun p => String.eqb (p_stripePaymentId p) id) l = false ->
  ~ In id (map p_stripePaymentId l).
Proof.
  induction l as [|x l IH]; simpl; [tauto|].
  destruct (String.eqb_spec (p_stripePaymentId x) id) as [Heq|Hne]; simpl;
    [discriminate|].
  intros Hex [H|H]; [exact (Hne H) | exact (IH Hex H)].
Qed.

Lemma handleWebhook_payments_grow env now signature payload :
  preserves payments_grow (handleWebhook env now signature payload).
Proof.
  apply preserves_handleWebhook.
  - exact payments_grow_refl.
  - exact payments_grow_trans.
  - intros id data _ w. unfold user_update. run.
    destruct (users (db w) !! id) as [u|] eqn:Hu; simpl;
      [|apply payments_grow_refl].
    split.
    + exists []. rewrite app_nil_r. split; [reflexivity | intros p []].
    + intros [Hnd Hfk]. split; [exact Hnd|]. simpl.
      intros p Hp. specialize (Hfk p Hp).
      destruct (decide (id = p_userId p)) as [<-|Hne].
      * rewrite lookup_insert_eq. discriminate.
      * rewrite lookup_insert_ne by exact Hne. exact Hfk.
  - intros u pi a c k w. unfold payment_create. run.
    destruct (negb _); simpl; [apply payments_grow_refl|].
    destruct (existsb _ _) eqn:Hex; simpl; [apply payments_grow_refl|].
    destruct (users (db w) !! u) eqn:Hu; simpl; [|apply payments_grow_refl].
    split.
    + eexists. split; [reflexivity|].
      intros p [<-|[]]. split; reflexivity.
    + intros [Hnd Hfk]. split; simpl.
      * rewrite map_app. simpl.
        apply List.NoDup_app; [exact Hnd | repeat constructor; simpl; tauto|].
        intros x Hx [<-|[]]. exact (existsb_false_not_in _ _ Hex Hx).
      * intros p Hp. apply in_app_or in Hp.
        destruct Hp as [Hp|[<-|[]]]; [exact (Hfk p Hp)|].
        simpl. rewrite Hu. discriminate.
  - intros id w. unfold stripe_subscriptions_retrieve. run.
    destruct (subscriptions_retrieve env _ _); simpl;
      (split; [exists []; rewrite app_nil_r;
               split; [reflexivity | intros p []] | tauto]).
  - intros s i t p w. unfold webhookEvent_create. run.
    destruct (existsb _ _); simpl;
      (split; [exists []; rewrite app_nil_r;
               split; [reflexivity | intros p' []] | tauto]).
  - intros i data w. unfold webhookEvent_update. run.
    destruct (existsb _ _); simpl;
      (split; [exists []; rewrite app_nil_r;
               split; [reflexivity | intros p' []] | tauto]).
Qed.

(** X5: payments are only ever added, as succeeded card payments, and the
    table stays sound.  After any call of [handleWebhook] the payments of
    before are still there, unchanged and in place; and when no two
    payments shared a payment intent and every payment belonged to an
    existing user, that is still so. *)
Theorem handleWebhook_keeps_payments_sound env now signature payload w :
  List.NoDup (map p_stripePaymentId (payments (db w))) ->
  (forall p, In p (payments (db w)) -> users (db w) !! p_userId p <> None) ->
  let w' := snd (handleWebhook env now signature payload w) in
  (exists extra,
     payments (db w') = payments (db w) ++ extra
     /\ forall p, In p extra ->
          p_status p = "succeeded" /\ p_paymentMethod p = Some "card")
  /\ List.NoDup (map p_stripePaymentId (payments (db w')))
  /\ (forall p, In p (payments (db w')) ->
        users (db w') !! p_userId p <> None).
Proof.
  intros Hnd Hfk. cbv zeta.
  destruct (handleWebhook_payments_grow env now signature payload w)
    as [Hgrow Hsound].
  split; [exact Hgrow|]. apply Hsound. split; assumption.
Qed.

Lemma handleWebhook_keeps_payments_sound_witness :
  let w := mkWorld
             (mkDatabase {[ "u1" := Demo.user1 ]}
                [mkPayment "p0" "u1" "pi_0" 999 "usd" "succeeded"
                   (Some "card") None 1] [] []) [] in
  let w' := snd (handleWebhook (Demo2.env true) 5 "good" "paid" w) in
  length (payments (db w')) = 2%nat
  /\ (exists extra,
        payments (db w') = payments (db w) ++ extra
        /\ forall p, In p extra ->
             p_status p = "succeeded" /\ p_paymentMethod p = Some "card")
  /\ List.NoDup (map p_stripePaymentId (payments (db w')))
  /\ (forall p, In p (payments (db w')) ->
        users (db w') !! p_userId p <> None).
Proof.
  cbv zeta. split; [vm_compute; reflexivity|].
  apply (handleWebhook_keeps_payments_sound (Demo2.env true) 5 "good" "paid"
           (mkWorld
              (mkDatabase {[ "u1" := Demo.user1 ]}
                 [mkPayment "p0" "u1" "pi_0" 999 "usd" "succeeded"
                    (Some "card") None 1] [] []) [])).
  - simpl. repeat constructor. simpl. tauto.
  - intros p [<-|[]]. simpl. vm_compute. discriminate.
Defined.

(* ===================================================================== *)
(** ** What each event type does to a user and to the payments *)
(* ===================================================================== *)

(** The outcome of a first delivery, from the outcome of its handler. *)
Lemma handleWebhook_returns env now signature payload event w w1 :
  constructEvent env now payload signature (stripe_webhookSecret (config env))
    = Some event ->
  find (fun r => String.eqb (w_eventId r) (e_id event))
    (webhookEvents (db w)) = None ->
  dispatch env now event (stored_world env now event w) = (Return tt, w1) ->
  handleWebhook env now signature payload w
  = (Return tt,
     mkWorld (mkDatabase (users (db w1)) (payments (db w1))
                (webhookEvents (db w) ++ [processed_row env now event (db w) None])
                (trackingEvents (db w1))) (remote_log w1)).
Proof.
  intros Hev Hnone Hd.
  pose proof (handleWebhook_first_delivery env now signature payload event w
                Hev Hnone) as H1.
  cbv zeta in H1. unfold stored_world in Hd. rewrite Hd in H1. exact H1.
Qed.

Lemma handleWebhook_throws env now signature payload event w err w1 :
  constructEvent env now payload signature (stripe_webhookSecret (config env))
    = Some event ->
  find (fun r => String.eqb (w_eventId r) (e_id event))
    (webhookEvents (db w)) = None ->
  dispatch env now event (stored_world env now event w) = (Throw err, w1) ->
  handleWebhook env now signature payload w
  = (Throw err,
     mkWorld (mkDatabase (users (db w1)) (payments (db w1))
                (webhookEvents (db w)
                   ++ [processed_row env now event (db w) (Some (message err))])
                (trackingEvents (db w1))) (remote_log w1)).
Proof.
  intros Hev Hnone Hd.
  pose proof (handleWebhook_first_delivery env now signature payload event w
                Hev Hnone) as H1.
  cbv zeta in H1. unfold stored_world in Hd. rewrite Hd in H1. exact H1.
Qed.

Lemma updateUserSubscription_run env now uid subscription w u :
  users (db w) !! uid = Some u ->
  updateUserSubscription env now uid subscription w
  = (Return tt,
     mkWorld (mkDatabase (<[uid := subscribed env now subscription u]>
                            (users (db w)))
                (payments (db w)) (webhookEvents (db w))
                (trackingEvents (db w))) (remote_log w)).
Proof.
  intros Hu. unfold updateUserSubscription, user_update. run. rewrite Hu.
  unfold subscribed.
  destruct (o_first_price_id subscription) as [price|];
    [destruct (String.eqb price _)|]; reflexivity.
Qed.

Lemma user_update_missing env now uid data w :
  users (db w) !! uid = None ->
  user_update env now uid data w
  = (Throw (PrismaClientKnownRequestError "P2025" (prisma_message env "P2025")),
     w).
Proof. intros Hu. unfold user_update. run. rewrite Hu. reflexivity. Qed.

Lemma dispatch_checkout env now event :
  e_type event = "checkout.session.completed" ->
  dispatch env now event
  = handleCheckoutSessionCompleted env now (e_data_object event).
Proof. intros H. unfold dispatch. rewrite H. reflexivity. Qed.

Lemma dispatch_subscription_update env now event :
  e_type event = "customer.subscription.created"
  \/ e_type event = "customer.subscription.updated" ->
  dispatch env now event = handleSubscriptionUpdate env now (e_data_object event).
Proof. intros [H|H]; unfold dispatch; rewrite H; reflexivity. Qed.

Lemma dispatch_subscription_deleted env now event :
  e_type event = "customer.subscription.deleted" ->
  dispatch env now event
  = handleSubscriptionDeleted env now (e_data_object event).
Proof. intros H. unfold dispatch. rewrite H. reflexivity. Qed.

Lemma dispatch_invoice_succeeded env now event :
  e_type event = "invoice.payment_succeeded" ->
  dispatch env now event
  = handleInvoicePaymentSucceeded env now (e_data_object event).
Proof. intros H. unfold dispatch. rewrite H. reflexivity. Qed.

Lemma dispatch_invoice_failed env now event :
  e_type event = "invoice.payment_failed" ->
  dispatch env now event
  = handleInvoicePaymentFailed env now (e_data_object event).
Proof. intros H. unfold dispatch. rewrite H. reflexivity. Qed.

(** X6: a new, verified [customer.subscription.created] or [.updated]
    event that names an existing user overwrites that user's subscription
    id, status, plan and period end with those of the event (the plan is
    annual exactly when the first price is the configured annual price, the
    period end is converted from seconds to milliseconds); it changes no
    other user, no payment, makes no remote call, and the event is stored
    as processed without error. *)
Theorem subscription_update_refreshes_user
    env now signature payload event w uid u :
  constructEvent env now payload signature (stripe_webhookSecret (config env))
    = Some event ->
  find (fun r => String.eqb (w_eventId r) (e_id event))
    (webhookEvents (db w)) = None ->
  e_type event = "customer.subscription.created"
  \/ e_type event = "customer.subscription.updated" ->
  JS.truthy (o_metadata_userId (e_data_object event)) = Some uid ->
  users (db w) !! uid = Some u ->
  handleWebhook env now signature payload w
  = (Return tt,
     mkWorld
       (mkDatabase
          (<[uid := subscribed env now (e_data_object event) u]> (users (db w)))
          (payments (db w))
          (webhookEvents (db w) ++ [processed_row env now event (db w) None])
          (trackingEvents (db w)))
       (remote_log w)).
Proof.
  intros Hev Hnone Hty Huid Hu.
  rewrite (handleWebhook_returns env now signature payload event w
             (mkWorld
                (mkDatabase
                   (<[uid := subscribed env now (e_data_object event) u]>
                      (users (db w)))
                   (payments (db w))
                   (webhookEvents (db w) ++ [received_row env now event (db w)])
                   (trackingEvents (db w)))
                (remote_log w)) Hev Hnone); [reflexivity|].
  rewrite (dispatch_subscription_update env now event Hty).
  unfold handleSubscriptionUpdate. rewrite Huid.
  apply (updateUserSubscription_run env now uid (e_data_object event)
           (stored_world env now event w) u Hu).
Qed.

Lemma subscription_update_refreshes_user_witness :
  let w' := snd (handleWebhook (Demo2.env true) 5 "sig" "updated" Demo.world0) in
  fst (handleWebhook (Demo2.env true) 5 "sig" "updated" Demo.world0)
    = Return tt
  /\ users (db w') !! "u1"
     = Some (mkUser "u1" None (Some "sub_9") (Some "trialing") (Some "monthly")
               (Some 1800000000000) (Some "click-7") 5).
Proof.
  cbv zeta.
  rewrite (subscription_update_refreshes_user (Demo2.env true) 5 "sig"
             "updated"
             (mkStripeEvent "evt_u" "customer.subscription.updated" 1
                (Demo2.subscription (Some "u1")))
             Demo.world0 "u1" Demo.user1
             eq_refl eq_refl (or_intror eq_refl) eq_refl eq_refl).
  split; [reflexivity | vm_compute; reflexivity].
Defined.

(** X7: a new, verified [customer.subscription.deleted] event that names
    an existing user sets that user's status to canceled and its period
    end to the one of the event, in milliseconds, and keeps the
    subscription id and the plan; nothing else changes and the event is
    stored as processed without error. *)
Theorem subscription_deleted_cancels_user
    env now signature payload event w uid u :
  constructEvent env now payload signature (stripe_webhookSecret (config env))
    = Some event ->
  find (fun r => String.eqb (w_eventId r) (e_id event))
    (webhookEvents (db w)) = None ->
  e_type event = "customer.subscription.deleted" ->
  JS.truthy (o_metadata_userId (e_data_object event)) = Some uid ->
  users (db w) !! uid = Some u ->
  handleWebhook env now signature payload w
  = (Return tt,
     mkWorld
       (mkDatabase
          (<[uid := mkUser (u_id u) (u_stripeCustomerId u) (u_subscriptionId u)
                      (Some "canceled") (u_subscriptionPlan u)
                      (Some (o_current_period_end (e_data_object event) * 1000))
                      (u_keitaroSubId u) now]> (users (db w)))
          (payments (db w))
          (webhookEvents (db w) ++ [processed_row env now event (db w) None])
          (trackingEvents (db w)))
       (remote_log w)).
Proof.
  intros Hev Hnone Hty Huid Hu.
  rewrite (handleWebhook_returns env now signature payload event w
             (mkWorld
                (mkDatabase
                   (<[uid := mkUser (u_id u) (u_stripeCustomerId u)
                               (u_subscriptionId u) (Some "canceled")
                               (u_subscriptionPlan u)
                               (Some (o_current_period_end
                                        (e_data_object event) * 1000))
                               (u_keitaroSubId u) now]> (users (db w)))
                   (payments (db w))
                   (webhookEvents (db w) ++ [received_row env now event (db w)])
                   (trackingEvents (db w)))
                (remote_log w)) Hev Hnone); [reflexivity|].
  rewrite (dispatch_subscription_deleted env now event Hty).
  unfold handleSubscriptionDeleted. rewrite Huid.
  unfold user_update, stored_world. run. rewrite Hu. reflexivity.
Qed.

Lemma subscription_deleted_cancels_user_witness :
  let w' := snd (handleWebhook (Demo2.env true) 5 "sig" "deleted" Demo.world0) in
  fst (handleWebhook (Demo2.env true) 5 "sig" "deleted" Demo.world0)
    = Return tt
  /\ users (db w') !! "u1"
     = Some (mkUser "u1" None (Some "sub_1") (Some "canceled") (Some "annual")
               (Some 1800000000000) (Some "click-7") 5).
Proof.
  cbv zeta.
  rewrite (subscription_deleted_cancels_user (Demo2.env true) 5 "sig"
             "deleted"
             (mkStripeEvent "evt_d" "customer.subscription.deleted" 7
                (Demo2.subscription (Some "u1")))
             Demo.world0 "u1" Demo.user1
             eq_refl eq_refl eq_refl eq_refl eq_refl).
  split; [reflexivity | vm_compute; reflexivity].
Defined.

(** X8: an event that lacks the reference its handler needs is accepted
    as a no-op.  A checkout or subscription event without a user id in its
    metadata, a failed invoice without subscription, and a paid invoice
    without subscription or without payment intent only leave their row in
    the event store, processed without error: no user and no payment is
    touched and the Stripe API is not called. *)
Theorem event_without_reference_is_noop env now signature payload event w :
  constructEvent env now payload signature (stripe_webhookSecret (config env))
    = Some event ->
  find (fun r => String.eqb (w_eventId r) (e_id event))
    (webhookEvents (db w)) = None ->
  (In (e_type event)
      ["checkout.session.completed"; "customer.subscription.created";
       "customer.subscription.updated"; "customer.subscription.deleted"]
   /\ JS.truthy (o_metadata_userId (e_data_object event)) = None)
  \/ (e_type event = "invoice.payment_failed"
      /\ JS.truthy (o_subscription (e_data_object event)) = None)
  \/ (e_type event = "invoice.payment_succeeded"
      /\ (JS.truthy (o_subscription (e_data_object event)) = None
          \/ JS.truthy (o_payment_intent (e_data_object event)) = None)) ->
  handleWebhook env now signature payload w
  = (Return tt,
     mkWorld
       (mkDatabase (users (db w)) (payments (db w))
          (webhookEvents (db w) ++ [processed_row env now event (db w) None])
          (trackingEvents (db w)))
       (remote_log w)).
Proof.
  intros Hev Hnone Hcase.
  rewrite (handleWebhook_returns env now signature payload event w
             (stored_world env now event w) Hev Hnone); [reflexivity|].
  destruct Hcase as [[Hty Huid]|[[Hty Hsub]|[Hty Hmiss]]].
  - simpl in Hty.
    destruct Hty as [Hty|[Hty|[Hty|[Hty|[]]]]]; symmetry in Hty.
    + rewrite (dispatch_checkout env now event Hty).
      unfold handleCheckoutSessionCompleted. rewrite Huid. reflexivity.
    + rewrite (dispatch_subscription_update env now event (or_introl Hty)).
      unfold handleSubscriptionUpdate. rewrite Huid. reflexivity.
    + rewrite (dispatch_subscription_update env now event (or_intror Hty)).
      unfold handleSubscriptionUpdate. rewrite Huid. reflexivity.
    + rewrite (dispatch_subscription_deleted env now event Hty).
      unfold handleSubscriptionDeleted. rewrite Huid. reflexivity.
  - rewrite (dispatch_invoice_failed env now event Hty).
    unfold handleInvoicePaymentFailed. rewrite Hsub. reflexivity.
  - rewrite (dispatch_invoice_succeeded env now event Hty).
    unfold handleInvoicePaymentSucceeded.
    destruct Hmiss as [Hsub|Hpi].
    + rewrite Hsub. reflexivity.
    + rewrite Hpi. destruct (JS.truthy (o_subscription _)); reflexivity.
Qed.

Lemma event_without_reference_is_noop_witness :
  let w' := snd (handleWebhook (Demo2.env true) 5 "sig" "anonymous"
                   Demo.world0) in
  fst (handleWebhook (Demo2.env true) 5 "sig" "anonymous" Demo.world0)
    = Return tt
  /\ users (db w') = users Demo.db0 /\ remote_log w' = [].
Proof.
  cbv zeta.
  rewrite (event_without_reference_is_noop (Demo2.env true) 5 "sig"
             "anonymous"
             (mkStripeEvent "evt_a" "customer.subscription.updated" 2
                (Demo2.subscription None))
             Demo.world0 eq_refl eq_refl).
  - repeat split.
  - left. split; [simpl; tauto | reflexivity].
Defined.

(** X9: a subscription event that names a user the database does not have
    fails.  [handleWebhook] throws the Prisma error P2025 raised by the
    update, no user or payment changes, and the event is stored as
    processed with the message of that error. *)
Theorem subscription_event_for_unknown_user
    env now signature payload event w uid :
  constructEvent env now payload signature (stripe_webhookSecret (config env))
    = Some event ->
  find (fun r => String.eqb (w_eventId r) (e_id event))
    (webhookEvents (db w)) = None ->
  In (e_type event)
    ["customer.subscription.created"; "customer.subscription.updated";
     "customer.subscription.deleted"] ->
  JS.truthy (o_metadata_userId (e_data_object event)) = Some uid ->
  users (db w) !! uid = None ->
  handleWebhook env now signature payload w
  = (Throw (PrismaClientKnownRequestError "P2025" (prisma_message env "P2025")),
     mkWorld
       (mkDatabase (users (db w)) (payments (db w))
          (webhookEvents (db w)
             ++ [processed_row env now event (db w)
                   (Some (prisma_message env "P2025"))])
          (trackingEvents (db w)))
       (remote_log w)).
Proof.
  intros Hev Hnone Hty Huid Hu.
  rewrite (handleWebhook_throws env now signature payload event w
             (PrismaClientKnownRequestError "P2025" (prisma_message env "P2025"))
             (stored_world env now event w) Hev Hnone); [reflexivity|].
  simpl in Hty. destruct Hty as [Hty|[Hty|[Hty|[]]]]; symmetry in Hty.
  - rewrite (dispatch_subscription_update env now event (or_introl Hty)).
    unfold handleSubscriptionUpdate, updateUserSubscription. rewrite Huid.
    apply user_update_missing. exact Hu.
  - rewrite (dispatch_subscription_update env now event (or_intror Hty)).
    unfold handleSubscriptionUpdate, updateUserSubscription. rewrite Huid.
    apply user_update_missing. exact Hu.
  - rewrite (dispatch_subscription_deleted env now event Hty).
    unfold handleSubscriptionDeleted. rewrite Huid.
    apply user_update_missing. exact Hu.
Qed.

Lemma subscription_event_for_unknown_user_witness :
  let r := handleWebhook (Demo2.env true) 5 "sig" "stranger" Demo.world0 in
  fst r = Throw (PrismaClientKnownRequestError "P2025" "prisma error P2025")
  /\ users (db (snd r)) = users Demo.db0
  /\ map w_error (webhookEvents (db (snd r))) = [Some "prisma error P2025"].
Proof.
  cbv zeta.
  rewrite (subscription_event_for_unknown_user (Demo2.env true) 5 "sig"
             "stranger"
             (mkStripeEvent "evt_s" "customer.subscription.updated" 3
                (Demo2.subscription (Some "nobody")))
             Demo.world0 "nobody" eq_refl eq_refl).
  - repeat split.
  - simpl. tauto.
  - reflexivity.
  - reflexivity.
Defined.

Lemma retrieve_ok env id w subscription :
  subscriptions_retrieve env (length (remote_log w)) id = inl subscription ->
  stripe_subscriptions_retrieve env id w
  = (Return subscription,
     mkWorld (db w) (remote_log w ++ [StripeRetrieveSubscription id])).
Proof.
  intros H. unfold stripe_subscriptions_retrieve. run. rewrite H. reflexivity.
Qed.

Lemma retrieve_fails env id w msg :
  subscriptions_retrieve env (length (remote_log w)) id = inr msg ->
  stripe_subscriptions_retrieve env id w
  = (Throw (StripeError msg),
     mkWorld (db w) (remote_log w ++ [StripeRetrieveSubscription id])).
Proof.
  intros H. unfold stripe_subscriptions_retrieve. run. rewrite H. reflexivity.
Qed.

Lemma not_in_existsb_false id (l : list Payment) :
  ~ In id (map p_stripePaymentId l) ->
  existsb (fun p => String.eqb (p_stripePaymentId p) id) l = false.
Proof.
  induction l as [|x l IH]; simpl; intros Hnot; [reflexivity|].
  destruct (String.eqb_spec (p_stripePaymentId x) id) as [Heq|_]; simpl.
  - exfalso. apply Hnot. left. exact Heq.
  - apply IH. tauto.
Qed.

Lemma in_existsb_true id (l : list Payment) :
  In id (map p_stripePaymentId l) ->
  existsb (fun p => String.eqb (p_stripePaymentId p) id) l = true.
Proof.
  intros Hin. apply existsb_exists. apply in_map_iff in Hin.
  destruct Hin as (p & Hp & Hin). exists p. split; [exact Hin|].
  rewrite Hp. apply String.eqb_refl.
Qed.

Lemma payment_create_run env now uid pi a c k w u :
  JS.in_int32 a = true ->
  ~ In pi (map p_stripePaymentId (payments (db w))) ->
  users (db w) !! uid = Some u ->
  payment_create env now uid pi a c "succeeded" (Some "card") k w
  = (Return tt,
     mkWorld (mkDatabase (users (db w))
                (payments (db w)
                   ++ [mkPayment (uuid env (map p_id (payments (db w)))) uid pi
                         a c "succeeded" (Some "card") k now])
                (webhookEvents (db w)) (trackingEvents (db w)))
       (remote_log w)).
Proof.
  intros Hrange Hnew Hu. unfold payment_create. run.
  rewrite Hrange, (not_in_existsb_false _ _ Hnew), Hu. reflexivity.
Qed.

Lemma payment_create_duplicate env now uid pi a c k w :
  In pi (map p_stripePaymentId (payments (db w))) ->
  let code := if JS.in_int32 a then "P2002" else "P2020" in
  payment_create env now uid pi a c "succeeded" (Some "card") k w
  = (Throw (PrismaClientKnownRequestError code (prisma_message env code)), w).
Proof.
  intros Hdup. unfold payment_create. run.
  destruct (JS.in_int32 a); simpl; [|reflexivity].
  rewrite (in_existsb_true _ _ Hdup). reflexivity.
Qed.

(** X10: a new, verified [invoice.payment_failed] event whose subscription
    Stripe returns, with an existing user in its metadata, sets that user's
    status to past_due and leaves the subscription id, the plan and the
    period end as they were.  One Stripe retrieval is made, and the event
    is stored as processed without error. *)
Theorem invoice_failed_marks_past_due
    env now signature payload event w subscription uid u :
  constructEvent env now payload signature (stripe_webhookSecret (config env))
    = Some event ->
  find (fun r => String.eqb (w_eventId r) (e_id event))
    (webhookEvents (db w)) = None ->
  e_type event = "invoice.payment_failed" ->
  JS.truthy (o_subscription (e_data_object event)) <> None ->
  subscriptions_retrieve env (length (remote_log w))
    (o_subscription (e_data_object event)) = inl subscription ->
  JS.truthy (o_metadata_userId subscription) = Some uid ->
  users (db w) !! uid = Some u ->
  handleWebhook env now signature payload w
  = (Return tt,
     mkWorld
       (mkDatabase
          (<[uid := mkUser (u_id u) (u_stripeCustomerId u) (u_subscriptionId u)
                      (Some "past_due") (u_subscriptionPlan u)
                      (u_subscriptionEndDate u) (u_keitaroSubId u) now]>
             (users (db w)))
          (payments (db w))
          (webhookEvents (db w) ++ [processed_row env now event (db w) None])
          (trackingEvents (db w)))
       (remote_log w
          ++ [StripeRetrieveSubscription (o_subscription (e_data_object event))])).
Proof.
  intros Hev Hnone Hty Hsub Hret Huid Hu.
  rewrite (handleWebhook_returns env now signature payload event w
             (mkWorld
                (mkDatabase
                   (<[uid := mkUser (u_id u) (u_stripeCustomerId u)
                               (u_subscriptionId u) (Some "past_due")
                               (u_subscriptionPlan u) (u_subscriptionEndDate u)
                               (u_keitaroSubId u) now]> (users (db w)))
                   (payments (db w))
                   (webhookEvents (db w) ++ [received_row env now event (db w)])
                   (trackingEvents (db w)))
                (remote_log w
                   ++ [StripeRetrieveSubscription
                         (o_subscription (e_data_object event))]))
             Hev Hnone); [reflexivity|].
  rewrite (dispatch_invoice_failed env now event Hty).
  unfold handleInvoicePaymentFailed.
  destruct (JS.truthy (o_subscription (e_data_object event))); [|congruence].
  rewrite (bind_Return _ _ _ _ _
             (retrieve_ok env _ (stored_world env now event w) subscription
                Hret)).
  rewrite Huid. unfold user_update. run. rewrite Hu. reflexivity.
Qed.

Lemma invoice_failed_marks_past_due_witness :
  let r := handleWebhook (Demo2.env true) 5 "sig" "failed" Demo.world0 in
  fst r = Return tt
  /\ users (db (snd r)) !! "u1"
     = Some (mkUser "u1" None (Some "sub_1") (Some "past_due") (Some "annual")
               (Some 1700000000000) (Some "click-7") 5)
  /\ remote_log (snd r) = [StripeRetrieveSubscription (Some "sub_9")].
Proof.
  cbv zeta.
  rewrite (invoice_failed_marks_past_due (Demo2.env true) 5 "sig" "failed"
             (mkStripeEvent "evt_f" "invoice.payment_failed" 4
                (Demo2.invoice None))
             Demo.world0 (Demo2.subscription (Some "u1")) "u1" Demo.user1
             eq_refl eq_refl eq_refl).
  - split; [reflexivity|]. split; [vm_compute; reflexivity | reflexivity].
  - discriminate.
  - reflexivity.
  - reflexivity.
  - reflexivity.
Defined.

(** X11: when the Stripe API fails while an event is handled, the failure
    is the outcome.  For a checkout with a user id, a failed invoice with a
    subscription and a paid invoice with subscription and payment intent,
    an error of the retrieval makes [handleWebhook] throw that error; no
    user and no payment changes, and the event is stored as processed with
    the message of the API. *)
Theorem stripe_failure_is_recorded env now signature payload event w msg :
  constructEvent env now payload signature (stripe_webhookSecret (config env))
    = Some event ->
  find (fun r => String.eqb (w_eventId r) (e_id event))
    (webhookEvents (db w)) = None ->
  (e_type event = "checkout.session.completed"
   /\ JS.truthy (o_metadata_userId (e_data_object event)) <> None)
  \/ (e_type event = "invoice.payment_failed"
      /\ JS.truthy (o_subscription (e_data_object event)) <> None)
  \/ (e_type event = "invoice.payment_succeeded"
      /\ JS.truthy (o_subscription (e_data_object event)) <> None
      /\ JS.truthy (o_payment_intent (e_data_object event)) <> None) ->
  subscriptions_retrieve env (length (remote_log w))
    (o_subscription (e_data_object event)) = inr msg ->
  handleWebhook env now signature payload w
  = (Throw (StripeError msg),
     mkWorld
       (mkDatabase (users (db w)) (payments (db w))
          (webhookEvents (db w)
             ++ [processed_row env now event (db w) (Some msg)])
          (trackingEvents (db w)))
       (remote_log w
          ++ [StripeRetrieveSubscription (o_subscription (e_data_object event))])).
Proof.
  intros Hev Hnone Hcase Hret.
  rewrite (handleWebhook_throws env now signature payload event w
             (StripeError msg)
             (mkWorld (db (stored_world env now event w))
                (remote_log w
                   ++ [StripeRetrieveSubscription
                         (o_subscription (e_data_object event))]))
             Hev Hnone); [reflexivity|].
  pose proof (retrieve_fails env _ (stored_world env now event w) msg Hret)
    as Hfail.
  destruct Hcase as [[Hty Huid]|[[Hty Hsub]|(Hty & Hsub & Hpi)]].
  - rewrite (dispatch_checkout env now event Hty).
    unfold handleCheckoutSessionCompleted.
    destruct (JS.truthy (o_metadata_userId _)); [|congruence].
    apply (bind_Throw _ _ _ _ _ Hfail).
  - rewrite (dispatch_invoice_failed env now event Hty).
    unfold handleInvoicePaymentFailed.
    destruct (JS.truthy (o_subscription _)); [|congruence].
    apply (bind_Throw _ _ _ _ _ Hfail).
  - rewrite (dispatch_invoice_succeeded env now event Hty).
    unfold handleInvoicePaymentSucceeded.
    destruct (JS.truthy (o_subscription _)); [|congruence].
    destruct (JS.truthy (o_payment_intent _)); [|congruence].
    apply (bind_Throw _ _ _ _ _ Hfail).
Qed.

Lemma stripe_failure_is_recorded_witness :
  let r := handleWebhook (Demo2.env false) 5 "sig" "failed" Demo.world0 in
  fst r = Throw (StripeError "No such subscription")
  /\ users (db (snd r)) = users Demo.db0
  /\ map w_error (webhookEvents (db (snd r))) = [Some "No such subscription"].
Proof.
  cbv zeta.
  rewrite (stripe_failure_is_recorded (Demo2.env false) 5 "sig" "failed"
             (mkStripeEvent "evt_f" "invoice.payment_failed" 4
                (Demo2.invoice None))
             Demo.world0 "No such subscription" eq_refl eq_refl).
  - repeat split.
  - right. left. split; [reflexivity | discriminate].
  - reflexivity.
Defined.

(** X12: a new, verified [invoice.payment_succeeded] event with a
    subscription, a payment intent not yet recorded and an amount paid
    that fits the 32-bit amount column appends one payment for the user
    named in the subscription's metadata: the amount is the invoice's
    amount paid, in minor units as it came, and the click
    identifier is the one in the metadata of the subscription retrieved
    from Stripe, not the one of the invoice.  No user changes. *)
Theorem invoice_paid_records_payment
    env now signature payload event w subscription uid u pi :
  constructEvent env now payload signature (stripe_webhookSecret (config env))
    = Some event ->
  find (fun r => String.eqb (w_eventId r) (e_id event))
    (webhookEvents (db w)) = None ->
  e_type event = "invoice.payment_succeeded" ->
  JS.truthy (o_subscription (e_data_object event)) <> None ->
  JS.truthy (o_payment_intent (e_data_object event)) = Some pi ->
  subscriptions_retrieve env (length (remote_log w))
    (o_subscription (e_data_object event)) = inl subscription ->
  JS.truthy (o_metadata_userId subscription) = Some uid ->
  users (db w) !! uid = Some u ->
  ~ In pi (map p_stripePaymentId (payments (db w))) ->
  JS.in_int32 (o_amount_paid (e_data_object event)) = true ->
  handleWebhook env now signature payload w
  = (Return tt,
     mkWorld
       (mkDatabase (users (db w))
          (payments (db w)
             ++ [mkPayment (uuid env (map p_id (payments (db w)))) uid pi
                   (o_amount_paid (e_data_object event))
                   (match o_currency (e_data_object event) with
                    | Some c => c
                    | None => "USD"
                    end)
                   "succeeded" (Some "card")
                   (JS.truthy (o_metadata_keitaroSubId subscription)) now])
          (webhookEvents (db w) ++ [processed_row env now event (db w) None])
          (trackingEvents (db w)))
       (remote_log w
          ++ [StripeRetrieveSubscription (o_subscription (e_data_object event))])).
Proof.
  intros Hev Hnone Hty Hsub Hpi Hret Huid Hu Hnew Hrange.
  erewrite (handleWebhook_returns env now signature payload event w _
              Hev Hnone); cycle 1.
  {  rewrite (dispatch_invoice_succeeded env now event Hty).
    unfold handleInvoicePaymentSucceeded.
    destruct (JS.truthy (o_subscription (e_data_object event))); [|congruence].
    rewrite Hpi.
    rewrite (bind_Return _ _ _ _ _
               (retrieve_ok env _ (stored_world env now event w) subscription
                  Hret)).
    rewrite Huid.
    rewrite (payment_create_run env now uid pi _ _ _ _ u);
      [reflexivity | | |]; simpl; assumption. }
  reflexivity.
Qed.

Lemma invoice_paid_records_payment_witness :
  let r := handleWebhook (Demo2.env true) 5 "sig" "paid" Demo.world0 in
  fst r = Return tt
  /\ payments (db (snd r))
     = [mkPayment "x" "u1" "pi_1" 1999 "eur" "succeeded" (Some "card")
          (Some "click-7") 5].
Proof.
  cbv zeta.
  rewrite (invoice_paid_records_payment (Demo2.env true) 5 "sig" "paid"
             (mkStripeEvent "evt_p" "invoice.payment_succeeded" 5
                (Demo2.invoice (Some "pi_1")))
             Demo.world0 (Demo2.subscription (Some "u1")) "u1" Demo.user1
             "pi_1" eq_refl eq_refl eq_refl).
  - split; reflexivity.
  - discriminate.
  - reflexivity.
  - reflexivity.
  - reflexivity.
  - reflexivity.
  - simpl. tauto.
  - reflexivity.
Defined.





(** X15: the handlers do not run in a transaction.  When a checkout names
    an existing user but its payment intent is already recorded,
    [handleWebhook] throws a Prisma error (P2002, of the unique constraint,
    when the session's total fits the 32-bit amount column, P2020 when it
    does not) and no payment is added, yet the user's subscription columns
    have been overwritten by then and stay so; the event is stored as
    processed with the error's message. *)
Theorem checkout_with_recorded_payment_still_subscribes
    env now signature payload event w subscription uid u pi :
  constructEvent env now payload signature (stripe_webhookSecret (config env))
    = Some event ->
  find (fun r => String.eqb (w_eventId r) (e_id event))
    (webhookEvents (db w)) = None ->
  e_type event = "checkout.session.completed" ->
  JS.truthy (o_metadata_userId (e_data_object event)) = Some uid ->
  subscriptions_retrieve env (length (remote_log w))
    (o_subscription (e_data_object event)) = inl subscription ->
  users (db w) !! uid = Some u ->
  JS.truthy (o_payment_intent (e_data_object event)) = Some pi ->
  In pi (map p_stripePaymentId (payments (db w))) ->
  let code := if JS.in_int32
                   (match JS.truthy_int (o_amount_total (e_data_object event))
                    with Some a => a | None => 0 end)
              then "P2002" else "P2020" in
  handleWebhook env now signature payload w
  = (Throw (PrismaClientKnownRequestError code (prisma_message env code)),
     mkWorld
       (mkDatabase
          (<[uid := subscribed env now subscription u]> (users (db w)))
          (payments (db w))
          (webhookEvents (db w)
             ++ [processed_row env now event (db w)
                   (Some (prisma_message env code))])
          (trackingEvents (db w)))
       (remote_log w
          ++ [StripeRetrieveSubscription (o_subscription (e_data_object event))])).
Proof.
  intros Hev Hnone Hty Huid Hret Hu Hpi Hdup code.
  erewrite (handleWebhook_throws env now signature payload event w _ _
              Hev Hnone); cycle 1.
  { rewrite (dispatch_checkout env now event Hty).
    unfold handleCheckoutSessionCompleted. rewrite Huid.
    rewrite (bind_Return _ _ _ _ _
               (retrieve_ok env _ (stored_world env now event w) subscription
                  Hret)).
    cbv beta.
    rewrite (bind_Return _ _ _ _ _
               (updateUserSubscription_run env now uid subscription
                  (mkWorld (db (stored_world env now event w))
                     (remote_log w
                        ++ [StripeRetrieveSubscription
                              (o_subscription (e_data_object event))]))
                  u Hu)).
    cbv beta.
    rewrite Hpi.
    rewrite payment_create_duplicate; [reflexivity | simpl; exact Hdup]. }
  reflexivity.
Qed.

Lemma checkout_with_recorded_payment_still_subscribes_witness :
  let r := handleWebhook (Demo2.env true) 5 "sig" "checkout"
             Demo2.paid_world in
  let r' := handleWebhook Demo3.env 5 "sig" "checkout" Demo2.paid_world in
  let subscribed_user :=
    mkUser "u1" None (Some "sub_9") (Some "trialing") (Some "monthly")
      (Some 1800000000000) (Some "click-7") 5 in
  (fst r = Throw (PrismaClientKnownRequestError "P2002" "prisma error P2002")
   /\ payments (db (snd r)) = payments (db Demo2.paid_world)
   /\ users (db (snd r)) !! "u1" = Some subscribed_user)
  /\ (fst r' = Throw (PrismaClientKnownRequestError "P2020" "prisma error P2020")
      /\ payments (db (snd r')) = payments (db Demo2.paid_world)
      /\ users (db (snd r')) !! "u1" = Some subscribed_user).
Proof.
  cbv zeta. split.
  - rewrite (checkout_with_recorded_payment_still_subscribes (Demo2.env true)
               5 "sig" "checkout"
               (mkStripeEvent "evt_c" "checkout.session.completed" 6
                  Demo2.session)
               Demo2.paid_world (Demo2.subscription (Some "u1")) "u1"
               Demo.user1 "pi_1"
               eq_refl eq_refl eq_refl eq_refl eq_refl eq_refl eq_refl).
    + split; [reflexivity|]. split; [reflexivity | vm_compute; reflexivity].
    + simpl. tauto.
  - rewrite (checkout_with_recorded_payment_still_subscribes Demo3.env
               5 "sig" "checkout"
               (mkStripeEvent "evt_c2" "checkout.session.completed" 9
                  Demo3.session)
               Demo2.paid_world (Demo2.subscription (Some "u1")) "u1"
               Demo.user1 "pi_1"
               eq_refl eq_refl eq_refl eq_refl eq_refl eq_refl eq_refl).
    + split; [reflexivity|]. split; [reflexivity | vm_compute; reflexivity].
    + simpl. tauto.
Defined.

(* ===================================================================== *)
(** ** The webhook route *)
(* ===================================================================== *)

(** X16: what [POST /webhook/stripe] answers.  Without a signature header
    (or with an empty one) it answers 400 "Missing signature" and touches
    nothing.  With one, the world is what [handleWebhook] leaves; the
    answer is 200 with [received] when [handleWebhook] returns, and 400
    with the message of the exception when it throws, a handler's
    exception included: the route never answers with a 5xx status and
    never throws. *)
Theorem stripeWebhookRoute_reply env now signature rawBody w :
  let r := stripeWebhookRoute env now signature rawBody w in
  (JS.truthy signature = None ->
     r = (Return (mkReply 400 (JsonError "Missing signature")), w))
  /\ (forall sig, JS.truthy signature = Some sig ->
        snd r = snd (handleWebhook env now sig rawBody w)
        /\ fst r
           = Return (match fst (handleWebhook env now sig rawBody w) with
                     | Return _ => mkReply 200 JsonReceived
                     | Throw error => mkReply 400 (JsonError (message error))
                     end))
  /\ exists reply,
       fst r = Return reply
       /\ (reply_status reply = 200 \/ reply_status reply = 400).
Proof.
  cbv zeta. unfold stripeWebhookRoute, try_catch, bind, ret.
  destruct (JS.truthy signature) as [sig|].
  - split; [discriminate|].
    destruct (handleWebhook env now sig rawBody w) as [[[]|err] w1] eqn:E;
      simpl.
    + split; [intros sig' [= <-]; rewrite E; split; reflexivity|].
      eexists; split; [reflexivity | left; reflexivity].
    + split; [intros sig' [= <-]; rewrite E; split; reflexivity|].
      eexists; split; [reflexivity | right; reflexivity].
  - split; [reflexivity|]. split; [discriminate|].
    eexists; split; [reflexivity | right; reflexivity].
Qed.

Lemma handleWebhook_stores env now signature payload event w :
  constructEvent env now payload signature (stripe_webhookSecret (config env))
    = Some event ->
  find (fun r => String.eqb (w_eventId r) (e_id event))
    (webhookEvents (db (snd (handleWebhook env now signature payload w))))
  <> None.
Proof.
  intros Hev.
  destruct (find (fun r => String.eqb (w_eventId r) (e_id event))
              (webhookEvents (db w))) as [row|] eqn:Hfind.
  - rewrite (handleWebhook_already_stored env now signature payload event w
               Hev); [simpl; congruence | congruence].
  - rewrite (handleWebhook_first_delivery env now signature payload event w
               Hev Hfind).
    destruct (fst (dispatch env now event _)) as [[]|err]; simpl;
      (rewrite (find_app_last _ _ _ Hfind);
       [discriminate | simpl; apply String.eqb_refl]).
Qed.

(** X17: an event whose handler failed is not handled again.  Once a
    verified event has been posted, whatever the answer was (400 included,
    when its handler threw), posting an event with the same id again is
    answered 200 with [received] and changes nothing: the redelivery by the
    payment provider does not run the handler a second time. *)
Theorem redelivery_is_acknowledged_without_handling
    env now signature payload event now2 signature2 payload2 event2 sig sig2 w :
  JS.truthy signature = Some sig ->
  constructEvent env now payload sig (stripe_webhookSecret (config env))
    = Some event ->
  JS.truthy signature2 = Some sig2 ->
  constructEvent env now2 payload2 sig2 (stripe_webhookSecret (config env))
    = Some event2 ->
  e_id event2 = e_id event ->
  let w1 := snd (stripeWebhookRoute env now signature payload w) in
  stripeWebhookRoute env now2 signature2 payload2 w1
  = (Return (mkReply 200 JsonReceived), w1).
Proof.
  intros Hsig Hev Hsig2 Hev2 Hid. cbv zeta.
  assert (Hw1 : snd (stripeWebhookRoute env now signature payload w)
                = snd (handleWebhook env now sig payload w)).
  { unfold stripeWebhookRoute, try_catch, bind, ret. rewrite Hsig.
    destruct (handleWebhook env now sig payload w) as [[[]|err] w1];
      reflexivity. }
  rewrite Hw1.
  unfold stripeWebhookRoute, try_catch, bind, ret. rewrite Hsig2.
  rewrite (handleWebhook_already_stored env now2 sig2 payload2 event2 _ Hev2);
    [reflexivity|].
  rewrite Hid. apply (handleWebhook_stores env now sig payload event w Hev).
Qed.

Lemma redelivery_is_acknowledged_without_handling_witness :
  let env := Demo.env_with (fun _ _ => Response 200) in
  let r1 := stripeWebhookRoute env 5 (Some "good") "ghost" Demo.world0 in
  fst r1 = Return (mkReply 400 (JsonError "prisma error P2025"))
  /\ stripeWebhookRoute env 9 (Some "good") "ghost" (snd r1)
     = (Return (mkReply 200 JsonReceived), snd r1).
Proof.
  cbv zeta. split; [vm_compute; reflexivity|].
  apply (redelivery_is_acknowledged_without_handling
           (Demo.env_with (fun _ _ => Response 200)) 5 (Some "good") "ghost"
           (mkStripeEvent "evt_3" "customer.subscription.deleted" 3
              (Demo.subscription_of (Some "nobody")))
           9 (Some "good") "ghost"
           (mkStripeEvent "evt_3" "customer.subscription.deleted" 3
              (Demo.subscription_of (Some "nobody")))
           "good" "good" Demo.world0); reflexivity.
Defined.

(* ===================================================================== *)
(** ** Invariants of the conversion ledger *)
(* ===================================================================== *)

Lemma trackCustomEvent_run env now eventType clickId w :
  trackCustomEvent env now eventType clickId w
  = (Return tt,
     mkWorld (mkDatabase (users (db w)) (payments (db w))
                (webhookEvents (db w))
                (trackingEvents (db w)
                   ++ [mkTrackingEvent (uuid env (map t_id (trackingEvents (db w))))
                         None eventType (Some clickId) None None None
                         false None now]))
       (remote_log w)).
Proof. reflexivity. Qed.

Lemma map_t_id_mark now ids (l : list TrackingEvent) :
  map t_id (map (mark now ids) l) = map t_id l.
Proof.
  rewrite List.map_map. apply List.map_ext. intros r. apply t_id_mark.
Qed.

Lemma NoDup_ids_snoc env (l : list TrackingEvent) row :
  t_id row = uuid env (map t_id l) ->
  List.NoDup (map t_id l) -> List.NoDup (map t_id (l ++ [row])).
Proof.
  intros Hid Hnd. rewrite map_app. simpl.
  apply List.NoDup_app; [exact Hnd | repeat constructor; simpl; tauto|].
  intros x Hx [<-|[]]. rewrite Hid in Hx. exact (uuid_fresh env _ Hx).
Qed.

(** X18: the row id stays a key of the conversion ledger.  When no two
    tracking events share an id, none do after a registration, a purchase
    or a custom event is tracked, nor after a sweep of the failed
    postbacks. *)
Theorem ledger_ids_stay_unique
    env now userId amount currency clickId eventType customClickId w :
  List.NoDup (map t_id (trackingEvents (db w))) ->
  List.NoDup (map t_id (trackingEvents
     (db (snd (trackRegistration env now userId clickId w)))))
  /\ List.NoDup (map t_id (trackingEvents
       (db (snd (trackPurchase env now userId amount currency clickId w)))))
  /\ List.NoDup (map t_id (trackingEvents
       (db (snd (trackCustomEvent env now eventType customClickId w)))))
  /\ List.NoDup (map t_id (trackingEvents
       (db (snd (retryFailedPostbacks env now w))))).
Proof.
  intros Hnd.
  rewrite trackRegistration_run, trackPurchase_run, trackCustomEvent_run,
    sweep_result.
  repeat split.
  - destruct (match JS.truthy clickId with
              | Some c => Some c
              | None => JS.truthy (stored_clickId userId (db w))
              end); simpl; [|exact Hnd].
    apply (NoDup_ids_snoc env); [reflexivity | exact Hnd].
  - destruct (match JS.truthy clickId with
              | Some c => Some c
              | None => JS.truthy (stored_clickId userId (db w))
              end); simpl; [|exact Hnd].
    destruct (JS.in_int32 _); simpl; [|exact Hnd].
    apply (NoDup_ids_snoc env); [reflexivity | exact Hnd].
  - simpl. apply (NoDup_ids_snoc env); [reflexivity | exact Hnd].
  - simpl. rewrite map_t_id_mark. exact Hnd.
Qed.

Lemma ledger_ids_stay_unique_witness :
  let env := Demo.env_with Demo.flaky in
  List.NoDup (map t_id (trackingEvents
     (db (snd (trackRegistration env 5 "u1" None Demo.world1)))))
  /\ List.NoDup (map t_id (trackingEvents
       (db (snd (trackPurchase env 5 "u1" 999 None None Demo.world1)))))
  /\ List.NoDup (map t_id (trackingEvents
       (db (snd (trackCustomEvent env 5 "view" "click-7" Demo.world1)))))
  /\ List.NoDup (map t_id (trackingEvents
       (db (snd (retryFailedPostbacks env 5 Demo.world1))))).
Proof.
  exact (ledger_ids_stay_unique (Demo.env_with Demo.flaky) 5 "u1" 999 None
           None "view" "click-7" Demo.world1 ledger_NoDup).
Defined.

Lemma sent_consistent_snoc (l : list TrackingEvent) row :
  sent_consistent row ->
  (forall r, In r l -> sent_consistent r) ->
  forall r, In r (l ++ [row]) -> sent_consistent r.
Proof.
  intros Hrow Hl r Hr. apply in_app_or in Hr.
  destruct Hr as [Hr|[<-|[]]]; auto.
Qed.

Lemma sent_consistent_fresh (success : bool) now r :
  t_sentToTracker r = success ->
  t_sentAt r = (if success then Some now else None) ->
  sent_consistent r.
Proof.
  unfold sent_consistent. intros -> ->.
  destruct success; split; congruence.
Qed.

(** X19: the sent flag and the sent timestamp agree.  When every tracking
    event is marked sent exactly when it has a sent timestamp, that is
    still so after a registration, a purchase or a custom event is
    tracked, and after a sweep of the failed postbacks. *)
Theorem ledger_sent_flag_matches_timestamp
    env now userId amount currency clickId eventType customClickId w :
  (forall r, In r (trackingEvents (db w)) -> sent_consistent r) ->
  (forall r, In r (trackingEvents
      (db (snd (trackRegistration env now userId clickId w)))) ->
      sent_consistent r)
  /\ (forall r, In r (trackingEvents
        (db (snd (trackPurchase env now userId amount currency clickId w)))) ->
        sent_consistent r)
  /\ (forall r, In r (trackingEvents
        (db (snd (trackCustomEvent env now eventType customClickId w)))) ->
        sent_consistent r)
  /\ (forall r, In r (trackingEvents
        (db (snd (retryFailedPostbacks env now w)))) ->
        sent_consistent r).
Proof.
  intros Hall.
  rewrite trackRegistration_run, trackPurchase_run, trackCustomEvent_run,
    sweep_result.
  split; [|split; [|split]].
  - destruct (match JS.truthy clickId with
              | Some c => Some c
              | None => JS.truthy (stored_clickId userId (db w))
              end); simpl; [|exact Hall].
    apply sent_consistent_snoc; [|exact Hall].
    eapply sent_consistent_fresh; reflexivity.
  - destruct (match JS.truthy clickId with
              | Some c => Some c
              | None => JS.truthy (stored_clickId userId (db w))
              end); simpl; [|exact Hall].
    destruct (JS.in_int32 _); simpl; [|exact Hall].
    apply sent_consistent_snoc; [|exact Hall].
    eapply sent_consistent_fresh; reflexivity.
  - simpl. apply sent_consistent_snoc; [|exact Hall].
    apply (sent_consistent_fresh false now); reflexivity.
  - simpl. intros r Hr. apply in_map_iff in Hr.
    destruct Hr as (r0 & <- & Hr0). unfold mark.
    destruct (existsb _ _); [|exact (Hall r0 Hr0)].
    apply (sent_consistent_fresh true now); reflexivity.
Qed.

Lemma ledger_sent_flag_matches_timestamp_witness :
  let env := Demo.env_with Demo.flaky in
  (forall r, In r (trackingEvents
      (db (snd (trackRegistration env 5 "u1" None Demo.world1)))) ->
      sent_consistent r)
  /\ (forall r, In r (trackingEvents
        (db (snd (trackPurchase env 5 "u1" 999 None None Demo.world1)))) ->
        sent_consistent r)
  /\ (forall r, In r (trackingEvents
        (db (snd (trackCustomEvent env 5 "view" "click-7" Demo.world1)))) ->
        sent_consistent r)
  /\ (forall r, In r (trackingEvents
        (db (snd (retryFailedPostbacks env 5 Demo.world1)))) ->
        sent_consistent r).
Proof.
  apply (ledger_sent_flag_matches_timestamp (Demo.env_with Demo.flaky) 5 "u1"
           999 None None "view" "click-7" Demo.world1).
  intros r Hr. simpl in Hr.
  repeat (destruct Hr as [<-|Hr]; [split; simpl; congruence|]).
  destruct Hr.
Defined.

(* ===================================================================== *)
(** ** More on the Retry Sweeper *)
(* ===================================================================== *)

Lemma mark_not_selected now env k selected r :
  ~ In (t_id r) (map t_id selected) ->
  mark now (sweep_ids env k selected) r = r.
Proof.
  intros Hnot. unfold mark.
  rewrite existsb_not_in; [reflexivity|].
  intros Hin. apply Hnot. exact (sweep_ids_subset env selected k _ Hin).
Qed.

(** X20: the sweeper changes nothing but the rows it selects.  With row
    ids that are distinct, a row that is already marked sent, or that was
    created more than 24 hours ago, is in the ledger after the sweep
    exactly as before; the ledger has the same rows ids in the same order;
    and users, payments and webhook events are untouched. *)
Theorem retryFailedPostbacks_leaves_other_rows env now w r :
  List.NoDup (map t_id (trackingEvents (db w))) ->
  In r (trackingEvents (db w)) ->
  t_sentToTracker r = true \/ t_createdAt r < now - 86400000 ->
  let w' := snd (retryFailedPostbacks env now w) in
  find (fun x => String.eqb (t_id x) (t_id r)) (trackingEvents (db w')) = Some r
  /\ map t_id (trackingEvents (db w')) = map t_id (trackingEvents (db w))
  /\ users (db w') = users (db w)
  /\ payments (db w') = payments (db w)
  /\ webhookEvents (db w') = webhookEvents (db w).
Proof.
  intros Hnd Hin Hout. cbv zeta. rewrite sweep_result. simpl.
  split; [|split; [apply map_t_id_mark | repeat split]].
  rewrite (find_mark now _ _ r Hnd Hin).
  rewrite mark_not_selected; [reflexivity|].
  intros Hsel. apply in_map_iff in Hsel. destruct Hsel as (e & Hid & He).
  assert (Hein : In e (trackingEvents (db w))).
  { apply In_firstn in He. apply filter_In in He. tauto. }
  assert (e = r) as -> by
    exact (NoDup_map_inj t_id _ e r Hnd Hein Hin Hid).
  apply In_firstn in He. apply filter_In in He. destruct He as [_ Hw].
  apply retry_where_true in Hw. destruct Hw as [Hunsent Hrecent].
  destruct Hout as [Hsent|Hold]; [congruence | lia].
Qed.

Lemma retryFailedPostbacks_leaves_other_rows_witness :
  let env := Demo.env_with (fun _ _ => Response 200) in
  let t3 := mkTrackingEvent "t3" (Some "u1") "registration" (Some "click-7")
              (Some "reg") None None false None (75 * Demo.hour) in
  let w' := snd (retryFailedPostbacks env (100 * Demo.hour) Demo.world1) in
  find (fun x => String.eqb (t_id x) "t3") (trackingEvents (db w')) = Some t3
  /\ map t_id (trackingEvents (db w')) = map t_id Demo.ledger
  /\ users (db w') = users (db Demo.world1)
  /\ payments (db w') = []
  /\ webhookEvents (db w') = [].
Proof.
  apply (retryFailedPostbacks_leaves_other_rows
           (Demo.env_with (fun _ _ => Response 200)) (100 * Demo.hour)
           Demo.world1
           (mkTrackingEvent "t3" (Some "u1") "registration" (Some "click-7")
              (Some "reg") None None false None (75 * Demo.hour))
           ledger_NoDup).
  - simpl. tauto.
  - right. vm_compute. reflexivity.
Defined.

Lemma length_omap_le {A B} (f : A -> option B) (l : list A) :
  (length (omap f l) <= length l)%nat.
Proof.
  induction l as [|x l IH]; [reflexivity|].
  change (omap f (x :: l))
    with (match f x with Some y => y :: omap f l | None => omap f l end).
  destruct (f x); simpl; lia.
Qed.

(** X21: a failing tracker never aborts a sweep, and the work of a sweep
    is bounded.  Whatever the ledger holds and whatever axios reports for
    each postback (no response and error statuses included),
    [retryFailedPostbacks] goes through its whole selection and returns
    normally; it calls [axios.get] once for each selected row that has a
    postback to re-send, in the order of the selection and with the URL of
    that row, hence at most 100 times. *)
Theorem retryFailedPostbacks_is_bounded env now w :
  let selected :=
    firstn 100 (List.filter (retry_where now) (trackingEvents (db w))) in
  let w' := snd (retryFailedPostbacks env now w) in
  fst (retryFailedPostbacks env now w) = Return tt
  /\ remote_log w'
     = remote_log w ++ map HttpGet (omap (retry_url env) selected)
  /\ (length (omap (retry_url env) selected) <= 100)%nat.
Proof.
  cbv zeta. rewrite sweep_result. simpl.
  split; [reflexivity|]. split; [reflexivity|].
  etransitivity; [apply length_omap_le | apply firstn_le_length].
Qed.

Lemma truthy_Some_inv o c : JS.truthy o = Some c -> JS.truthy (Some c) = Some c.
Proof.
  unfold JS.truthy. destruct o as [s|]; [|discriminate].
  destruct (String.eqb s "") eqn:E; [discriminate|].
  intros [= <-]. rewrite E. reflexivity.
Qed.

Lemma or_default_same s : JS.or_default (Some s) s = s.
Proof.
  unfold JS.or_default, JS.truthy. destruct (String.eqb s ""); reflexivity.
Qed.

Lemma or_default_nonempty s d : s <> "" -> JS.or_default (Some s) d = s.
Proof.
  intros Hs. unfold JS.or_default, JS.truthy.
  apply String.eqb_neq in Hs. rewrite Hs. reflexivity.
Qed.

Lemma retry_url_registration_row env now userId c success d o :
  JS.truthy o = Some c ->
  retry_url env (registration_row env now userId c success d)
  = Some (postback_url env c (keitaro_statuses_registration (config env))
            None None).
Proof.
  intros Hc. unfold retry_url, registration_row.
  cbn [t_subId t_eventType t_status t_amount t_currency].
  rewrite (truthy_Some_inv _ _ Hc), or_default_same. reflexivity.
Qed.

Lemma retry_url_purchase_row env now userId n cur c success d o :
  JS.truthy o = Some c -> n <> 0 -> cur <> "" ->
  retry_url env (purchase_row env now userId (inject_Z n) cur c success d)
  = Some (postback_url env c (keitaro_statuses_purchase (config env))
            (Some (inject_Z n / 100)%Q) (Some cur)).
Proof.
  intros Hc Hn Hcur. unfold retry_url, purchase_row.
  cbn [t_subId t_eventType t_status t_amount t_currency].
  rewrite (truthy_Some_inv _ _ Hc), or_default_same,
    (or_default_nonempty cur "USD" Hcur), Math_round_inject_Z.
  unfold JS.truthy_int. apply Z.eqb_neq in Hn. rewrite Hn. reflexivity.
Qed.

(** X22: what the sweeper re-sends is the postback that was sent.  For a
    registration, and for a purchase of a non-zero whole number of minor
    units that fits the 32-bit amount column, with a non-empty currency,
    tracked with a click identifier in effect, the URL the sweeper passes
    to [axios.get] for the row that was created is, parameter for
    parameter, the URL requested when the conversion was tracked. *)
Theorem retry_repeats_the_original_request
    env now userId (n : Z) currency clickId c w :
  (match JS.truthy clickId with
   | Some c => Some c
   | None => JS.truthy (stored_clickId userId (db w))
   end) = Some c ->
  (exists row url,
     trackingEvents (db (snd (trackRegistration env now userId clickId w)))
       = trackingEvents (db w) ++ [row]
     /\ remote_log (snd (trackRegistration env now userId clickId w))
        = remote_log w ++ [HttpGet url]
     /\ retry_url env row = Some url)
  /\ (n <> 0 -> JS.in_int32 n = true -> currency_or_USD currency <> "" ->
      exists row url,
        trackingEvents
          (db (snd (trackPurchase env now userId (inject_Z n) currency clickId w)))
          = trackingEvents (db w) ++ [row]
        /\ remote_log
             (snd (trackPurchase env now userId (inject_Z n) currency clickId w))
           = remote_log w ++ [HttpGet url]
        /\ retry_url env row = Some url).
Proof.
  intros Hc. rewrite trackRegistration_run, trackPurchase_run, Hc.
  assert (Hc' : JS.truthy (Some c) = Some c).
  { destruct (JS.truthy clickId) as [c0|] eqn:E.
    - injection Hc as <-. exact (truthy_Some_inv _ _ E).
    - exact (truthy_Some_inv _ _ Hc). }
  split.
  - eexists. eexists. cbv zeta. simpl.
    split; [reflexivity|]. split; [reflexivity|].
    apply (retry_url_registration_row env now userId c _ _ (Some c) Hc').
  - intros Hn Hrange Hcur. rewrite Math_round_inject_Z, Hrange.
    eexists. eexists. cbv zeta. simpl.
    split; [reflexivity|]. split; [reflexivity|].
    apply (retry_url_purchase_row env now userId n _ c _ _ (Some c) Hc' Hn Hcur).
Qed.

Lemma retry_repeats_the_original_request_witness :
  let env := Demo.env_with Demo.flaky in
  (exists row url,
     trackingEvents (db (snd (trackRegistration env 5 "u1" None Demo.world0)))
       = trackingEvents (db Demo.world0) ++ [row]
     /\ remote_log (snd (trackRegistration env 5 "u1" None Demo.world0))
        = remote_log Demo.world0 ++ [HttpGet url]
     /\ retry_url env row = Some url)
  /\ (999 <> 0 -> JS.in_int32 999 = true -> currency_or_USD None <> "" ->
      exists row url,
        trackingEvents
          (db (snd (trackPurchase env 5 "u1" (inject_Z 999) None None
                      Demo.world0)))
          = trackingEvents (db Demo.world0) ++ [row]
        /\ remote_log
             (snd (trackPurchase env 5 "u1" (inject_Z 999) None None
                     Demo.world0))
           = remote_log Demo.world0 ++ [HttpGet url]
        /\ retry_url env row = Some url).
Proof.
  exact (retry_repeats_the_original_request (Demo.env_with Demo.flaky) 5 "u1"
           999 None None "click-7" Demo.world0 eq_refl).
Defined.

Lemma delivered_false answer : answer <> Response 200 -> delivered answer = false.
Proof.
  destruct answer as [st|]; simpl; [|reflexivity].
  intros H. apply Z.eqb_neq. intros ->. apply H. reflexivity.
Qed.

(** X23: a failed purchase postback is recovered by the next sweep.  Track
    a purchase of a non-zero whole number of minor units that fits the
    32-bit amount column, with a click identifier and a non-empty
    currency, while the postback fails (axios reports anything but 200);
    then sweep within 24 hours, with fewer than 100 older rows waiting.
    The sweep first re-sends the postbacks of the rows that were already
    waiting and then calls [axios.get] with the URL of the purchase again,
    unchanged; the purchase's row ends marked sent at the time of the
    sweep exactly when axios reports 200 for that second call, and is as
    it was otherwise. *)
Theorem failed_purchase_is_recovered_by_sweep
    env now now2 userId (n : Z) currency clickId c w :
  JS.truthy clickId = Some c ->
  n <> 0 ->
  JS.in_int32 n = true ->
  currency_or_USD currency <> "" ->
  List.NoDup (map t_id (trackingEvents (db w))) ->
  let url := postback_url env c (keitaro_statuses_purchase (config env))
               (Some (inject_Z n / 100)%Q) (Some (currency_or_USD currency)) in
  axios_get env (length (remote_log w)) url <> Response 200 ->
  now2 - 86400000 <= now ->
  let waiting := List.filter (retry_where now2) (trackingEvents (db w)) in
  (length waiting < 100)%nat ->
  let row := purchase_row env now userId (inject_Z n)
               (currency_or_USD currency) c false (db w) in
  let w1 := snd (trackPurchase env now userId (inject_Z n) currency clickId w) in
  let w2 := snd (retryFailedPostbacks env now2 w1) in
  let k := (length (remote_log w) + 1
            + length (omap (retry_url env) waiting))%nat in
  remote_log w2
  = remote_log w ++ [HttpGet url]
      ++ map HttpGet (omap (retry_url env) waiting) ++ [HttpGet url]
  /\ find (fun r => String.eqb (t_id r) (t_id row)) (trackingEvents (db w2))
     = Some (if delivered (axios_get env k url)
             then sent_update now2 true row else row).
Proof.
  intros Hc Hn Hrange Hcur Hnd url Hfail Hrecent waiting Hfew row w1 w2 k.
  assert (Hw1 : w1 = mkWorld
                  (mkDatabase (users (db w)) (payments (db w))
                     (webhookEvents (db w)) (trackingEvents (db w) ++ [row]))
                  (remote_log w ++ [HttpGet url])).
  { unfold w1. rewrite trackPurchase_run, Hc, Math_round_inject_Z, Hrange.
    cbv zeta. fold url.
    rewrite (delivered_false _ Hfail). reflexivity. }
  assert (Hrow : retry_where now2 row = true).
  { apply retry_where_true. split; [reflexivity | exact Hrecent]. }
  assert (Hurl : retry_url env row = Some url).
  { apply (retry_url_purchase_row env now userId n _ c false (db w) clickId
             Hc Hn Hcur). }
  assert (Hsel : firstn 100 (List.filter (retry_where now2)
                               (trackingEvents (db w) ++ [row]))
                 = waiting ++ [row]).
  { rewrite List.filter_app. simpl. rewrite Hrow. fold waiting.
    apply firstn_all2. rewrite length_app. simpl. lia. }
  assert (Hnd1 : List.NoDup (map t_id (trackingEvents (db w) ++ [row]))).
  { apply (NoDup_ids_snoc env); [reflexivity | exact Hnd]. }
  unfold w2. rewrite sweep_result, Hw1. cbn [snd db trackingEvents remote_log].
  split.
  - rewrite Hsel.
    rewrite omap_app.
    change (omap (retry_url env) [row])
      with (match retry_url env row with Some y => [y] | None => [] end).
    rewrite Hurl, map_app, <- app_assoc. reflexivity.
  - rewrite (find_mark now2 _ _ row Hnd1)
      by (apply in_or_app; right; left; reflexivity).
    unfold mark.
    rewrite (sweep_ids_index env _ _ (length waiting) row
               (selected_NoDup now2 _ Hnd1)).
    + rewrite Hurl, Hsel, take_app_length, length_app. reflexivity.
    + rewrite Hsel. apply list_lookup_middle. reflexivity.
Qed.

Lemma failed_purchase_is_recovered_by_sweep_witness :
  let env := Demo.env_with Demo.flaky in
  let w1 := snd (trackPurchase env 5 "u1" (inject_Z 999) None (Some "abc")
                   Demo.world0) in
  let w2 := snd (retryFailedPostbacks env 9 w1) in
  remote_log w2
  = [HttpGet "https://tracker.example/postback?subid=abc&status=sale&key=k3y&payout=9.99&currency=USD";
     HttpGet "https://tracker.example/postback?subid=abc&status=sale&key=k3y&payout=9.99&currency=USD"]
  /\ find (fun r => String.eqb (t_id r) "x") (trackingEvents (db w2))
     = Some (mkTrackingEvent "x" (Some "u1") "purchase" (Some "abc")
               (Some "sale") (Some 999) (Some "USD") true (Some 9) 5).
Proof.
  apply (failed_purchase_is_recovered_by_sweep (Demo.env_with Demo.flaky) 5 9
           "u1" 999 None (Some "abc") "abc" Demo.world0).
  - reflexivity.
  - discriminate.
  - reflexivity.
  - discriminate.
  - constructor.
  - simpl. discriminate.
  - lia.
  - simpl. lia.
Defined.

(** X24: a purchase that rounds to zero minor units is never retried.  Its
    row is created and its postback is sent once; but the sweeper has no
    request for a purchase row whose stored amount is 0, so whenever it
    meets the row its iteration makes no request and changes nothing: if
    the first postback failed, the row stays unsent. *)
Theorem zero_amount_purchase_is_never_resent
    env now userId amount currency clickId c w :
  (match JS.truthy clickId with
   | Some c => Some c
   | None => JS.truthy (stored_clickId userId (db w))
   end) = Some c ->
  JS.Math_round amount = 0 ->
  exists row,
    trackingEvents (db (snd (trackPurchase env now userId amount currency clickId w)))
      = trackingEvents (db w) ++ [row]
    /\ length (remote_log (snd (trackPurchase env now userId amount currency
                                  clickId w)))
       = S (length (remote_log w))
    /\ t_amount row = Some 0
    /\ retry_url env row = None
    /\ forall now2 w0, retry_event env now2 row w0 = (Return tt, w0).
Proof.
  intros Hc Hzero. rewrite trackPurchase_run, Hc, Hzero.
  change (JS.in_int32 0) with true. cbv zeta. simpl.
  eexists. split; [reflexivity|].
  split; [rewrite length_app, Nat.add_1_r; reflexivity|].
  assert (Hurl : forall success,
            retry_url env (purchase_row env now userId amount
                             (currency_or_USD currency) c success (db w))
            = None).
  { intros success. unfold retry_url, purchase_row.
    cbn [t_subId t_eventType t_status t_amount t_currency].
    rewrite Hzero. destruct (JS.truthy (Some c)); reflexivity. }
  split; [simpl; rewrite Hzero; reflexivity|].
  split; [apply Hurl|].
  intros now2 w0. rewrite retry_event_run, Hurl. reflexivity.
Qed.

Lemma zero_amount_purchase_is_never_resent_witness :
  let env := Demo.env_with Demo.flaky in
  exists row,
    trackingEvents (db (snd (trackPurchase env 5 "u1" 0 None None Demo.world0)))
      = trackingEvents (db Demo.world0) ++ [row]
    /\ length (remote_log (snd (trackPurchase env 5 "u1" 0 None None
                                  Demo.world0)))
       = S (length (remote_log Demo.world0))
    /\ t_amount row = Some 0
    /\ retry_url env row = None
    /\ forall now2 w0, retry_event env now2 row w0 = (Return tt, w0).
Proof.
  exact (zero_amount_purchase_is_never_resent (Demo.env_with Demo.flaky) 5
           "u1" 0 None None "click-7" Demo.world0 eq_refl eq_refl).
Defined.

(** X25: a custom event is stored and not sent, with one exception at the
    sweep.  [trackCustomEvent] appends an unsent row without user, status
    or amount and makes no remote call.  The sweeper has a request for that
    row only when the event type is the string registration and the click
    identifier is not empty, and then re-sends it as a registration
    postback with the configured registration status; for every other
    type it never sends the row. *)
Theorem custom_event_is_stored_unsent env now eventType clickId w :
  let w' := snd (trackCustomEvent env now eventType clickId w) in
  exists row,
    trackCustomEvent env now eventType clickId w = (Return tt, w')
    /\ trackingEvents (db w') = trackingEvents (db w) ++ [row]
    /\ remote_log w' = remote_log w
    /\ t_eventType row = eventType
    /\ t_subId row = Some clickId
    /\ t_sentToTracker row = false
    /\ t_sentAt row = None
    /\ retry_url env row
       = (if String.eqb eventType "registration"
             && negb (String.eqb clickId "")
          then Some (postback_url env clickId
                       (keitaro_statuses_registration (config env)) None None)
          else None).
Proof.
  cbv zeta. rewrite trackCustomEvent_run. simpl.
  eexists. repeat (split; [reflexivity|]).
  unfold retry_url. cbn [t_subId t_eventType t_status t_amount t_currency].
  unfold JS.truthy.
  destruct (String.eqb clickId ""); simpl;
    [rewrite andb_false_r; reflexivity|].
  rewrite andb_true_r.
  destruct (String.eqb eventType "registration"); [reflexivity|].
  destruct (String.eqb eventType "purchase"); reflexivity.
Qed.

(* ===================================================================== *)
(** ** Click capture *)
(* ===================================================================== *)

Lemma truthy_Some o c : JS.truthy o = Some c <-> o = Some c /\ c <> "".
Proof.
  unfold JS.truthy. destruct o as [s|].
  - destruct (String.eqb_spec s "") as [->|Hne]; split.
    + discriminate.
    + intros [[= <-] H]. congruence.
    + intros [= <-]. tauto.
    + intros [[= <-] _]. reflexivity.
  - split; [discriminate | intros [H _]; discriminate H].
Qed.

Lemma first_param_Some query params c :
  first_param query params = Some c <->
  exists before p after,
    params = before ++ p :: after
    /\ JS.truthy (query !! p) = Some c
    /\ forall q, In q before -> JS.truthy (query !! q) = None.
Proof.
  induction params as [|p params IH]; simpl.
  - split; [discriminate|].
    intros (before & p & after & H & _). destruct before; discriminate H.
  - destruct (JS.truthy (query !! p)) as [v|] eqn:Hp.
    + split.
      * intros [= <-]. exists [], p, params. simpl. tauto.
      * intros (before & q & after & H & Hq & Hbefore).
        destruct before as [|b before]; simpl in H; injection H as Hb _.
        -- subst q. congruence.
        -- subst b. specialize (Hbefore p (or_introl eq_refl)). congruence.
    + rewrite IH. split.
      * intros (before & q & after & -> & Hq & Hbefore).
        exists (p :: before), q, after. simpl.
        split; [reflexivity|]. split; [exact Hq|].
        intros x [<-|Hx]; auto.
      * intros (before & q & after & H & Hq & Hbefore).
        destruct before as [|b before]; simpl in H; injection H as Hb Hrest.
        -- subst q. congruence.
        -- exists before, q, after. split; [exact Hrest|].
           split; [exact Hq|]. intros x Hx. apply Hbefore. right. exact Hx.
Qed.

Lemma first_param_None query params :
  first_param query params = None <->
  forall p, In p params -> JS.truthy (query !! p) = None.
Proof.
  induction params as [|p params IH]; simpl.
  - split; [intros _ p [] | reflexivity].
  - destruct (JS.truthy (query !! p)) as [v|] eqn:Hp.
    + split; [discriminate|]. intros H.
      specialize (H p (or_introl eq_refl)). congruence.
    + rewrite IH. split.
      * intros H q [<-|Hq]; auto.
      * intros H q Hq. apply H. right. exact Hq.
Qed.

(** X26: where the click identifier of a request comes from.
    [extractClickId] never returns an empty string; what it returns is the
    value of one of the five query parameters or of the [keitaro_subid]
    cookie; a non-empty [subid] parameter wins over everything; as soon as
    one of the five parameters is non-empty the cookies play no part; and
    the result is null exactly when the five parameters and the cookie are
    all missing or empty. *)
Theorem extractClickId_sources (req : Request) :
  (forall c, extractClickId req = Some c ->
     c <> ""
     /\ ((exists p, In p possibleParams /\ req_query req !! p = Some c)
         \/ (exists jar, req_cookies req = Some jar
                         /\ jar !! "keitaro_subid" = Some c)))
  /\ (forall v, JS.truthy (req_query req !! "subid") = Some v ->
        extractClickId req = Some v)
  /\ ((exists p, In p possibleParams
                 /\ JS.truthy (req_query req !! p) <> None) ->
      forall cookies,
        extractClickId (mkRequest (req_query req) cookies
                          (req_keitaroClickId req))
        = extractClickId req)
  /\ (extractClickId req = None <->
      (forall p, In p possibleParams -> JS.truthy (req_query req !! p) = None)
      /\ JS.truthy (match req_cookies req with
                    | Some jar => jar !! "keitaro_subid"
                    | None => None
                    end) = None).
Proof.
  unfold extractClickId.
  split; [|split; [|split]].
  - intros c Hc.
    destruct (first_param (req_query req) possibleParams) as [v|] eqn:Hf.
    + injection Hc as ->. apply first_param_Some in Hf.
      destruct Hf as (before & p & after & Hparams & Hp & _).
      apply truthy_Some in Hp. destruct Hp as [Hp Hne].
      split; [exact Hne|]. left. exists p. split; [|exact Hp].
      rewrite Hparams. apply in_or_app. right. left. reflexivity.
    + apply truthy_Some in Hc. destruct Hc as [Hc Hne].
      split; [exact Hne|]. right.
      destruct (req_cookies req) as [jar|]; [|discriminate].
      exists jar. tauto.
  - intros v Hv. simpl. rewrite Hv. reflexivity.
  - intros (p & Hp & Htruthy) cookies. cbn [req_query req_cookies].
    destruct (first_param (req_query req) possibleParams) as [v|] eqn:Hf;
      [reflexivity|].
    exfalso. apply Htruthy.
    exact (proj1 (first_param_None _ _) Hf p Hp).
  - destruct (first_param (req_query req) possibleParams) as [v|] eqn:Hf.
    + split; [discriminate|]. intros [Hall _].
      pose proof (proj2 (first_param_None _ _) Hall). congruence.
    + pose proof (proj1 (first_param_None _ _) Hf). tauto.
Qed.

(** X27: the click identifier survives in the cookie.  When a request
    carries a click identifier, the middleware puts it on the request and
    sets exactly one cookie, [keitaro_subid], with that value, for 30 days,
    HTTP-only, secure in production only; the query and the cookies of the
    request are as they were.  A later request that brings that cookie back
    and has none of the five parameters yields the same identifier; a later
    request that brings the cookie back together with a new non-empty
    [subid] yields the new one.  A request without click identifier passes
    through unchanged and sets no cookie. *)
Theorem trackingMiddleware_round_trip app_env (req : Request)
    (res : ExpressResponse) :
  (extractClickId req = None ->
     trackingMiddleware app_env req res = (req, res))
  /\ forall c, extractClickId req = Some c ->
       trackingMiddleware app_env req res
       = (mkRequest (req_query req) (req_cookies req) (Some c),
          res ++ [mkCookie "keitaro_subid" c
                    (mkCookieOptions 2592000000 true
                       (String.eqb app_env "production") "lax")])
       /\ (forall later jar,
             req_cookies later = Some jar ->
             jar !! "keitaro_subid" = Some c ->
             (forall p, In p possibleParams ->
                JS.truthy (req_query later !! p) = None) ->
             extractClickId later = Some c)
       /\ (forall later jar c',
             req_cookies later = Some jar ->
             jar !! "keitaro_subid" = Some c ->
             JS.truthy (req_query later !! "subid") = Some c' ->
             fst (trackingMiddleware app_env later [])
             = mkRequest (req_query later) (req_cookies later) (Some c')).
Proof.
  split.
  - intros Hnone. unfold trackingMiddleware. rewrite Hnone. reflexivity.
  - intros c Hc. split; [|split].
    + unfold trackingMiddleware. rewrite Hc. reflexivity.
    + intros later jar Hjar Hcookie Hparams.
      destruct (extractClickId_sources req) as (Hsrc & _).
      destruct (Hsrc c Hc) as [Hne _].
      unfold extractClickId.
      rewrite (proj2 (first_param_None _ _) Hparams), Hjar, Hcookie.
      apply truthy_Some. tauto.
    + intros later jar c' Hjar Hcookie Hsubid.
      unfold trackingMiddleware, extractClickId. simpl.
      rewrite Hsubid. reflexivity.
Qed.

(* ===================================================================== *)
(** ** The query of a postback *)
(* ===================================================================== *)

Lemma count_char_append x s1 s2 :
  count_char x (s1 ++ s2)%string = (count_char x s1 + count_char x s2)%nat.
Proof.
  induction s1 as [|c s1 IH]; simpl; [reflexivity|]. rewrite IH. lia.
Qed.

Lemma encode_byte_no_separator c :
  count_char "&" (URLSearchParams.encode_byte c) = 0%nat
  /\ count_char "=" (URLSearchParams.encode_byte c) = 0%nat.
Proof.
  destruct c as [b0 b1 b2 b3 b4 b5 b6 b7].
  destruct b0, b1, b2, b3, b4, b5, b6, b7; vm_compute; split; reflexivity.
Qed.

Lemma encode_no_separator s :
  count_char "&" (URLSearchParams.encode s) = 0%nat
  /\ count_char "=" (URLSearchParams.encode s) = 0%nat.
Proof.
  induction s as [|c s [IH1 IH2]]; simpl; [split; reflexivity|].
  rewrite !count_char_append, IH1, IH2.
  destruct (encode_byte_no_separator c) as [-> ->]. split; reflexivity.
Qed.

Lemma toString_separators (params : URLSearchParams.t) :
  count_char "&" (URLSearchParams.toString params) = pred (length params)
  /\ count_char "=" (URLSearchParams.toString params) = length params.
Proof.
  induction params as [|[k v] rest [IH1 IH2]]; [split; reflexivity|].
  destruct (encode_no_separator k) as [Hk1 Hk2].
  destruct (encode_no_separator v) as [Hv1 Hv2].
  destruct rest as [|kv rest].
  - simpl. rewrite !count_char_append, Hk1, Hk2, Hv1, Hv2. split; reflexivity.
  - change (URLSearchParams.toString ((k, v) :: kv :: rest))
      with (URLSearchParams.encode k ++ "=" ++ URLSearchParams.encode v ++ "&"
              ++ URLSearchParams.toString (kv :: rest))%string.
    rewrite !count_char_append, Hk1, Hk2, Hv1, Hv2, IH1, IH2.
    simpl. split; lia.
Qed.

(** X28: a value cannot break out of its parameter.  Whatever characters
    the click identifier, the status, the key and the currency contain,
    the query of a postback has one [=] per parameter and one [&] between
    two parameters and no other: [subid], [status] and [key], then [payout]
    when an amount is given, then [currency] when a non-empty currency is
    given. *)
Theorem postback_query_is_well_formed env clickId status amount currency :
  let params := postback_params env clickId status amount currency in
  let query := URLSearchParams.toString params in
  map fst params
  = ["subid"; "status"; "key"]
      ++ (match amount with Some _ => ["payout"] | None => [] end)
      ++ (match JS.truthy currency with Some _ => ["currency"] | None => [] end)
  /\ count_char "=" query = length params
  /\ count_char "&" query = pred (length params).
Proof.
  cbv zeta.
  destruct (toString_separators
              (postback_params env clickId status amount currency))
    as [Hamp Heq].
  split; [|split; assumption].
  unfold postback_params, URLSearchParams.append.
  destruct amount, (JS.truthy currency); reflexivity.
Qed.
